(** * Job cards: validation flags, efficiency periods and split allocation

    A shallow embedding of the three services of the backend
    ([app/services/validation_engine.py], [efficiency_engine.py],
    [split_service.py]) together with the part of [app/models/models.py]
    they read and write, and of [_auto_split_hours] of
    [app/routes/supervisor.py], followed by the properties proved about
    them.

    Conventions of the embedding.
    - The database behind the [AsyncSession] is a record of tables; a table
      is the list of its rows in storage order, and a query without
      [ORDER BY] returns the matching rows in that order.
    - A Python [float] is an exact rational ([Qc]): the arithmetic of the
      services is followed operation by operation, but binary rounding,
      overflow and NaN are outside the model.  [round(x, n)] rounds the
      exact value half-to-even.  Where overflow decides a property, the
      computation is embedded a second time over IEEE-754 binary64
      numbers (module [Binary64]).
    - An exception is a value of [Py.exn]; code that can raise returns a
      [Py.result]. *)

From Stdlib Require Import ZArith QArith Qcanon Qround Qabs List String Ascii Bool.
From Stdlib Require Import Lia DecimalString Permutation Sorted.
From Stdlib Require PrimFloat FloatOps FloatAxioms SpecFloat Uint63.
Import ListNotations.

(** ** Python values *)

Module Py.

Inductive exn : Set :=
| ValueError
| ZeroDivisionError
| MultipleResultsFound.

Inductive result (A : Type) : Type :=
| Ok (a : A)
| Raise (e : exn).

Arguments Ok {A} a.
Arguments Raise {A} e.

Definition bind {A B : Type} (m : result A) (k : A -> result B) : result B :=
  match m with
  | Ok a => k a
  | Raise e => Raise e
  end.

Notation "x <- m ;; k" := (bind m (fun x => k))
  (at level 61, m at next level, right associativity).

(** [for x in l: s = step(s, x)], stopping at the first exception. *)
Fixpoint for_each {S A : Type} (step : S -> A -> result S) (l : list A) (s : S)
  : result S :=
  match l with
  | [] => Ok s
  | x :: l' => s' <- step s x ;; for_each step l' s'
  end.

(** *** Numbers *)

(** [float]: an exact rational. *)
Abbreviation float := Qc (only parsing).

Definition of_int (z : Z) : float := Q2Qc (inject_Z z).

Definition float_ltb (x y : float) : bool :=
  match (x ?= y)%Qc with Lt => true | _ => false end.

Definition float_leb (x y : float) : bool :=
  match (x ?= y)%Qc with Gt => false | _ => true end.

Definition float_eqb (x y : float) : bool :=
  match (x ?= y)%Qc with Eq => true | _ => false end.

(** [x or d] on a float: zero is falsy. *)
Definition or_float (x d : float) : float :=
  if float_eqb x (of_int 0) then d else x.

(** [x or d] on an optional float: [None] and zero are falsy. *)
Definition or_default (x : option float) (d : float) : float :=
  match x with
  | Some v => or_float v d
  | None => d
  end.

(** [max(a, b)]: the second argument wins only when strictly greater. *)
Definition max (a b : float) : float := if float_ltb a b then b else a.

(** [a / b]. *)
Definition truediv (a b : float) : result float :=
  if float_eqb b (of_int 0) then Raise ZeroDivisionError else Ok (a / b)%Qc.

(** [sum(l)]: a left fold from [0]. *)
Definition sum (l : list float) : float :=
  fold_left Qcplus l (of_int 0).

Definition round_half_even (q : Q) : Z :=
  let f := Qfloor q in
  match ((q - inject_Z f) ?= (1 # 2))%Q with
  | Lt => f
  | Gt => (f + 1)%Z
  | Eq => if Z.even f then f else (f + 1)%Z
  end.

(** [round(x, ndigits)]. *)
Definition round (x : float) (ndigits : nat) : float :=
  let scale := Pos.pow 10 (Pos.of_nat ndigits) in
  match ndigits with
  | O => of_int (round_half_even x)
  | S _ => Q2Qc (round_half_even (x * inject_Z (Zpos scale)) # scale)
  end.

(** *** Text *)

Definition str_int (z : Z) : string := NilZero.string_of_int (Z.to_int z).

Fixpoint replicate0 (n : nat) : string :=
  match n with
  | O => EmptyString
  | S n' => String "0" (replicate0 n')
  end.

(** ["%0{width}d" % z] for a non-negative [z]. *)
Definition zfill (width : nat) (z : Z) : string :=
  let s := str_int z in
  (replicate0 (width - String.length s) ++ s)%string.

(** [sep.join(l)]. *)
Fixpoint join (sep : string) (l : list string) : string :=
  match l with
  | [] => EmptyString
  | [s] => s
  | s :: l' => (s ++ sep ++ join sep l')%string
  end.

(** [s.split(sep)] for a one-character separator: the fields between the
    separators, at least one. *)
Fixpoint split (sep : ascii) (s : string) : list string :=
  match s with
  | EmptyString => [EmptyString]
  | String c s' =>
      if Ascii.eqb c sep then EmptyString :: split sep s'
      else match split sep s' with
           | [] => [String c EmptyString]
           | w :: ws => String c w :: ws
           end
  end.

Definition digit_of (c : ascii) : option Z :=
  let n := Z.of_nat (nat_of_ascii c) in
  if ((48 <=? n) && (n <=? 57))%Z then Some (n - 48)%Z else None.

(** The ASCII characters [str.strip] removes: tab to carriage return,
    the four separators and the blank. *)
Definition is_space (c : ascii) : bool :=
  let n := Z.of_nat (nat_of_ascii c) in
  (((9 <=? n) && (n <=? 13)) || ((28 <=? n) && (n <=? 32)))%Z.

Fixpoint lstrip (s : string) : string :=
  match s with
  | String c s' => if is_space c then lstrip s' else s
  | EmptyString => EmptyString
  end.

Fixpoint rstrip (s : string) : string :=
  match s with
  | EmptyString => EmptyString
  | String c s' =>
      match rstrip s' with
      | EmptyString => if is_space c then EmptyString else String c EmptyString
      | t => String c t
      end
  end.

(** The digits after a first digit: each may be preceded by one
    underscore. *)
Fixpoint digits_value (acc : Z) (s : string) : option Z :=
  match s with
  | EmptyString => Some acc
  | String c s' =>
      match digit_of c with
      | Some d => digits_value (10 * acc + d) s'
      | None =>
          if Ascii.eqb c "_"
          then match s' with
               | String c' s'' =>
                   match digit_of c' with
                   | Some d => digits_value (10 * acc + d) s''
                   | None => None
                   end
               | EmptyString => None
               end
          else None
      end
  end.

(** [int(s)] in base 10 on ASCII text: surrounding whitespace is
    stripped, then come an optional sign and digits, with single
    underscores allowed between digits; every other string is a
    [ValueError]. *)
Definition int (s : string) : result Z :=
  let unsigned (t : string) (sign : Z) :=
    match t with
    | EmptyString => Raise ValueError
    | String c t' =>
        match digit_of c with
        | Some d =>
            match digits_value d t' with
            | Some v => Ok (sign * v)%Z
            | None => Raise ValueError
            end
        | None => Raise ValueError
        end
    end in
  match rstrip (lstrip s) with
  | String "+" t => unsigned t 1%Z
  | String "-" t => unsigned t (-1)%Z
  | t => unsigned t 1%Z
  end.

(** A segment of a formatted message: literal text (with the integers and
    dates already rendered) or a float still to be rendered. *)
Inductive piece : Set :=
| Text (s : string)
| Num (x : float).

(** *** [datetime.date] *)

Record date : Set := Date { year : Z; month : Z; day : Z }.

Definition is_leap (y : Z) : bool :=
  ((y mod 4 =? 0) && (negb (y mod 100 =? 0) || (y mod 400 =? 0)))%Z.

Definition days_in_month (y m : Z) : Z :=
  if (m =? 2)%Z then (if is_leap y then 29 else 28)%Z
  else if ((m =? 4) || (m =? 6) || (m =? 9) || (m =? 11))%Z then 30%Z
  else 31%Z.

(** [date(y, m, d)]. *)
Definition mk_date (y m d : Z) : result date :=
  if ((1 <=? y) && (y <=? 9999) && (1 <=? m) && (m <=? 12)
      && (1 <=? d) && (d <=? days_in_month y m))%Z
  then Ok (Date y m d)
  else Raise ValueError.

Definition date_compare (a b : date) : comparison :=
  match (year a ?= year b)%Z with
  | Eq => match (month a ?= month b)%Z with
          | Eq => (day a ?= day b)%Z
          | c => c
          end
  | c => c
  end.

Definition date_ltb (a b : date) : bool :=
  match date_compare a b with Lt => true | _ => false end.

Definition date_leb (a b : date) : bool :=
  match date_compare a b with Gt => false | _ => true end.

(** [d.isoformat()], also [str(d)]. *)
Definition isoformat (d : date) : string :=
  (zfill 4 (year d) ++ "-" ++ zfill 2 (month d) ++ "-" ++ zfill 2 (day d))%string.

(** [d - relativedelta(months=1)]: the month before, the day clipped to
    that month's length, rebuilt with [d.replace]. *)
Definition minus_one_month (d : date) : result date :=
  let m := (month d - 1)%Z in
  let '(y, m) := if (m <? 1)%Z then ((year d - 1)%Z, (m + 12)%Z) else (year d, m) in
  mk_date y m (Z.min (days_in_month y m) (day d)).

End Py.

Import Py.

(** ** The tables ([app/models/models.py])

    Each record keeps the columns the three services read or write.  A row
    read from a table has its primary key, so [id] is a plain integer; a
    [ValidationFlag] built by a rule has none until it is committed.  A
    nullable foreign key is an [option]. *)

Inductive EfficiencyTypeEnum : Set := TIME_BASED | QUANTITY_BASED | TASK_BASED.

Inductive JobCardStatusEnum : Set := IC | C.

Inductive FlagTypeEnum : Set :=
| DUPLICATION
| OUTSIDE_MSD
| AWC
| SPLIT_CANDIDATE
| QTY_MISMATCH.

Definition EfficiencyTypeEnum_eqb (a b : EfficiencyTypeEnum) : bool :=
  match a, b with
  | TIME_BASED, TIME_BASED | QUANTITY_BASED, QUANTITY_BASED
  | TASK_BASED, TASK_BASED => true
  | _, _ => false
  end.

Definition JobCardStatusEnum_eqb (a b : JobCardStatusEnum) : bool :=
  match a, b with
  | IC, IC | C, C => true
  | _, _ => false
  end.

Definition FlagTypeEnum_eqb (a b : FlagTypeEnum) : bool :=
  match a, b with
  | DUPLICATION, DUPLICATION | OUTSIDE_MSD, OUTSIDE_MSD | AWC, AWC
  | SPLIT_CANDIDATE, SPLIT_CANDIDATE | QTY_MISMATCH, QTY_MISMATCH => true
  | _, _ => false
  end.

Module EfficiencyEmployee.
Record t : Set := Build { id : Z; team : option string }.
End EfficiencyEmployee.

Module ActivityCode.
Record t : Set := Build {
  id : Z;
  std_hours_per_unit : option float;
  std_qty_per_hour : option float;
  efficiency_type : EfficiencyTypeEnum
}.
End ActivityCode.

Module WorkOrder.
Record t : Set := Build {
  id : Z;
  machine_id : Z;
  planned_qty : float;
  msd_month : string
}.
End WorkOrder.

Module JobCard.
Record t : Set := Build {
  id : Z;
  employee_id : option Z;
  machine_id : option Z;
  work_order_id : option Z;
  activity_code_id : option Z;
  qty : float;
  actual_hours : float;
  status : JobCardStatusEnum;
  entry_date : date
}.
End JobCard.

Module ValidationFlag.
Record t : Set := Build {
  id : option Z;
  job_card_id : Z;
  flag_type : FlagTypeEnum;
  details : list piece;
  resolved : bool
}.
End ValidationFlag.

Module EfficiencyPeriod.
Record t : Set := Build {
  id : Z;
  employee_id : Z;
  period_start : date;
  period_end : date;
  time_efficiency : option float;
  task_efficiency : option float;
  quantity_efficiency : option float;
  awc_pct : float;
  standard_hours_allowed : float;
  actual_hours : float
}.
End EfficiencyPeriod.

(** ** The session: the tables and the next primary keys of the two tables
    the services insert into. *)

Module Session.

Record t : Set := Build {
  employees : list EfficiencyEmployee.t;
  activity_codes : list ActivityCode.t;
  work_orders : list WorkOrder.t;
  job_cards : list JobCard.t;
  validation_flags : list ValidationFlag.t;
  efficiency_periods : list EfficiencyPeriod.t;
  next_flag_id : Z;
  next_period_id : Z
}.

(** [column == value] and [column != value] as SQLAlchemy renders them for
    a nullable column against a Python value: [IS NULL] / [IS NOT NULL]
    when the value is [None], and never true on a NULL column otherwise. *)
Definition sql_eq (column value : option Z) : bool :=
  match value, column with
  | None, None => true
  | Some v, Some x => (x =? v)%Z
  | _, _ => false
  end.

Definition sql_ne (column value : option Z) : bool :=
  match value, column with
  | None, Some _ => true
  | Some v, Some x => negb (x =? v)%Z
  | _, _ => false
  end.

(** [column.in_(values)]. *)
Definition sql_in (column : option Z) (values : list Z) : bool :=
  match column with
  | Some x => existsb (Z.eqb x) values
  | None => false
  end.

(** [result.scalar_one_or_none()]. *)
Definition scalar_one_or_none {A : Type} (rows : list A) : result (option A) :=
  match rows with
  | [] => Ok None
  | [r] => Ok (Some r)
  | _ => Raise MultipleResultsFound
  end.

(** [select(WorkOrder).where(WorkOrder.id == work_order_id)], then
    [scalar_one_or_none()]. *)
Definition get_work_order (s : t) (work_order_id : option Z)
  : result (option WorkOrder.t) :=
  scalar_one_or_none
    (filter (fun wo => sql_eq (Some (WorkOrder.id wo)) work_order_id)
            (work_orders s)).

(** [session.delete(flag)] at the next flush: the row with that primary key
    goes. *)
Definition delete_flag (f : ValidationFlag.t) (s : t) : t :=
  Build (employees s) (activity_codes s) (work_orders s) (job_cards s)
    (filter (fun g =>
               match ValidationFlag.id g, ValidationFlag.id f with
               | Some x, Some y => negb (x =? y)%Z
               | _, _ => true
               end) (validation_flags s))
    (efficiency_periods s) (next_flag_id s) (next_period_id s).

(** [session.add(flag)] of a new flag, as flushed: the row is appended
    under the next primary key, which the object receives. *)
Definition add_flag (f : ValidationFlag.t) (s : t) : t * ValidationFlag.t :=
  let f' := ValidationFlag.Build (Some (next_flag_id s))
              (ValidationFlag.job_card_id f) (ValidationFlag.flag_type f)
              (ValidationFlag.details f) (ValidationFlag.resolved f) in
  (Build (employees s) (activity_codes s) (work_orders s) (job_cards s)
     (validation_flags s ++ [f'])
     (efficiency_periods s) (next_flag_id s + 1)%Z (next_period_id s),
   f').

Definition with_efficiency_periods (s : t) (rows : list EfficiencyPeriod.t)
  (next : Z) : t :=
  Build (employees s) (activity_codes s) (work_orders s) (job_cards s)
    (validation_flags s) rows (next_flag_id s) next.

End Session.

(** ** Validation engine ([app/services/validation_engine.py]) *)

Module ValidationEngine.

Definition Rule : Type := JobCard.t -> Session.t -> result (list ValidationFlag.t).

(** A flag as a rule builds it: no primary key yet. *)
Definition new_flag (job_card_id : Z) (flag_type : FlagTypeEnum)
  (details : list piece) : ValidationFlag.t :=
  ValidationFlag.Build None job_card_id flag_type details false.

(** [msd_year, msd_month = map(int, work_order.msd_month.split('-'))]. *)
Definition parse_msd_month (s : string) : result (Z * Z) :=
  match split "-" s with
  | [a; b] => y <- int a ;; m <- int b ;; Ok (y, m)
  | _ => Raise ValueError
  end.

(** The window of a payroll month: the 25th of the month before to the
    10th of the month. *)
Definition msd_window (msd_year msd_month : Z) : result (date * date) :=
  msd_date <- mk_date msd_year msd_month 1 ;;
  prev_month <- minus_one_month msd_date ;;
  window_start <- mk_date (year prev_month) (month prev_month) 25 ;;
  window_end <- mk_date msd_year msd_month 10 ;;
  Ok (window_start, window_end).

(** Rule 1. *)
Definition msd_window_rule : Rule := fun jobcard session =>
  work_order <- Session.get_work_order session (JobCard.work_order_id jobcard) ;;
  match work_order with
  | None => Ok []
  | Some work_order =>
      ym <- parse_msd_month (WorkOrder.msd_month work_order) ;;
      w <- msd_window (fst ym) (snd ym) ;;
      let '(window_start, window_end) := w in
      if date_ltb (JobCard.entry_date jobcard) window_start
         || date_ltb window_end (JobCard.entry_date jobcard)
      then Ok [new_flag (JobCard.id jobcard) OUTSIDE_MSD
                 [Text ("Entry date " ++ isoformat (JobCard.entry_date jobcard)
                        ++ " is outside MSD window " ++ isoformat window_start
                        ++ " to " ++ isoformat window_end
                        ++ " for month " ++ WorkOrder.msd_month work_order)]]
      else Ok []
  end.

(** Rule 2. *)
Definition duplication_rule : Rule := fun jobcard session =>
  work_order <- Session.get_work_order session (JobCard.work_order_id jobcard) ;;
  match work_order with
  | None => Ok []
  | Some work_order =>
      let msd_month := WorkOrder.msd_month work_order in
      let wo_ids_in_month :=
        map WorkOrder.id
          (filter (fun wo => String.eqb (WorkOrder.msd_month wo) msd_month)
                  (Session.work_orders session)) in
      let duplicates :=
        filter (fun jc =>
                  negb (JobCard.id jc =? JobCard.id jobcard)%Z
                  && Session.sql_in (JobCard.work_order_id jc) wo_ids_in_month
                  && Session.sql_eq (JobCard.machine_id jc) (JobCard.machine_id jobcard)
                  && Session.sql_eq (JobCard.work_order_id jc)
                       (JobCard.work_order_id jobcard)
                  && Session.sql_eq (JobCard.activity_code_id jc)
                       (JobCard.activity_code_id jobcard))
               (Session.job_cards session) in
      match duplicates with
      | [] => Ok []
      | _ =>
          let evidence :=
            map (fun jc => ("JobCard ID " ++ str_int (JobCard.id jc) ++ " (date: "
                            ++ isoformat (JobCard.entry_date jc) ++ ")")%string)
                (firstn 3 duplicates) in
          let evidence_str := join ", " evidence in
          let evidence_str :=
            if (3 <? List.length duplicates)%nat
            then (evidence_str ++ " and "
                  ++ str_int (Z.of_nat (List.length duplicates) - 3) ++ " more")%string
            else evidence_str in
          Ok [new_flag (JobCard.id jobcard) DUPLICATION
                [Text ("Found " ++ str_int (Z.of_nat (List.length duplicates))
                       ++ " duplicate(s) in MSD month " ++ msd_month
                       ++ " with same machine/WO/activity: " ++ evidence_str)]]
      end
  end.

(** Rule 3. *)
Definition awc_rule : Rule := fun jobcard session =>
  match JobCard.activity_code_id jobcard with
  | None =>
      Ok [new_flag (JobCard.id jobcard) AWC
            [Text "AWC detected: Job card has "; Num (JobCard.actual_hours jobcard);
             Text " hours but no activity_code_id assigned"]]
  | Some _ => Ok []
  end.

(** The query of rule 4: the completed cards on the same work order and
    activity by a different employee. *)
Definition completed_by_others (jobcard : JobCard.t) (session : Session.t)
  : list JobCard.t :=
  filter (fun jc =>
            negb (JobCard.id jc =? JobCard.id jobcard)%Z
            && Session.sql_eq (JobCard.work_order_id jc) (JobCard.work_order_id jobcard)
            && Session.sql_eq (JobCard.activity_code_id jc)
                 (JobCard.activity_code_id jobcard)
            && JobCardStatusEnum_eqb (JobCard.status jc) C
            && Session.sql_ne (JobCard.employee_id jc) (JobCard.employee_id jobcard))
         (Session.job_cards session).

(** Rule 4. *)
Definition split_candidate_rule : Rule := fun jobcard session =>
  if negb (JobCardStatusEnum_eqb (JobCard.status jobcard) IC) then Ok []
  else
    let completed_by_others := completed_by_others jobcard session in
    match completed_by_others with
    | [] => Ok []
    | _ =>
        let other_ids :=
          map (fun jc => str_int (JobCard.id jc)) (firstn 3 completed_by_others) in
        let other_ids_str := join ", " other_ids in
        Ok (new_flag (JobCard.id jobcard) SPLIT_CANDIDATE
              [Text ("Status=IC but related job card(s) " ++ other_ids_str
                     ++ " are Complete by different employee(s) - possible work split")]
            :: map (fun other_jc =>
                      new_flag (JobCard.id other_jc) SPLIT_CANDIDATE
                        [Text ("Status=C but related job card "
                               ++ str_int (JobCard.id jobcard)
                               ++ " is Incomplete by different employee"
                               ++ " - possible work split")])
                   completed_by_others)
    end.

(** Rule 5. *)
Definition qty_mismatch_rule : Rule := fun jobcard session =>
  work_order <- Session.get_work_order session (JobCard.work_order_id jobcard) ;;
  match work_order with
  | None => Ok []
  | Some work_order =>
      let flags :=
        if float_ltb (WorkOrder.planned_qty work_order) (JobCard.qty jobcard)
        then [new_flag (JobCard.id jobcard) QTY_MISMATCH
                [Text "Job card quantity ("; Num (JobCard.qty jobcard);
                 Text ") exceeds work order planned quantity (";
                 Num (WorkOrder.planned_qty work_order); Text ")"]]
        else [] in
      let all_job_cards :=
        filter (fun jc => Session.sql_eq (JobCard.work_order_id jc)
                            (JobCard.work_order_id jobcard))
               (Session.job_cards session) in
      let total_qty := sum (map JobCard.qty all_job_cards) in
      let tolerance := (WorkOrder.planned_qty work_order * Q2Qc 1.1)%Qc in
      if float_ltb tolerance total_qty
      then Ok (flags ++
               [new_flag (JobCard.id jobcard) QTY_MISMATCH
                  [Text "Total quantity across all job cards ("; Num total_qty;
                   Text ") exceeds planned (";
                   Num (WorkOrder.planned_qty work_order);
                   Text ") by more than 10%"]])
      else Ok flags
  end.

(** The engine: [self.rules], as [__init__] fills it. *)
Record t : Type := Build { rules : list Rule }.

Definition init : t :=
  Build [msd_window_rule; duplication_rule; awc_rule; split_candidate_rule;
         qty_mismatch_rule].

(** [_clear_existing_flags]: the unresolved flags of the card are selected
    and each is deleted. *)
Definition _clear_existing_flags (job_card_id : Z) (session : Session.t)
  : Session.t :=
  let existing_flags :=
    filter (fun f => (ValidationFlag.job_card_id f =? job_card_id)%Z
                     && negb (ValidationFlag.resolved f))
           (Session.validation_flags session) in
  fold_left (fun s flag => Session.delete_flag flag s) existing_flags session.

(** [for flag in all_flags: session.add(flag)], then the commit: the flags
    come back with their keys. *)
Fixpoint add_all (flags : list ValidationFlag.t) (session : Session.t)
  : Session.t * list ValidationFlag.t :=
  match flags with
  | [] => (session, [])
  | f :: flags' =>
      let '(s1, f') := Session.add_flag f session in
      let '(s2, rest) := add_all flags' s1 in
      (s2, f' :: rest)
  end.

(** [run_for_jobcard]: the session after the commit and the flags returned.
    An exception in a rule leaves the session as it was: nothing has been
    added or deleted by then. *)
Definition run_for_jobcard (self : t) (jobcard : JobCard.t) (session : Session.t)
  : result (Session.t * list ValidationFlag.t) :=
  all_flags <- for_each (fun all_flags rule =>
                           flags <- rule jobcard session ;;
                           Ok (all_flags ++ flags))
                        (rules self) [] ;;
  let session := _clear_existing_flags (JobCard.id jobcard) session in
  Ok (add_all all_flags session).

End ValidationEngine.

(** ** Efficiency engine ([app/services/efficiency_engine.py]) *)

Module EfficiencyEngine.

Definition EPS : float := Q2Qc (1 # 1000000).

(** The dictionary both computations return.  The key ["team"] exists only
    in a team average; its value may be [None]. *)
Module Payload.
Record t : Set := Build {
  employee_id : option Z;
  period_start : string;
  period_end : string;
  time_efficiency : float;
  task_efficiency : float;
  quantity_efficiency : float;
  awc_pct : float;
  standard_hours_allowed : float;
  actual_hours : float;
  team : option (option string)
}.
End Payload.

Definition date_eqb (a b : date) : bool :=
  match date_compare a b with Eq => true | _ => false end.

(** [_fetch_employee_jobcards]: the employee's cards of the period, each
    outer-joined to its activity code. *)
Definition _fetch_employee_jobcards (employee_id : Z) (period_start period_end : date)
  (session : Session.t) : list (JobCard.t * option ActivityCode.t) :=
  flat_map
    (fun jc =>
       match filter (fun act =>
                       match JobCard.activity_code_id jc with
                       | Some a => (a =? ActivityCode.id act)%Z
                       | None => false
                       end) (Session.activity_codes session) with
       | [] => [(jc, None)]
       | acts => map (fun act => (jc, Some act)) acts
       end)
    (filter (fun jc =>
               Session.sql_eq (JobCard.employee_id jc) (Some employee_id)
               && date_leb period_start (JobCard.entry_date jc)
               && date_leb (JobCard.entry_date jc) period_end)
            (Session.job_cards session)).

(** The accumulators of the loop over the fetched rows. *)
Record Totals : Set := {
  productive_hours : float;
  awc_hours : float;
  standard_hours_allowed : float;
  tasks_completed : Z;
  qty_eff_sum : float;
  qty_eff_count : Z
}.

Definition totals0 : Totals :=
  {| productive_hours := of_int 0; awc_hours := of_int 0;
     standard_hours_allowed := of_int 0; tasks_completed := 0;
     qty_eff_sum := of_int 0; qty_eff_count := 0 |}.

(** One turn of [for jc, act in rows]. *)
Definition accumulate_row (t : Totals) (row : JobCard.t * option ActivityCode.t)
  : result Totals :=
  let '(jc, act) := row in
  let hours := or_float (JobCard.actual_hours jc) (of_int 0) in
  let qty := or_float (JobCard.qty jc) (of_int 0) in
  match JobCard.activity_code_id jc, act with
  | Some _, Some act =>
      let productive_hours := (productive_hours t + hours)%Qc in
      let std_h := (or_default (ActivityCode.std_hours_per_unit act) (of_int 0) * qty)%Qc in
      let standard_hours_allowed := (standard_hours_allowed t + std_h)%Qc in
      let tasks_completed :=
        if EfficiencyTypeEnum_eqb (ActivityCode.efficiency_type act) TASK_BASED
        then (tasks_completed t + 1)%Z else tasks_completed t in
      if EfficiencyTypeEnum_eqb (ActivityCode.efficiency_type act) QUANTITY_BASED
      then
        let denom :=
          max (or_default (ActivityCode.std_qty_per_hour act) (of_int 0)
               * max hours (of_int 0))%Qc EPS in
        qty_eff <- truediv qty denom ;;
        Ok {| productive_hours := productive_hours; awc_hours := awc_hours t;
              standard_hours_allowed := standard_hours_allowed;
              tasks_completed := tasks_completed;
              qty_eff_sum := (qty_eff_sum t + qty_eff)%Qc;
              qty_eff_count := (qty_eff_count t + 1)%Z |}
      else
        Ok {| productive_hours := productive_hours; awc_hours := awc_hours t;
              standard_hours_allowed := standard_hours_allowed;
              tasks_completed := tasks_completed;
              qty_eff_sum := qty_eff_sum t;
              qty_eff_count := qty_eff_count t |}
  | _, _ =>
      Ok {| productive_hours := productive_hours t;
            awc_hours := (awc_hours t + hours)%Qc;
            standard_hours_allowed := standard_hours_allowed t;
            tasks_completed := tasks_completed t;
            qty_eff_sum := qty_eff_sum t;
            qty_eff_count := qty_eff_count t |}
  end.

(** The four ratios computed after the loop, before any rounding. *)
Record Ratios : Set := {
  awc_pct : float;
  time_efficiency : float;
  task_efficiency : float;
  quantity_efficiency : float
}.

Definition ratios (t : Totals) : result Ratios :=
  let tasks_planned : option Z := None in
  let tasks_planned :=
    match tasks_planned with
    | None => Z.max (tasks_completed t) 1
    | Some p => p
    end in
  let total_hours := (productive_hours t + awc_hours t)%Qc in
  awc_pct <- (if float_ltb (of_int 0) total_hours
              then truediv (awc_hours t) (max total_hours EPS)
              else Ok (of_int 0)) ;;
  q <- truediv (standard_hours_allowed t) (max (productive_hours t) EPS) ;;
  let time_efficiency := (q * of_int 100)%Qc in
  q <- truediv (of_int (tasks_completed t)) (of_int (Z.max tasks_planned 1)) ;;
  let task_efficiency := (q * of_int 100)%Qc in
  q <- truediv (qty_eff_sum t) (of_int (Z.max (qty_eff_count t) 1)) ;;
  let quantity_efficiency := (q * of_int 100)%Qc in
  Ok {| awc_pct := awc_pct; time_efficiency := time_efficiency;
        task_efficiency := task_efficiency;
        quantity_efficiency := quantity_efficiency |}.

(** The dictionary built from the individual's own numbers. *)
Definition individual_payload (employee_id : Z) (period_start period_end : date)
  (t : Totals) (r : Ratios) : Payload.t :=
  Payload.Build (Some employee_id) (isoformat period_start) (isoformat period_end)
    (round (time_efficiency r) 2) (round (task_efficiency r) 2)
    (round (quantity_efficiency r) 2) (round (awc_pct r) 4)
    (round (standard_hours_allowed t) 2) (round (productive_hours t) 2) None.

Definition period_key (employee_id : Z) (period_start period_end : date)
  (p : EfficiencyPeriod.t) : bool :=
  (EfficiencyPeriod.employee_id p =? employee_id)%Z
  && date_eqb (EfficiencyPeriod.period_start p) period_start
  && date_eqb (EfficiencyPeriod.period_end p) period_end.

(** The six assignments [existing.x = float(data.get("x") or 0.0)]. *)
Definition set_metrics (existing : EfficiencyPeriod.t) (data : Payload.t)
  : EfficiencyPeriod.t :=
  EfficiencyPeriod.Build (EfficiencyPeriod.id existing)
    (EfficiencyPeriod.employee_id existing)
    (EfficiencyPeriod.period_start existing) (EfficiencyPeriod.period_end existing)
    (Some (or_float (Payload.time_efficiency data) (of_int 0)))
    (Some (or_float (Payload.task_efficiency data) (of_int 0)))
    (Some (or_float (Payload.quantity_efficiency data) (of_int 0)))
    (or_float (Payload.awc_pct data) (of_int 0))
    (or_float (Payload.standard_hours_allowed data) (of_int 0))
    (or_float (Payload.actual_hours data) (of_int 0)).

(** [session.delete(dup)]: the row with that primary key goes. *)
Definition delete_period (dup : EfficiencyPeriod.t) (rows : list EfficiencyPeriod.t)
  : list EfficiencyPeriod.t :=
  filter (fun p => negb (EfficiencyPeriod.id p =? EfficiencyPeriod.id dup)%Z) rows.

(** [_upsert_efficiency_period]. *)
Definition _upsert_efficiency_period (employee_id : Z) (period_start period_end : date)
  (data : Payload.t) (session : Session.t) : Session.t :=
  let rows := Session.efficiency_periods session in
  let existing_records := filter (period_key employee_id period_start period_end) rows in
  let '(rows, existing) :=
    match existing_records with
    | first :: ((_ :: _) as dups) =>
        (fold_left (fun rows dup => delete_period dup rows) dups rows, Some first)
    | [first] => (rows, Some first)
    | [] => (rows, None)
    end in
  match existing with
  | Some existing =>
      Session.with_efficiency_periods session
        (map (fun p => if (EfficiencyPeriod.id p =? EfficiencyPeriod.id existing)%Z
                       then set_metrics existing data else p) rows)
        (Session.next_period_id session)
  | None =>
      let rec :=
        set_metrics
          (EfficiencyPeriod.Build (Session.next_period_id session) employee_id
             period_start period_end None None None (of_int 0) (of_int 0) (of_int 0))
          data in
      Session.with_efficiency_periods session (rows ++ [rec])
        (Session.next_period_id session + 1)%Z
  end.

(** [compute_employee_efficiency]: the session after the upsert and the
    dictionary returned. *)
Definition compute_employee_efficiency (employee_id : Z) (period_start period_end : date)
  (session : Session.t) : result (Session.t * Payload.t) :=
  let rows := _fetch_employee_jobcards employee_id period_start period_end session in
  t <- for_each accumulate_row rows totals0 ;;
  r <- ratios t ;;
  let team_metrics : option Payload.t := None in
  let payload :=
    match team_metrics with
    | Some team_metrics => team_metrics
    | None => individual_payload employee_id period_start period_end t r
    end in
  Ok (_upsert_efficiency_period employee_id period_start period_end payload session,
      payload).

Definition zero_payload (period_start period_end : date) (team : option string)
  : Payload.t :=
  Payload.Build None (isoformat period_start) (isoformat period_end)
    (of_int 0) (of_int 0) (of_int 0) (of_int 0) (of_int 0) (of_int 0) (Some team).

(** [compute_team_average]. *)
Definition compute_team_average (team : option string) (period_start period_end : date)
  (session : Session.t) : result Payload.t :=
  match team with
  | None | Some EmptyString => Ok (zero_payload period_start period_end None)
  | Some team_name =>
      let emp_ids :=
        map EfficiencyEmployee.id
          (filter (fun e => match EfficiencyEmployee.team e with
                            | Some x => String.eqb x team_name
                            | None => false
                            end) (Session.employees session)) in
      match emp_ids with
      | [] => Ok (zero_payload period_start period_end team)
      | _ =>
          let periods :=
            filter (fun p =>
                      existsb (Z.eqb (EfficiencyPeriod.employee_id p)) emp_ids
                      && date_eqb (EfficiencyPeriod.period_start p) period_start
                      && date_eqb (EfficiencyPeriod.period_end p) period_end
                      && float_leb (EfficiencyPeriod.awc_pct p) (Q2Qc 0.5))
                   (Session.efficiency_periods session) in
          match periods with
          | [] => Ok (zero_payload period_start period_end team)
          | _ =>
              let n := of_int (Z.of_nat (List.length periods)) in
              let opt f := map (fun p => or_default (f p) (of_int 0)) periods in
              let req f := map (fun p => or_float (f p) (of_int 0)) periods in
              time_eff <- truediv (sum (opt EfficiencyPeriod.time_efficiency)) n ;;
              task_eff <- truediv (sum (opt EfficiencyPeriod.task_efficiency)) n ;;
              qty_eff <- truediv (sum (opt EfficiencyPeriod.quantity_efficiency)) n ;;
              awc <- truediv (sum (req EfficiencyPeriod.awc_pct)) n ;;
              let std_hours := sum (req EfficiencyPeriod.standard_hours_allowed) in
              let actual_hours := sum (req EfficiencyPeriod.actual_hours) in
              Ok (Payload.Build None (isoformat period_start) (isoformat period_end)
                    (round time_eff 2) (round task_eff 2) (round qty_eff 2)
                    (round awc 4) (round std_hours 2) (round actual_hours 2)
                    (Some team))
          end
      end
  end.

End EfficiencyEngine.

(** ** Split allocation ([app/services/split_service.py]) *)

Module SplitService.

Module Allocation.
Record t : Set := Build {
  employee_id : Z;
  actual_hours : float;
  credit_hours : float;
  credit_pct : float
}.
End Allocation.

(** A [dict] keyed by integers, in insertion order. *)
Definition dict (V : Type) : Type := list (Z * V).

Fixpoint dict_get {V : Type} (k : Z) (d : dict V) : option V :=
  match d with
  | [] => None
  | (k', v) :: d' => if (k' =? k)%Z then Some v else dict_get k d'
  end.

(** [d[k] = f(d.get(k))]: an existing key keeps its place, a new one goes
    last. *)
Fixpoint dict_update {V : Type} (k : Z) (f : option V -> V) (d : dict V) : dict V :=
  match d with
  | [] => [(k, f None)]
  | (k', v) :: d' =>
      if (k' =? k)%Z then (k', f (Some v)) :: d'
      else (k', v) :: dict_update k f d'
  end.

(** [d[k] += x] on a [defaultdict(float)]. *)
Definition dict_add (k : Z) (x : float) (d : dict float) : dict float :=
  dict_update k (fun o => match o with
                          | Some v => (v + x)%Qc
                          | None => (of_int 0 + x)%Qc
                          end) d.

(** The join of the first query: one row per pair of a job card of the
    work order and an unresolved SPLIT_CANDIDATE flag on it; the card of
    each row is what [scalars().all()] returns. *)
Definition flagged_jobcards (work_order_id : Z) (session : Session.t) : list JobCard.t :=
  flat_map
    (fun jc =>
       map (fun _ => jc)
           (filter (fun vf =>
                      (ValidationFlag.job_card_id vf =? JobCard.id jc)%Z
                      && FlagTypeEnum_eqb (ValidationFlag.flag_type vf) SPLIT_CANDIDATE
                      && negb (ValidationFlag.resolved vf))
                   (Session.validation_flags session)))
    (filter (fun jc => Session.sql_eq (JobCard.work_order_id jc) (Some work_order_id))
            (Session.job_cards session)).

(** The activity codes the flagged cards refer to, by primary key. *)
Definition load_activities (flagged : list JobCard.t) (session : Session.t)
  : dict ActivityCode.t :=
  let activity_ids :=
    flat_map (fun jc => match JobCard.activity_code_id jc with
                        | Some a => [a]
                        | None => []
                        end) flagged in
  fold_left (fun activities act =>
               dict_update (ActivityCode.id act) (fun _ => act) activities)
            (filter (fun act => existsb (Z.eqb (ActivityCode.id act)) activity_ids)
                    (Session.activity_codes session))
            [].

(** [groups[jc.activity_code_id].append(jc)] for the cards that have one. *)
Definition group_by_activity (flagged : list JobCard.t) : dict (list JobCard.t) :=
  fold_left (fun groups jc =>
               match JobCard.activity_code_id jc with
               | Some a =>
                   dict_update a (fun o => match o with
                                           | Some jcs => jcs ++ [jc]
                                           | None => [jc]
                                           end) groups
               | None => groups
               end)
            flagged [].

Definition group_total_actual (jcs : list JobCard.t) : float :=
  sum (map (fun jc => or_float (JobCard.actual_hours jc) (of_int 0)) jcs).

Definition group_std_per_unit (activities : dict ActivityCode.t) (activity_id : Z)
  : float :=
  match dict_get activity_id activities with
  | Some act => or_default (ActivityCode.std_hours_per_unit act) (of_int 0)
  | None => or_float (of_int 0) (of_int 0)
  end.

Definition group_total_std (std_per_unit : float) (jcs : list JobCard.t) : float :=
  sum (map (fun jc => (or_float (JobCard.qty jc) (of_int 0) * std_per_unit)%Qc) jcs).

(** The two per-employee accumulators. *)
Record Sums : Type := {
  employee_actual_sum : dict float;
  employee_credit_sum : dict float
}.

(** One turn of the inner loop [for jc in jcs]. *)
Definition credit_card (total_std total_actual : float) (s : Sums) (jc : JobCard.t)
  : result Sums :=
  match JobCard.employee_id jc with
  | None => Ok s
  | Some employee_id =>
      let emp_actual := or_float (JobCard.actual_hours jc) (of_int 0) in
      share <- truediv emp_actual total_actual ;;
      let credit := (total_std * share)%Qc in
      Ok {| employee_actual_sum := dict_add employee_id emp_actual (employee_actual_sum s);
            employee_credit_sum := dict_add employee_id credit (employee_credit_sum s) |}
  end.

(** One turn of the outer loop [for activity_id, jcs in groups.items()]. *)
Definition credit_group (activities : dict ActivityCode.t) (s : Sums)
  (group : Z * list JobCard.t) : result Sums :=
  let '(activity_id, jcs) := group in
  let total_actual := group_total_actual jcs in
  let std_per_unit := group_std_per_unit activities activity_id in
  let total_std := group_total_std std_per_unit jcs in
  if float_leb total_actual (of_int 0) then Ok s
  else for_each (credit_card total_std total_actual) jcs s.

Definition grand_total_actual (s : Sums) : float :=
  or_float (sum (map snd (employee_actual_sum s))) (of_int 1).

(** The share of one employee before rounding. *)
Definition credit_pct (s : Sums) (emp_actual : float) : result float :=
  let grand_total_actual := grand_total_actual s in
  if float_eqb grand_total_actual (of_int 0) then Ok (of_int 0)
  else truediv emp_actual grand_total_actual.

(** One turn of the loop that builds the answer. *)
Definition allocation (s : Sums) (entry : Z * float) : result Allocation.t :=
  let '(emp_id, emp_actual) := entry in
  let credit_hours :=
    match dict_get emp_id (employee_credit_sum s) with
    | Some c => c
    | None => of_int 0
    end in
  pct <- credit_pct s emp_actual ;;
  Ok (Allocation.Build emp_id (round emp_actual 4) (round credit_hours 4) (round pct 6)).

Definition allocations (s : Sums) : result (list Allocation.t) :=
  for_each (fun acc entry => a <- allocation s entry ;; Ok (acc ++ [a]))
           (employee_actual_sum s) [].

(** [allocations.sort(key=credit_hours, reverse=True)]: stable, largest
    first. *)
Fixpoint insert_desc (a : Allocation.t) (l : list Allocation.t) : list Allocation.t :=
  match l with
  | [] => [a]
  | b :: l' =>
      if float_ltb (Allocation.credit_hours a) (Allocation.credit_hours b)
      then b :: insert_desc a l'
      else a :: b :: l'
  end.

Definition sort_desc (l : list Allocation.t) : list Allocation.t :=
  fold_right insert_desc [] l.

(** The sums after the loop over the groups. *)
Definition credit_sums (flagged : list JobCard.t) (session : Session.t) : result Sums :=
  let activities := load_activities flagged session in
  let groups := group_by_activity flagged in
  for_each (credit_group activities) groups
           {| employee_actual_sum := []; employee_credit_sum := [] |}.

(** [compute_splits_for_workorder]. *)
Definition compute_splits_for_workorder (work_order_id : Z) (session : Session.t)
  : result (list Allocation.t) :=
  let flagged_jobcards := flagged_jobcards work_order_id session in
  match flagged_jobcards with
  | [] => Ok []
  | _ =>
      s <- credit_sums flagged_jobcards session ;;
      l <- allocations s ;;
      Ok (sort_desc l)
  end.

End SplitService.

(** ** Work assignment ([app/routes/supervisor.py])

    [assign_work] creates the job cards it then hands to the validation
    engine; in the mode [auto_split_hours] the assignments come from
    [_auto_split_hours]. *)

Module Supervisor.

(** [RoleEnum] and the columns of [Employee] ([app/models/employee.py])
    that the query of [_auto_split_hours] reads. *)
Inductive RoleEnum : Set := OPERATOR | SUPERVISOR | ADMIN.

Definition RoleEnum_eqb (a b : RoleEnum) : bool :=
  match a, b with
  | OPERATOR, OPERATOR | SUPERVISOR, SUPERVISOR | ADMIN, ADMIN => true
  | _, _ => false
  end.

Module Employee.
Record t : Set := Build { id : Z; role : RoleEnum; is_active : bool }.
End Employee.

(** The detail of an [HTTPException]: literal text and, in an f-string,
    the supervisor's efficiency module. *)
Inductive detail_piece : Set :=
| Lit (s : string)
| Enum (m : EfficiencyTypeEnum).

(** What the route can raise: an [HTTPException], pydantic's
    [ValidationError], or a Python exception. *)
Inductive error : Set :=
| HTTPException (status_code : Z) (detail : list detail_piece)
| ValidationError
| PyError (e : exn).

Inductive outcome (A : Type) : Type :=
| Return (a : A)
| Fail (e : error).

Arguments Return {A} a.
Arguments Fail {A} e.

Definition and_then {A B : Type} (m : outcome A) (k : A -> outcome B) : outcome B :=
  match m with
  | Return a => k a
  | Fail e => Fail e
  end.

Definition of_result {A : Type} (r : result A) : outcome A :=
  match r with
  | Ok a => Return a
  | Raise e => Fail (PyError e)
  end.

(** [[f(a) for a in l]], where [f] may raise. *)
Fixpoint comprehension {A B : Type} (f : A -> outcome B) (l : list A)
  : outcome (list B) :=
  match l with
  | [] => Return []
  | a :: l' =>
      and_then (f a) (fun b =>
      and_then (comprehension f l') (fun bs => Return (b :: bs)))
  end.

(** [AssignmentItem] ([app/schemas/supervisor_schemas.py]). *)
Module AssignmentItem.
Record t : Set := Build { employee_id : Z; hours : float; qty : float }.
End AssignmentItem.

(** [AssignmentItem(employee_id=.., hours=.., qty=..)]: both numbers are
    [Field(gt=0)], which the constructor validates. *)
Definition new_assignment (employee_id : Z) (hours qty : float)
  : outcome AssignmentItem.t :=
  if float_ltb (of_int 0) hours && float_ltb (of_int 0) qty
  then Return (AssignmentItem.Build employee_id hours qty)
  else Fail ValidationError.

(** [_auto_split_hours]; [employees] is the table the query reads. *)
Definition _auto_split_hours (efficiency_module : option EfficiencyTypeEnum)
  (assignments : list AssignmentItem.t) (employees : list Employee.t)
  : outcome (list AssignmentItem.t) :=
  match assignments with
  | [] =>
      match efficiency_module with
      | None =>
          Fail (HTTPException 400
                  [Lit "No efficiency module assigned to supervisor for auto-split"])
      | Some efficiency_module =>
          let employees :=
            filter (fun e => Employee.is_active e
                             && RoleEnum_eqb (Employee.role e) OPERATOR)
                   employees in
          match employees with
          | [] =>
              Fail (HTTPException 400
                      [Lit "No active operators found in the efficiency module ";
                       Enum efficiency_module])
          | _ => Return []
          end
      end
  | _ =>
      let total_hours := sum (map AssignmentItem.hours assignments) in
      let total_qty := sum (map AssignmentItem.qty assignments) in
      let n := of_int (Z.of_nat (List.length assignments)) in
      and_then (of_result (truediv total_hours n)) (fun hours_per_person =>
      and_then (of_result (truediv total_qty n)) (fun qty_per_person =>
      comprehension
        (fun a => new_assignment (AssignmentItem.employee_id a)
                    hours_per_person qty_per_person)
        assignments))
  end.

End Supervisor.

(** ** The efficiency computation over binary64 floats
    ([app/services/efficiency_engine.py])

    [compute_employee_efficiency] from the fetched rows to the returned
    dictionary, over the floats Python computes with: the loop over the
    rows, the four ratios after it and the rounding of the dictionary.
    Sums, products and quotients are those of IEEE 754 binary64, so they
    can overflow to an infinity or give a NaN; a division raises on a zero
    divisor only. *)

Module Binary64.

Import PrimFloat.

Inductive exn : Set :=
| ZeroDivisionError
| OverflowError.

Inductive result (A : Type) : Type :=
| Ok (a : A)
| Raise (e : exn).

Arguments Ok {A} a.
Arguments Raise {A} e.

Definition bind {A B : Type} (m : result A) (k : A -> result B) : result B :=
  match m with
  | Ok a => k a
  | Raise e => Raise e
  end.

(** [for x in l: s = f(s, x)], stopping at the first exception. *)
Fixpoint for_each {A S : Type} (f : S -> A -> result S) (l : list A) (s : S)
  : result S :=
  match l with
  | [] => Ok s
  | x :: l' => bind (f s x) (for_each f l')
  end.

(** [EPS = 1e-6], the double nearest to it. *)
Definition EPS : float := 0x1.0c6f7a0b5ed8dp-20%float.

(** [x or 0.0]: a zero of either sign is false, a NaN is true. *)
Definition or_zero (x : float) : float := if eqb x zero then zero else x.

(** [max(a, b)]: [b] when [b > a], else [a]. *)
Definition max (a b : float) : float := if ltb a b then b else a.

(** [a / b] on floats: only a zero divisor raises. *)
Definition truediv (a b : float) : result float :=
  if eqb b zero then Raise ZeroDivisionError else Ok (div a b).

(** The number a finite float stands for. *)
Definition exact (x : float) : option Q :=
  match FloatOps.Prim2SF x with
  | SpecFloat.S754_zero _ => Some 0%Q
  | SpecFloat.S754_finite s m e =>
      Some ((if s then - (1) else 1) * inject_Z (Zpos m) * inject_Z 2 ^ e)%Q
  | _ => None
  end.

(** The float nearest to a rational [a >= 0], ties to the even mantissa,
    under the given sign; infinity when [a] is too large. *)
Definition nearest (negative : bool) (a : Q) : float :=
  let magnitude :=
    if Qle_bool a 0 then zero
    else
      let e0 := (Z.log2 (Qnum a) - Z.log2 (Zpos (Qden a)))%Z in
      let fl := if Qle_bool (inject_Z 2 ^ e0) a then e0 else (e0 - 1)%Z in
      let k := Z.max (fl - 52) (-1074) in
      let m := round_half_even (a / inject_Z 2 ^ k) in
      FloatOps.Z.ldexp (of_uint63 (Uint63.of_Z m)) k in
  if negative then opp magnitude else magnitude.

(** [float(n)] for an [int] of any size (no [int] of the engine is large
    enough to overflow). *)
Definition of_int (n : Z) : float := nearest (n <? 0)%Z (Qabs (inject_Z n)).

(** [a / n] for a float [a] and an [int] [n]: [n] is converted first, and
    its float is zero only when [n] is. *)
Definition truediv_int (a : float) (n : Z) : result float :=
  if (n =? 0)%Z then Raise ZeroDivisionError else Ok (div a (of_int n)).

(** [a / b] for two [int]s: the float nearest to the quotient. *)
Definition int_truediv (a b : Z) : result float :=
  if (b =? 0)%Z then Raise ZeroDivisionError
  else
    let r := nearest (Z.sgn a * Z.sgn b <? 0)%Z (Qabs (inject_Z a / inject_Z b)) in
    if is_infinity r then Raise OverflowError else Ok r.

(** [round(x, ndigits)] on a float: a NaN or an infinity is returned as
    it is; a finite [x] is rounded, half to even on its exact value, to
    [ndigits] decimal places and the float nearest to that decimal is
    returned ([OverflowError] if there is none). *)
Definition round (x : float) (ndigits : nat) : result float :=
  match exact x with
  | None => Ok x
  | Some q =>
      if (323 <? ndigits)%nat then Ok x
      else
        let scale := inject_Z (10 ^ Z.of_nat ndigits) in
        let r := nearest (get_sign x)
                   (Qabs (inject_Z (round_half_even (q * scale)) / scale)) in
        if is_infinity r then Raise OverflowError else Ok r
  end.

(** The columns of a fetched row that the loop reads. *)
Module JobCard.
Record t : Set := Build {
  activity_code_id : option Z;
  qty : float;
  actual_hours : float
}.
End JobCard.

Module ActivityCode.
Record t : Set := Build {
  std_hours_per_unit : option float;
  std_qty_per_hour : option float;
  efficiency_type : EfficiencyTypeEnum
}.
End ActivityCode.

Definition or_default (o : option float) : float :=
  match o with
  | Some x => or_zero x
  | None => zero
  end.

Record Totals : Set := {
  productive_hours : float;
  awc_hours : float;
  standard_hours_allowed : float;
  tasks_completed : Z;
  qty_eff_sum : float;
  qty_eff_count : Z
}.

Definition totals0 : Totals :=
  {| productive_hours := zero; awc_hours := zero; standard_hours_allowed := zero;
     tasks_completed := 0; qty_eff_sum := zero; qty_eff_count := 0 |}.

(** One turn of [for jc, act in rows]. *)
Definition accumulate_row (t : Totals) (row : JobCard.t * option ActivityCode.t)
  : result Totals :=
  let '(jc, act) := row in
  let hours := or_zero (JobCard.actual_hours jc) in
  let qty := or_zero (JobCard.qty jc) in
  match JobCard.activity_code_id jc, act with
  | Some _, Some act =>
      let productive_hours := add (productive_hours t) hours in
      let std_h := mul (or_default (ActivityCode.std_hours_per_unit act)) qty in
      let standard_hours_allowed := add (standard_hours_allowed t) std_h in
      let tasks_completed :=
        if EfficiencyTypeEnum_eqb (ActivityCode.efficiency_type act) TASK_BASED
        then (tasks_completed t + 1)%Z else tasks_completed t in
      if EfficiencyTypeEnum_eqb (ActivityCode.efficiency_type act) QUANTITY_BASED
      then
        let denom :=
          max (mul (or_default (ActivityCode.std_qty_per_hour act)) (max hours zero))
              EPS in
        bind (truediv qty denom) (fun qty_eff =>
        Ok {| productive_hours := productive_hours; awc_hours := awc_hours t;
              standard_hours_allowed := standard_hours_allowed;
              tasks_completed := tasks_completed;
              qty_eff_sum := add (qty_eff_sum t) qty_eff;
              qty_eff_count := (qty_eff_count t + 1)%Z |})
      else
        Ok {| productive_hours := productive_hours; awc_hours := awc_hours t;
              standard_hours_allowed := standard_hours_allowed;
              tasks_completed := tasks_completed;
              qty_eff_sum := qty_eff_sum t;
              qty_eff_count := qty_eff_count t |}
  | _, _ =>
      Ok {| productive_hours := productive_hours t;
            awc_hours := add (awc_hours t) hours;
            standard_hours_allowed := standard_hours_allowed t;
            tasks_completed := tasks_completed t;
            qty_eff_sum := qty_eff_sum t;
            qty_eff_count := qty_eff_count t |}
  end.

(** The four ratios computed after the loop, before any rounding. *)
Record Ratios : Set := {
  awc_pct : float;
  time_efficiency : float;
  task_efficiency : float;
  quantity_efficiency : float
}.

Definition ratios (t : Totals) : result Ratios :=
  let tasks_planned := Z.max (tasks_completed t) 1 in
  let total_hours := add (productive_hours t) (awc_hours t) in
  bind (if ltb zero total_hours
        then truediv (awc_hours t) (max total_hours EPS)
        else Ok zero) (fun awc_pct =>
  bind (truediv (standard_hours_allowed t) (max (productive_hours t) EPS)) (fun q =>
  let time_efficiency := mul q 100%float in
  bind (int_truediv (tasks_completed t) (Z.max tasks_planned 1)) (fun q =>
  let task_efficiency := mul q 100%float in
  bind (truediv_int (qty_eff_sum t) (Z.max (qty_eff_count t) 1)) (fun q =>
  let quantity_efficiency := mul q 100%float in
  Ok {| awc_pct := awc_pct; time_efficiency := time_efficiency;
        task_efficiency := task_efficiency;
        quantity_efficiency := quantity_efficiency |})))).

(** The numbers of the returned dictionary. *)
Module Payload.
Record t : Set := Build {
  time_efficiency : float;
  task_efficiency : float;
  quantity_efficiency : float;
  awc_pct : float;
  standard_hours_allowed : float;
  actual_hours : float
}.
End Payload.

Definition individual_payload (t : Totals) (r : Ratios) : result Payload.t :=
  bind (round (time_efficiency r) 2) (fun time_efficiency =>
  bind (round (task_efficiency r) 2) (fun task_efficiency =>
  bind (round (quantity_efficiency r) 2) (fun quantity_efficiency =>
  bind (round (awc_pct r) 4) (fun awc_pct =>
  bind (round (standard_hours_allowed t) 2) (fun standard_hours_allowed =>
  bind (round (productive_hours t) 2) (fun actual_hours =>
  Ok (Payload.Build time_efficiency task_efficiency quantity_efficiency awc_pct
        standard_hours_allowed actual_hours))))))).

(** [compute_employee_efficiency] on the rows it has fetched: the numbers
    of the dictionary it returns. *)
Definition compute_employee_efficiency (rows : list (JobCard.t * option ActivityCode.t))
  : result Payload.t :=
  bind (for_each accumulate_row rows totals0) (fun t =>
  bind (ratios t) (fun r =>
  individual_payload t r)).

End Binary64.

(** * Vocabulary of the properties

    Definitions used only to state and check the properties below: they
    are not part of the services. *)

Section MsdVocabulary.

Local Open Scope Z_scope.

(** The text of a payroll month: four digits, a dash, two digits. *)
Definition msd_text (y m : Z) : string := (zfill 4 y ++ "-" ++ zfill 2 m)%string.

(** The window the rule is meant to compute, written out. *)
Definition window_of (y m : Z) : date * date :=
  (if m =? 1 then Date (y - 1) 12 25 else Date y (m - 1) 25, Date y m 10).

Fixpoint no_dash (s : string) : bool :=
  match s with
  | EmptyString => true
  | String c s' => negb (Ascii.eqb c "-") && no_dash s'
  end.

(** [zfill width z] has no dash and reads back as [z]. *)
Definition reads_back (width : nat) (z : Z) : bool :=
  no_dash (zfill width z)
  && match int (zfill width z) with
     | Ok v => v =? z
     | Raise _ => false
     end.

(** The flag the rule emits for a card outside the window. *)
Definition outside_msd_flag (jobcard : JobCard.t) (work_order : WorkOrder.t)
  (window_start window_end : date) : ValidationFlag.t :=
  ValidationFlag.Build None (JobCard.id jobcard) OUTSIDE_MSD
    [Text ("Entry date " ++ isoformat (JobCard.entry_date jobcard)
           ++ " is outside MSD window " ++ isoformat window_start
           ++ " to " ++ isoformat window_end
           ++ " for month " ++ WorkOrder.msd_month work_order)]
    false.

End MsdVocabulary.

(** ** Sample rows: the work order, activity and cards of the tests *)

Section Samples.

Local Open Scope Z_scope.

Definition sample_work_order : WorkOrder.t :=
  WorkOrder.Build 1 1 (of_int 100) "2024-11".

Definition sample_activity : ActivityCode.t :=
  ActivityCode.Build 1 (Some (Q2Qc 0.5)) None TIME_BASED.

(** A card of work order 1 on activity 1 and machine 1. *)
Definition sample_card (id employee : Z) (qty hours : float)
  (status : JobCardStatusEnum) (entry_date : date) : JobCard.t :=
  JobCard.Build id (Some employee) (Some 1) (Some 1) (Some 1) qty hours status
    entry_date.

Definition sample_session (cards : list JobCard.t) (flags : list ValidationFlag.t)
  : Session.t :=
  Session.Build [] [sample_activity] [sample_work_order] cards flags []
    (1 + Z.of_nat (List.length flags)) 1.

Definition split_flag (id job_card_id : Z) : ValidationFlag.t :=
  ValidationFlag.Build (Some id) job_card_id SPLIT_CANDIDATE [] false.

(** The two cards of the allocation test, one flag each. *)
Definition two_card_session : Session.t :=
  sample_session
    [sample_card 1 1 (of_int 10) (of_int 5) C (Date 2024 11 5);
     sample_card 2 2 (of_int 20) (of_int 15) C (Date 2024 11 6)]
    [split_flag 1 1; split_flag 2 2].

(** The same cards, the first flagged twice. *)
Definition twice_flagged_session : Session.t :=
  sample_session
    [sample_card 1 1 (of_int 10) (of_int 5) C (Date 2024 11 5);
     sample_card 2 2 (of_int 20) (of_int 15) C (Date 2024 11 6)]
    [split_flag 1 1; split_flag 2 2; split_flag 3 1].

End Samples.

Section FlagVocabulary.

Definition is_split_candidate (f : ValidationFlag.t) : bool :=
  FlagTypeEnum_eqb (ValidationFlag.flag_type f) SPLIT_CANDIDATE.

Definition unresolved_of (job_card_id : Z) (f : ValidationFlag.t) : bool :=
  (ValidationFlag.job_card_id f =? job_card_id)%Z && negb (ValidationFlag.resolved f).

(** The unresolved flags stored for a card. *)
Definition unresolved_flags (job_card_id : Z) (session : Session.t)
  : list ValidationFlag.t :=
  filter (unresolved_of job_card_id) (Session.validation_flags session).

(** The resolved flags of the table. *)
Definition resolved_flags (session : Session.t) : list ValidationFlag.t :=
  filter ValidationFlag.resolved (Session.validation_flags session).

(** A flag with the key it receives on insertion. *)
Definition keyed (i : Z) (f : ValidationFlag.t) : ValidationFlag.t :=
  ValidationFlag.Build (Some i) (ValidationFlag.job_card_id f)
    (ValidationFlag.flag_type f) (ValidationFlag.details f) (ValidationFlag.resolved f).

Fixpoint keyed_from (i : Z) (flags : list ValidationFlag.t) : list ValidationFlag.t :=
  match flags with
  | [] => []
  | f :: flags' => keyed i f :: keyed_from (i + 1) flags'
  end.

(** The flags of a run's answer that are addressed to a card. *)
Definition flags_for (job_card_id : Z) (flags : list ValidationFlag.t)
  : list ValidationFlag.t :=
  filter (fun f => (ValidationFlag.job_card_id f =? job_card_id)%Z) flags.

(** The primary key of the flag table: every stored flag has a key, the
    keys are distinct and below the next key to be given. *)
Definition flags_keyed (session : Session.t) : Prop :=
  NoDup (map ValidationFlag.id (Session.validation_flags session))
  /\ Forall (fun f => exists i, ValidationFlag.id f = Some i
                                /\ (i < Session.next_flag_id session)%Z)
            (Session.validation_flags session).

(** Every rule builds its flags unresolved. *)
Definition builds_unresolved (rule : ValidationEngine.Rule) : Prop :=
  forall jobcard session flags,
    rule jobcard session = Ok flags ->
    Forall (fun f => ValidationFlag.resolved f = false) flags.

End FlagVocabulary.

Section PeriodVocabulary.

(** The row the upsert inserts when the key has none. *)
Definition new_period (id employee_id : Z) (period_start period_end : date)
  (data : EfficiencyEngine.Payload.t) : EfficiencyPeriod.t :=
  EfficiencyEngine.set_metrics
    (EfficiencyPeriod.Build id employee_id period_start period_end
       None None None (of_int 0) (of_int 0) (of_int 0))
    data.

(** The primary key of the period table. *)
Definition periods_keyed (session : Session.t) : Prop :=
  NoDup (map EfficiencyPeriod.id (Session.efficiency_periods session)).

(** The rows after an upsert onto a key that already has rows, the first
    of which is [first]: that row updated where it stands, the other rows
    of the key gone, the rows of other keys as they were. *)
Definition collapsed (employee_id : Z) (period_start period_end : date)
  (data : EfficiencyEngine.Payload.t) (first : EfficiencyPeriod.t)
  (rows : list EfficiencyPeriod.t) : list EfficiencyPeriod.t :=
  flat_map (fun p =>
              if EfficiencyEngine.period_key employee_id period_start period_end p
              then if (EfficiencyPeriod.id p =? EfficiencyPeriod.id first)%Z
                   then [EfficiencyEngine.set_metrics first data]
                   else []
              else [p])
           rows.

Definition sample_period (id employee_id : Z) (time_efficiency : float)
  : EfficiencyPeriod.t :=
  EfficiencyPeriod.Build id employee_id (Date 2024 11 1) (Date 2024 11 30)
    (Some time_efficiency) (Some (of_int 0)) (Some (of_int 0))
    (of_int 0) (of_int 8) (of_int 10).

Definition sample_payload : EfficiencyEngine.Payload.t :=
  EfficiencyEngine.Payload.Build (Some 1%Z) "2024-11-01" "2024-11-30"
    (of_int 95) (of_int 100) (of_int 0) (of_int 0) (of_int 19) (of_int 20) None.

End PeriodVocabulary.

Section EfficiencyVocabulary.

(** A fetched row whose hours are productive: the card has an activity
    code and the join found it. *)
Definition coded (row : JobCard.t * option ActivityCode.t) : bool :=
  match JobCard.activity_code_id (fst row), snd row with
  | Some _, Some _ => true
  | _, _ => false
  end.

(** A fetched row whose activity has the given efficiency type. *)
Definition of_type (ty : EfficiencyTypeEnum) (row : JobCard.t * option ActivityCode.t)
  : bool :=
  match JobCard.activity_code_id (fst row), snd row with
  | Some _, Some act => EfficiencyTypeEnum_eqb (ActivityCode.efficiency_type act) ty
  | _, _ => false
  end.

Definition row_hours (row : JobCard.t * option ActivityCode.t) : float :=
  JobCard.actual_hours (fst row).

(** [qty * std_hours_per_unit] of a row, the standard defaulting to 0. *)
Definition row_std_hours (row : JobCard.t * option ActivityCode.t) : float :=
  match snd row with
  | Some act =>
      (or_default (ActivityCode.std_hours_per_unit act) (of_int 0)
       * JobCard.qty (fst row))%Qc
  | None => of_int 0
  end.


(** The ratio as the loop computes it: the hours are floored at 0 first. *)
Definition per_card_ratio_floored (row : JobCard.t * option ActivityCode.t) : float :=
  match snd row with
  | Some act =>
      (JobCard.qty (fst row)
       / max (or_default (ActivityCode.std_qty_per_hour act) (of_int 0)
              * max (JobCard.actual_hours (fst row)) (of_int 0))
             EfficiencyEngine.EPS)%Qc
  | None => of_int 0
  end.


(** A period row carries the metrics of a dictionary. *)
Definition stores (p : EfficiencyPeriod.t) (data : EfficiencyEngine.Payload.t) : Prop :=
  EfficiencyPeriod.time_efficiency p = Some (EfficiencyEngine.Payload.time_efficiency data)
  /\ EfficiencyPeriod.task_efficiency p
     = Some (EfficiencyEngine.Payload.task_efficiency data)
  /\ EfficiencyPeriod.quantity_efficiency p
     = Some (EfficiencyEngine.Payload.quantity_efficiency data)
  /\ EfficiencyPeriod.awc_pct p = EfficiencyEngine.Payload.awc_pct data
  /\ EfficiencyPeriod.standard_hours_allowed p
     = EfficiencyEngine.Payload.standard_hours_allowed data
  /\ EfficiencyPeriod.actual_hours p = EfficiencyEngine.Payload.actual_hours data.

(** The four ratios with the divisions carried out. *)
Definition ratios_of (t : EfficiencyEngine.Totals) : EfficiencyEngine.Ratios :=
  let total_hours :=
    (EfficiencyEngine.productive_hours t + EfficiencyEngine.awc_hours t)%Qc in
  {| EfficiencyEngine.awc_pct :=
       if float_ltb (of_int 0) total_hours
       then (EfficiencyEngine.awc_hours t / max total_hours EfficiencyEngine.EPS)%Qc
       else of_int 0;
     EfficiencyEngine.time_efficiency :=
       (EfficiencyEngine.standard_hours_allowed t
        / max (EfficiencyEngine.productive_hours t) EfficiencyEngine.EPS
        * of_int 100)%Qc;
     EfficiencyEngine.task_efficiency :=
       (of_int (EfficiencyEngine.tasks_completed t)
        / of_int (Z.max (EfficiencyEngine.tasks_completed t) 1)
        * of_int 100)%Qc;
     EfficiencyEngine.quantity_efficiency :=
       (EfficiencyEngine.qty_eff_sum t
        / of_int (Z.max (EfficiencyEngine.qty_eff_count t) 1)
        * of_int 100)%Qc |}.


(** A session with one employee-1 card without activity code (8 hours)
    and one with the sample activity (2 hours), and the employee in a
    team. *)
Definition mostly_awc_session : Session.t :=
  Session.Build [EfficiencyEmployee.Build 1 (Some "A"%string)] [sample_activity]
    [sample_work_order]
    [JobCard.Build 1 (Some 1%Z) (Some 1%Z) (Some 1%Z) None (of_int 4) (of_int 8) C
       (Date 2024 11 5);
     JobCard.Build 2 (Some 1%Z) (Some 1%Z) (Some 1%Z) (Some 1%Z) (of_int 4) (of_int 2) C
       (Date 2024 11 6)]
    [] [] 1 1.

(** The cards of an employee entered within a period. *)
Definition period_cards (employee_id : Z) (period_start period_end : date)
  (session : Session.t) : list JobCard.t :=
  filter (fun jc =>
            Session.sql_eq (JobCard.employee_id jc) (Some employee_id)
            && date_leb period_start (JobCard.entry_date jc)
            && date_leb (JobCard.entry_date jc) period_end)
         (Session.job_cards session).

(** The stored activity codes a card names. *)
Definition activities_of (session : Session.t) (jc : JobCard.t) : list ActivityCode.t :=
  filter (fun act => match JobCard.activity_code_id jc with
                     | Some a => (a =? ActivityCode.id act)%Z
                     | None => false
                     end)
         (Session.activity_codes session).

(** The card names a stored activity code of the given efficiency type. *)
Definition card_of_type (ty : EfficiencyTypeEnum) (session : Session.t)
  (jc : JobCard.t) : bool :=
  existsb (fun act => EfficiencyTypeEnum_eqb (ActivityCode.efficiency_type act) ty)
          (activities_of session jc).

(** A session with a TIME_BASED activity 1 and a TASK_BASED activity 2,
    and three cards of employee 1 in November 2024: one on activity 1,
    one on activity 2, one without activity code. *)
Definition task_session : Session.t :=
  Session.Build [] [sample_activity; ActivityCode.Build 2 None None TASK_BASED]
    [sample_work_order]
    [JobCard.Build 1 (Some 1%Z) (Some 1%Z) (Some 1%Z) (Some 1%Z) (of_int 4) (of_int 2) C
       (Date 2024 11 5);
     JobCard.Build 2 (Some 1%Z) (Some 1%Z) (Some 1%Z) (Some 2%Z) (of_int 1) (of_int 3) C
       (Date 2024 11 6);
     JobCard.Build 3 (Some 1%Z) (Some 1%Z) (Some 1%Z) None (of_int 1) (of_int 1) C
       (Date 2024 11 7)]
    [] [] 1 1.


End EfficiencyVocabulary.

(** Rows and numbers for the computation over binary64 floats. *)
Module Binary64Samples.

Import PrimFloat.









End Binary64Samples.

Section SplitVocabulary.

Import SplitService.

(** The value under a key of a [defaultdict(float)], 0 when absent. *)
Definition dict_value (k : Z) (d : dict float) : float :=
  match dict_get k d with
  | Some v => v
  | None => of_int 0
  end.

Definition has_activity (a : Z) (jc : JobCard.t) : bool :=
  match JobCard.activity_code_id jc with
  | Some a' => (a' =? a)%Z
  | None => false
  end.

Definition has_employee (e : Z) (jc : JobCard.t) : bool :=
  match JobCard.employee_id jc with
  | Some e' => (e' =? e)%Z
  | None => false
  end.

Definition has_some_employee (jc : JobCard.t) : bool :=
  match JobCard.employee_id jc with
  | Some _ => true
  | None => false
  end.

(** The number of unresolved SPLIT_CANDIDATE flags stored on a card. *)
Definition split_flags (session : Session.t) (jc : JobCard.t) : nat :=
  List.length
    (filter (fun vf =>
               (ValidationFlag.job_card_id vf =? JobCard.id jc)%Z
               && FlagTypeEnum_eqb (ValidationFlag.flag_type vf) SPLIT_CANDIDATE
               && negb (ValidationFlag.resolved vf))
            (Session.validation_flags session)).

(** The cards of a work order. *)
Definition cards_of (work_order_id : Z) (session : Session.t) : list JobCard.t :=
  filter (fun jc => Session.sql_eq (JobCard.work_order_id jc) (Some work_order_id))
         (Session.job_cards session).

(** What the service computes for the rows [flagged] of the join, given
    the activity codes it loaded. *)
Section Rows.

Variable activities : dict ActivityCode.t.
Variable flagged : list JobCard.t.

(** The group of an activity: its rows, in order. *)
Definition group_rows (a : Z) : list JobCard.t := filter (has_activity a) flagged.

Definition total_actual (a : Z) : float := group_total_actual (group_rows a).

Definition total_std (a : Z) : float :=
  group_total_std (group_std_per_unit activities a) (group_rows a).

(** The row is in a group that is not skipped. *)
Definition credited (jc : JobCard.t) : bool :=
  match JobCard.activity_code_id jc with
  | Some a => negb (float_leb (total_actual a) (of_int 0))
  | None => false
  end.

(** [credit = total_std * (emp_actual / total_actual)] of a row. *)
Definition row_credit (jc : JobCard.t) : float :=
  match JobCard.activity_code_id jc with
  | Some a => (total_std a * (JobCard.actual_hours jc / total_actual a))%Qc
  | None => of_int 0
  end.

(** What a credited row adds to the two accumulators. *)
Definition tally_row (s : Sums) (jc : JobCard.t) : Sums :=
  match JobCard.employee_id jc with
  | None => s
  | Some e =>
      {| employee_actual_sum :=
           dict_add e (JobCard.actual_hours jc) (employee_actual_sum s);
         employee_credit_sum := dict_add e (row_credit jc) (employee_credit_sum s) |}
  end.

Definition tally (rows : list JobCard.t) (s : Sums) : Sums :=
  fold_left tally_row rows s.

End Rows.

(** The answer for one entry of [employee_actual_sum], with the division
    carried out. *)
Definition allocation_of (s : Sums) (entry : Z * float) : Allocation.t :=
  Allocation.Build (fst entry) (round (snd entry) 4)
    (round (dict_value (fst entry) (employee_credit_sum s)) 4)
    (round (snd entry / grand_total_actual s)%Qc 6).

(** A list of allocations with the largest credit first. *)
Definition descending (l : list Allocation.t) : Prop :=
  StronglySorted (fun a b => Allocation.credit_hours b <= Allocation.credit_hours a) l.

(** The keys of a dictionary are distinct and the groups are the rows of
    each activity seen so far. *)
Definition grouped (groups : dict (list JobCard.t)) (seen : list JobCard.t) : Prop :=
  NoDup (map fst groups)
  /\ forall a, dict_get a groups
               = match filter (has_activity a) seen with
                 | [] => None
                 | jcs => Some jcs
                 end.

(** The group is not skipped. *)
Definition group_credited (flagged : list JobCard.t) (group : Z * list JobCard.t)
  : bool :=
  negb (float_leb (total_actual flagged (fst group)) (of_int 0)).

(** The rows the loops tally: those of the groups that are not skipped,
    group after group. *)
Definition tallied_rows (flagged : list JobCard.t) : list JobCard.t :=
  List.concat (map snd (filter (group_credited flagged) (group_by_activity flagged))).

End SplitVocabulary.

(** ** Vocabulary of the further properties *)

Section EngineVocabulary.

(** Another card with the card's machine, work order and activity. *)
Definition twin (jobcard other : JobCard.t) : bool :=
  negb (JobCard.id other =? JobCard.id jobcard)%Z
  && Session.sql_eq (JobCard.machine_id other) (JobCard.machine_id jobcard)
  && Session.sql_eq (JobCard.work_order_id other) (JobCard.work_order_id jobcard)
  && Session.sql_eq (JobCard.activity_code_id other) (JobCard.activity_code_id jobcard).

Definition of_flag_type (ty : FlagTypeEnum) (f : ValidationFlag.t) : bool :=
  FlagTypeEnum_eqb (ValidationFlag.flag_type f) ty.

(** A flag addressed to a card, of a type, unresolved. *)
Definition raised_on (job_card_id : Z) (ty : FlagTypeEnum) (f : ValidationFlag.t)
  : Prop :=
  ValidationFlag.job_card_id f = job_card_id
  /\ ValidationFlag.flag_type f = ty
  /\ ValidationFlag.resolved f = false.

(** A flag without its primary key. *)
Definition unkeyed (f : ValidationFlag.t) : ValidationFlag.t :=
  ValidationFlag.Build None (ValidationFlag.job_card_id f)
    (ValidationFlag.flag_type f) (ValidationFlag.details f) (ValidationFlag.resolved f).




(** A session with one work order of the given month and the given
    cards. *)
Definition month_session (msd_month : string) (cards : list JobCard.t) : Session.t :=
  Session.Build [] [sample_activity] [WorkOrder.Build 1 1 (of_int 100) msd_month]
    cards [] [] 1 1.

End EngineVocabulary.

Section PeriodVocabulary2.

(** Every stored period has a key below the next one to be given. *)
Definition periods_below_next (session : Session.t) : Prop :=
  Forall (fun p => (EfficiencyPeriod.id p < Session.next_period_id session)%Z)
         (Session.efficiency_periods session).

(** The rows a team average is taken over: those of the team's members
    for exactly the period whose AWC share is at most one half. *)
Definition team_rows (team_name : string) (period_start period_end : date)
  (session : Session.t) : list EfficiencyPeriod.t :=
  filter (fun p =>
            existsb (fun e => (EfficiencyEmployee.id e =? EfficiencyPeriod.employee_id p)%Z
                              && match EfficiencyEmployee.team e with
                                 | Some x => String.eqb x team_name
                                 | None => false
                                 end)
                    (Session.employees session)
            && EfficiencyEngine.date_eqb (EfficiencyPeriod.period_start p) period_start
            && EfficiencyEngine.date_eqb (EfficiencyPeriod.period_end p) period_end
            && float_leb (EfficiencyPeriod.awc_pct p) (Q2Qc 0.5))
         (Session.efficiency_periods session).

(** The session with another table of periods. *)
Definition with_periods (session : Session.t) (rows : list EfficiencyPeriod.t)
  : Session.t :=
  Session.with_efficiency_periods session rows (Session.next_period_id session).

(** The session with another table of flags. *)
Definition with_flags (session : Session.t) (flags : list ValidationFlag.t)
  : Session.t :=
  Session.Build (Session.employees session) (Session.activity_codes session)
    (Session.work_orders session) (Session.job_cards session) flags
    (Session.efficiency_periods session) (Session.next_flag_id session)
    (Session.next_period_id session).

(** The cards and activity codes of [mostly_awc_session] with two stored
    periods, one of them of employee 1 for November 2024. *)
Definition stored_periods_session : Session.t :=
  Session.with_efficiency_periods mostly_awc_session
    [sample_period 1 1 (of_int 50); sample_period 2 2 (of_int 60)] 3.

(** The primary key of the activity codes. *)
Definition activities_keyed (session : Session.t) : Prop :=
  NoDup (map ActivityCode.id (Session.activity_codes session)).

(** A fetched row pairs the card with the activity code it names, or with
    none when it names none that is stored. *)
Definition joined (session : Session.t) (row : JobCard.t * option ActivityCode.t)
  : Prop :=
  match snd row with
  | Some act =>
      JobCard.activity_code_id (fst row) = Some (ActivityCode.id act)
      /\ In act (Session.activity_codes session)
  | None =>
      forall act, In act (Session.activity_codes session) ->
                  JobCard.activity_code_id (fst row) <> Some (ActivityCode.id act)
  end.

(** The stored activity code a card names, if any. *)
Definition stored_activity (session : Session.t) (jc : JobCard.t)
  : option ActivityCode.t :=
  hd_error (activities_of session jc).

(** A card whose hours are productive: it names a stored activity code. *)
Definition card_coded (session : Session.t) (jc : JobCard.t) : bool :=
  match stored_activity session jc with
  | Some _ => true
  | None => false
  end.

(** The card's quantity times the standard hours per unit of its activity
    code, the standard defaulting to 0. *)
Definition card_std_hours (session : Session.t) (jc : JobCard.t) : float :=
  match stored_activity session jc with
  | Some act =>
      (or_default (ActivityCode.std_hours_per_unit act) (of_int 0) * JobCard.qty jc)%Qc
  | None => of_int 0
  end.

End PeriodVocabulary2.

Section SplitVocabulary2.

Import SplitService.

(** A flag the split service counts: SPLIT_CANDIDATE and unresolved. *)
Definition counts_for_split (f : ValidationFlag.t) : bool :=
  FlagTypeEnum_eqb (ValidationFlag.flag_type f) SPLIT_CANDIDATE
  && negb (ValidationFlag.resolved f).

End SplitVocabulary2.

(** * Properties *)

(** ** Python values *)

Ltac float_ring := unfold of_int, inject_Z; ring.

(** Equality of evaluated data, field by field: two rationals are equal
    when their reduced fractions are. *)
Ltac float_fields :=
  repeat match goal with
         | |- @eq Qc _ _ => apply Qc_is_canon; reflexivity
         | |- _ => progress f_equal
         end.

Section PyFacts.

Lemma float_ltb_lt (x y : float) : float_ltb x y = true <-> (x < y)%Qc.
Proof.
  unfold float_ltb; rewrite Qclt_alt.
  destruct (x ?= y)%Qc; split; congruence.
Qed.

Lemma float_leb_le (x y : float) : float_leb x y = true <-> (x <= y)%Qc.
Proof.
  unfold float_leb; rewrite Qcle_alt.
  destruct (x ?= y)%Qc; split; congruence.
Qed.

Lemma float_eqb_eq (x y : float) : float_eqb x y = true <-> x = y.
Proof.
  unfold float_eqb; rewrite Qceq_alt.
  destruct (x ?= y)%Qc; split; congruence.
Qed.

Lemma float_eqb_neq (x y : float) : float_eqb x y = false <-> x <> y.
Proof.
  rewrite <- float_eqb_eq; destruct (float_eqb x y); split; congruence.
Qed.

Lemma float_ltb_ge (x y : float) : float_ltb x y = false <-> (y <= x)%Qc.
Proof.
  split; intro H.
  - apply Qcnot_lt_le; intro L; apply float_ltb_lt in L; congruence.
  - destruct (float_ltb x y) eqn:E; [|reflexivity].
    apply float_ltb_lt in E; exfalso; exact (Qcle_not_lt _ _ H E).
Qed.

Lemma float_leb_gt (x y : float) : float_leb x y = false <-> (y < x)%Qc.
Proof.
  split; intro H.
  - apply Qcnot_le_lt; intro L; apply float_leb_le in L; congruence.
  - destruct (float_leb x y) eqn:E; [|reflexivity].
    apply float_leb_le in E; exfalso; exact (Qclt_not_le _ _ H E).
Qed.

Lemma or_float_zero (x : float) : or_float x (of_int 0) = x.
Proof.
  unfold or_float; destruct (float_eqb x (of_int 0)) eqn:E; [|reflexivity].
  apply float_eqb_eq in E; congruence.
Qed.

Lemma max_ge_r (a b : float) : (b <= max a b)%Qc.
Proof.
  unfold max; destruct (float_ltb a b) eqn:E.
  - apply Qcle_refl.
  - now apply float_ltb_ge.
Qed.


Lemma truediv_Ok (a b : float) : b <> of_int 0 -> truediv a b = Ok (a / b)%Qc.
Proof.
  intro H; unfold truediv.
  now apply float_eqb_neq in H; rewrite H.
Qed.

Lemma of_int_pos (z : Z) : (0 < z)%Z -> of_int z <> of_int 0.
Proof.
  intros H E.
  apply Q2Qc_eq_iff in E.
  unfold Qeq in E; simpl in E; lia.
Qed.


Local Open Scope Qc_scope.

Lemma fold_left_plus (l : list float) (a : float) :
  fold_left Qcplus l a = a + sum l.
Proof.
  unfold sum; revert a; induction l as [|x l IH]; intro a; simpl.
  - float_ring.
  - rewrite IH, (IH (of_int 0 + x)); float_ring.
Qed.

Lemma sum_nil : sum [] = of_int 0.
Proof. reflexivity. Qed.

Lemma sum_cons (x : float) (l : list float) : sum (x :: l) = x + sum l.
Proof.
  unfold sum at 1; simpl; rewrite fold_left_plus; float_ring.
Qed.

Lemma sum_app (l1 l2 : list float) : sum (l1 ++ l2) = sum l1 + sum l2.
Proof.
  induction l1 as [|x l1 IH]; simpl.
  - rewrite sum_nil; float_ring.
  - rewrite !sum_cons, IH; float_ring.
Qed.

Lemma sum_filter_cons {A : Type} (f : A -> float) (p : A -> bool) (x : A) (l : list A) :
  sum (map f (filter p (x :: l)))
  = (if p x then f x else of_int 0) + sum (map f (filter p l)).
Proof.
  cbn [filter]; destruct (p x); cbn [map]; [apply sum_cons | float_ring].
Qed.

Lemma length_filter_cons {A : Type} (p : A -> bool) (x : A) (l : list A) :
  Z.of_nat (List.length (filter p (x :: l)))
  = ((if p x then 1 else 0) + Z.of_nat (List.length (filter p l)))%Z.
Proof.
  cbn [filter]; destruct (p x); cbn [List.length]; lia.
Qed.

End PyFacts.

(** ** The MSD window rule *)

Section MsdWindow.

Open Scope Z_scope.

Lemma forallb_range (P : Z -> bool) (lo n : Z) :
  forallb P (map (fun i => lo + Z.of_nat i) (seq 0 (Z.to_nat n))) = true ->
  forall z, lo <= z < lo + n -> P z = true.
Proof.
  intros H z Hz.
  rewrite forallb_forall in H; apply H.
  apply in_map_iff; exists (Z.to_nat (z - lo)); split; [lia|].
  apply in_seq; lia.
Qed.

Lemma split_no_dash (a : string) : no_dash a = true -> split "-" a = [a].
Proof.
  induction a as [|c a IH]; simpl; [reflexivity|].
  intro H; apply andb_prop in H; destruct H as [Hc Ha].
  apply negb_true_iff in Hc; rewrite Hc, (IH Ha); reflexivity.
Qed.

Lemma split_one_dash (a b : string) :
  no_dash a = true -> no_dash b = true ->
  split "-" (a ++ "-" ++ b) = [a; b].
Proof.
  intros Ha Hb; induction a as [|c a IH]; simpl.
  - rewrite (split_no_dash b Hb); reflexivity.
  - simpl in Ha; apply andb_prop in Ha; destruct Ha as [Hc Ha].
    apply negb_true_iff in Hc; specialize (IH Ha); simpl in IH.
    rewrite Hc, IH; reflexivity.
Qed.

Lemma reads_back_spec (width : nat) (z : Z) :
  reads_back width z = true ->
  no_dash (zfill width z) = true /\ int (zfill width z) = Ok z.
Proof.
  unfold reads_back; intro H; apply andb_prop in H; destruct H as [H1 H2].
  split; [exact H1|].
  destruct (int (zfill width z)); [|discriminate].
  apply Z.eqb_eq in H2; subst; reflexivity.
Qed.

Lemma year_reads_back (y : Z) : 1 <= y <= 9999 -> reads_back 4 y = true.
Proof.
  intro H; apply (forallb_range (reads_back 4) 1 9999); [|lia].
  vm_compute; reflexivity.
Qed.

Lemma month_reads_back (m : Z) : 1 <= m <= 12 -> reads_back 2 m = true.
Proof.
  intro H; apply (forallb_range (reads_back 2) 1 12); [|lia].
  vm_compute; reflexivity.
Qed.

Lemma parse_msd_text (y m : Z) :
  1 <= y <= 9999 -> 1 <= m <= 12 ->
  ValidationEngine.parse_msd_month (msd_text y m) = Ok (y, m).
Proof.
  intros Hy Hm.
  destruct (reads_back_spec _ _ (year_reads_back y Hy)) as [Dy Iy].
  destruct (reads_back_spec _ _ (month_reads_back m Hm)) as [Dm Im].
  unfold ValidationEngine.parse_msd_month, msd_text.
  rewrite (split_one_dash _ _ Dy Dm), Iy; simpl; rewrite Im; reflexivity.
Qed.

Lemma date_compare_antisym (a b : date) :
  date_compare b a = CompOpp (date_compare a b).
Proof.
  unfold date_compare.
  rewrite (Z.compare_antisym (year a) (year b)),
          (Z.compare_antisym (month a) (month b)),
          (Z.compare_antisym (day a) (day b)).
  destruct (year a ?= year b), (month a ?= month b), (day a ?= day b); reflexivity.
Qed.

Lemma date_ltb_leb (a b : date) : date_ltb a b = negb (date_leb b a).
Proof.
  unfold date_ltb, date_leb; rewrite (date_compare_antisym a b).
  destruct (date_compare a b); reflexivity.
Qed.

Lemma mk_date_Ok (y m d : Z) :
  1 <= y <= 9999 -> 1 <= m <= 12 -> 1 <= d <= 28 -> mk_date y m d = Ok (Date y m d).
Proof.
  intros Hy Hm Hd; unfold mk_date.
  assert (D : 28 <= days_in_month y m).
  { unfold days_in_month.
    destruct (m =? 2); [destruct (is_leap y); lia|].
    destruct ((m =? 4) || (m =? 6) || (m =? 9) || (m =? 11))%bool; lia. }
  replace ((1 <=? y) && (y <=? 9999) && (1 <=? m) && (m <=? 12) && (1 <=? d)
           && (d <=? days_in_month y m))%bool with true; [reflexivity|].
  symmetry; repeat (apply andb_true_intro; split); apply Z.leb_le; lia.
Qed.

Lemma minus_one_month_first (y m : Z) :
  1 <= y <= 9999 -> 1 <= m <= 12 -> (y, m) <> (1, 1) ->
  minus_one_month (Date y m 1)
  = Ok (if m =? 1 then Date (y - 1) 12 1 else Date y (m - 1) 1).
Proof.
  intros Hy Hm Hne; unfold minus_one_month; simpl.
  assert (D : forall y' m', 1 <= Z.min (days_in_month y' m') 1 <= 28
                            /\ Z.min (days_in_month y' m') 1 = 1).
  { intros y' m'; unfold days_in_month.
    destruct (m' =? 2); [destruct (is_leap y'); lia|].
    destruct ((m' =? 4) || (m' =? 6) || (m' =? 9) || (m' =? 11))%bool; lia. }
  destruct (Z.eqb_spec m 1) as [->|Hm1].
  - simpl. assert (y <> 1) by congruence.
    rewrite mk_date_Ok by (try apply D; lia).
    now rewrite (proj2 (D _ _)).
  - destruct (Z.ltb_spec (m - 1) 1) as [L|L]; [lia|].
    rewrite mk_date_Ok by (try apply D; lia).
    now rewrite (proj2 (D _ _)).
Qed.

Lemma msd_window_Ok (y m : Z) :
  1 <= y <= 9999 -> 1 <= m <= 12 -> (y, m) <> (1, 1) ->
  ValidationEngine.msd_window y m = Ok (window_of y m).
Proof.
  intros Hy Hm Hne; unfold ValidationEngine.msd_window, window_of.
  rewrite mk_date_Ok by lia; simpl.
  rewrite minus_one_month_first by assumption; simpl.
  assert (y <> 1 \/ m <> 1) by (destruct (Z.eq_dec y 1); [right; congruence | now left]).
  destruct (Z.eqb_spec m 1) as [->|Hm1]; simpl;
    rewrite !mk_date_Ok by lia; reflexivity.
Qed.

Lemma msd_window_rule_in_month (jobcard : JobCard.t) (session : Session.t)
  (work_order : WorkOrder.t) (y m : Z) :
  Session.get_work_order session (JobCard.work_order_id jobcard) = Ok (Some work_order) ->
  WorkOrder.msd_month work_order = msd_text y m ->
  1 <= y <= 9999 -> 1 <= m <= 12 -> (y, m) <> (1, 1) ->
  ValidationEngine.msd_window_rule jobcard session
  = Ok (if date_leb (fst (window_of y m)) (JobCard.entry_date jobcard)
           && date_leb (JobCard.entry_date jobcard) (snd (window_of y m))
        then []
        else [outside_msd_flag jobcard work_order
                (fst (window_of y m)) (snd (window_of y m))]).
Proof.
  intros Hwo Htext Hy Hm Hne.
  pose proof (msd_window_Ok y m Hy Hm Hne) as W.
  destruct (window_of y m) as [ws we].
  unfold ValidationEngine.msd_window_rule.
  rewrite Hwo; simpl.
  assert (P : ValidationEngine.parse_msd_month (WorkOrder.msd_month work_order)
              = Ok (y, m))
    by (rewrite Htext; now apply parse_msd_text).
  rewrite P; simpl.
  rewrite W; simpl.
  rewrite !date_ltb_leb.
  destruct (date_leb ws (JobCard.entry_date jobcard)),
           (date_leb (JobCard.entry_date jobcard) we); reflexivity.
Qed.

(** C5.  For a work order whose [msd_month] is the text "YYYY-MM" of a
    calendar month, the MSD window rule computes the window from the 25th
    of the previous month to the 10th of that month, both ends included,
    and returns one OUTSIDE_MSD flag exactly when the entry date is
    strictly before the first or strictly after the last day of the
    window, and no flag otherwise.  For "2024-11" the window is
    2024-10-25 to 2024-11-10: entry dates 2024-10-25 and 2024-11-10 give no
    flag, 2024-10-24 and 2024-11-11 give one each. *)
Theorem msd_window_rule_flags_outside_window :
  (forall (jobcard : JobCard.t) (session : Session.t) (work_order : WorkOrder.t)
          (y m : Z),
      Session.get_work_order session (JobCard.work_order_id jobcard)
      = Ok (Some work_order) ->
      WorkOrder.msd_month work_order = msd_text y m ->
      1 <= y <= 9999 -> 1 <= m <= 12 -> (y, m) <> (1, 1) ->
      let window_start := fst (window_of y m) in
      let window_end := snd (window_of y m) in
      let entry_date := JobCard.entry_date jobcard in
      ValidationEngine.msd_window y m = Ok (window_start, window_end)
      /\ exists flags,
          ValidationEngine.msd_window_rule jobcard session = Ok flags
          /\ (flags = [outside_msd_flag jobcard work_order window_start window_end]
              <-> date_ltb entry_date window_start = true
                  \/ date_ltb window_end entry_date = true)
          /\ (flags = []
              <-> date_leb window_start entry_date = true
                  /\ date_leb entry_date window_end = true))
  /\
  (forall (jobcard : JobCard.t) (session : Session.t) (work_order : WorkOrder.t),
      Session.get_work_order session (JobCard.work_order_id jobcard)
      = Ok (Some work_order) ->
      WorkOrder.msd_month work_order = "2024-11"%string ->
      ValidationEngine.msd_window 2024 11 = Ok (Date 2024 10 25, Date 2024 11 10)
      /\ (JobCard.entry_date jobcard = Date 2024 10 25
          \/ JobCard.entry_date jobcard = Date 2024 11 10 ->
          ValidationEngine.msd_window_rule jobcard session = Ok [])
      /\ (JobCard.entry_date jobcard = Date 2024 10 24
          \/ JobCard.entry_date jobcard = Date 2024 11 11 ->
          ValidationEngine.msd_window_rule jobcard session
          = Ok [outside_msd_flag jobcard work_order
                  (Date 2024 10 25) (Date 2024 11 10)])).
Proof.
  split.
  - intros jobcard session work_order y m Hwo Htext Hy Hm Hne ws we e.
    split; [rewrite msd_window_Ok by assumption; f_equal; apply surjective_pairing|].
    rewrite (msd_window_rule_in_month _ _ _ _ _ Hwo Htext Hy Hm Hne).
    fold ws we e; rewrite !date_ltb_leb.
    eexists; split; [reflexivity|].
    destruct (date_leb ws e), (date_leb e we); simpl; split; split;
      intuition (try discriminate; auto).
  - intros jobcard session work_order Hwo Htext.
    assert (R := msd_window_rule_in_month jobcard session work_order 2024 11 Hwo Htext
                   ltac:(lia) ltac:(lia) ltac:(congruence)).
    split; [reflexivity|].
    split; intros [E|E]; rewrite R, E; reflexivity.
Qed.

(** The general statement at the sample work order, for a card entered on
    2024-11-20. *)
Lemma msd_window_rule_flags_outside_window_witness :
  let jobcard := sample_card 1 1 (of_int 10) (of_int 5) C (Date 2024 11 20) in
  let session := sample_session [jobcard] [] in
  ValidationEngine.msd_window 2024 11 = Ok (Date 2024 10 25, Date 2024 11 10)
  /\ exists flags,
      ValidationEngine.msd_window_rule jobcard session = Ok flags
      /\ (flags = [outside_msd_flag jobcard sample_work_order
                     (Date 2024 10 25) (Date 2024 11 10)]
          <-> date_ltb (Date 2024 11 20) (Date 2024 10 25) = true
              \/ date_ltb (Date 2024 11 10) (Date 2024 11 20) = true)
      /\ (flags = []
          <-> date_leb (Date 2024 10 25) (Date 2024 11 20) = true
              /\ date_leb (Date 2024 11 20) (Date 2024 11 10) = true).
Proof.
  intros jobcard session.
  apply (proj1 msd_window_rule_flags_outside_window jobcard session
           sample_work_order 2024 11).
  - reflexivity.
  - reflexivity.
  - lia.
  - lia.
  - discriminate.
Defined.

End MsdWindow.

(** ** The split-candidate rule *)

Section SplitCandidateRule.

Open Scope Z_scope.

Lemma split_candidate_rule_complete (jobcard : JobCard.t) (session : Session.t) :
  JobCard.status jobcard = C ->
  ValidationEngine.split_candidate_rule jobcard session = Ok [].
Proof.
  intro H; unfold ValidationEngine.split_candidate_rule; rewrite H; reflexivity.
Qed.

Lemma split_candidate_rule_incomplete (jobcard : JobCard.t) (session : Session.t) :
  JobCard.status jobcard = IC ->
  exists flags,
    ValidationEngine.split_candidate_rule jobcard session = Ok flags
    /\ match ValidationEngine.completed_by_others jobcard session with
       | [] => flags = []
       | others =>
           map ValidationFlag.job_card_id flags
           = JobCard.id jobcard :: map JobCard.id others
       end
    /\ Forall (fun f => ValidationFlag.flag_type f = SPLIT_CANDIDATE
                        /\ ValidationFlag.resolved f = false
                        /\ ValidationFlag.id f = None) flags.
Proof.
  intro H; unfold ValidationEngine.split_candidate_rule; rewrite H; simpl.
  destruct (ValidationEngine.completed_by_others jobcard session) as [|o others].
  - exists []; repeat split; constructor.
  - eexists; split; [reflexivity|]; split.
    + simpl; rewrite map_map; reflexivity.
    + constructor; [repeat split|].
      apply Forall_map, Forall_forall; intros; repeat split.
Qed.

(** C2, as the code has it.  For a card with status Incomplete for which
    the rule's query finds N >= 1 Complete cards on the same work order
    and activity by a different employee, the rule returns N + 1
    SPLIT_CANDIDATE flags: one on the current card, whose text names the
    first three of the matches at most, followed by one on each matched
    card, whose text names the current card.  With no match, and for a
    card with status Complete, it returns no flag. *)
Theorem split_candidate_rule_one_plus_one_per_match
  (jobcard : JobCard.t) (session : Session.t) :
  let others := ValidationEngine.completed_by_others jobcard session in
  exists flags,
    ValidationEngine.split_candidate_rule jobcard session = Ok flags
    /\ (JobCard.status jobcard = C -> flags = [])
    /\ (JobCard.status jobcard = IC -> others = [] -> flags = [])
    /\ (JobCard.status jobcard = IC -> others <> [] ->
        map ValidationFlag.job_card_id flags
        = JobCard.id jobcard :: map JobCard.id others
        /\ List.length flags = S (List.length others)
        /\ List.length (filter is_split_candidate flags) = S (List.length others)
        /\ Forall (fun f => ValidationFlag.resolved f = false) flags
        /\ exists first rest,
             flags = first :: rest
             /\ ValidationFlag.details first
                = [Text ("Status=IC but related job card(s) "
                         ++ join ", " (map (fun jc => str_int (JobCard.id jc))
                                           (firstn 3 others))
                         ++ " are Complete by different employee(s)"
                         ++ " - possible work split")]
             /\ map ValidationFlag.details rest
                = map (fun _ => [Text ("Status=C but related job card "
                                       ++ str_int (JobCard.id jobcard)
                                       ++ " is Incomplete by different employee"
                                       ++ " - possible work split")]) others).
Proof.
  intro others; destruct (JobCard.status jobcard) eqn:St.
  - destruct (split_candidate_rule_incomplete jobcard session St)
      as (flags & R & Ids & All).
    exists flags; split; [exact R|].
    split; [discriminate|].
    fold others in Ids.
    split; intros _ Ho.
    + now rewrite Ho in Ids.
    + assert (Shape : exists first rest,
                 flags = first :: rest
                 /\ ValidationFlag.details first
                    = [Text ("Status=IC but related job card(s) "
                             ++ join ", " (map (fun jc => str_int (JobCard.id jc))
                                               (firstn 3 others))
                             ++ " are Complete by different employee(s)"
                             ++ " - possible work split")]
                 /\ map ValidationFlag.details rest
                    = map (fun _ => [Text ("Status=C but related job card "
                                           ++ str_int (JobCard.id jobcard)
                                           ++ " is Incomplete by different employee"
                                           ++ " - possible work split")]) others).
      { unfold ValidationEngine.split_candidate_rule in R.
        rewrite St in R; cbn [JobCardStatusEnum_eqb negb] in R; cbv zeta in R.
        fold others in R.
        destruct others as [|o os]; [congruence|].
        injection R as <-.
        do 2 eexists; split; [reflexivity|]; split; [reflexivity|].
        cbn [map]; f_equal; rewrite map_map; reflexivity. }
      destruct others as [|o os]; [congruence|].
      assert (L : List.length flags = S (List.length (o :: os))).
      { rewrite <- (length_map ValidationFlag.job_card_id), Ids; simpl.
        now rewrite length_map. }
      split; [assumption|]; split; [assumption|]; split; [|split]; [| |exact Shape].
      * rewrite <- L; f_equal.
        apply forallb_filter_id, forallb_forall; intros f Hf.
        rewrite Forall_forall in All; unfold is_split_candidate.
        now rewrite (proj1 (All f Hf)).
      * eapply Forall_impl; [|exact All]; simpl; tauto.
  - exists []; split; [now apply split_candidate_rule_complete|].
    repeat split; try discriminate; reflexivity.
Qed.

(** An Incomplete card with two Complete matches gets three flags from the
    rule, not four; with four matches it gets five, and the text of the
    first names three of them. *)
Lemma split_candidate_rule_two_matches_three_flags :
  let c1 := sample_card 1 1 (of_int 50) (of_int 5) C (Date 2024 11 5) in
  let c2 := sample_card 2 2 (of_int 20) (of_int 2) C (Date 2024 11 5) in
  let c4 := sample_card 4 4 (of_int 20) (of_int 2) C (Date 2024 11 5) in
  let c5 := sample_card 5 5 (of_int 20) (of_int 2) C (Date 2024 11 5) in
  let jobcard := sample_card 3 3 (of_int 30) (of_int 3) IC (Date 2024 11 6) in
  let session := sample_session [c1; c2; jobcard] [] in
  let session4 := sample_session [c1; c2; jobcard; c4; c5] [] in
  JobCard.status jobcard = IC
  /\ ValidationEngine.completed_by_others jobcard session = [c1; c2]
  /\ (exists flags,
        ValidationEngine.split_candidate_rule jobcard session = Ok flags
        /\ map ValidationFlag.job_card_id flags = [3; 1; 2]
        /\ List.length (filter is_split_candidate flags) = 3%nat
        /\ List.length (filter is_split_candidate flags) <> (2 * 2)%nat)
  /\ (exists flags,
        ValidationEngine.split_candidate_rule jobcard session4 = Ok flags
        /\ map ValidationFlag.job_card_id flags = [3; 1; 2; 4; 5]
        /\ map ValidationFlag.details (firstn 1 flags)
           = [[Text "Status=IC but related job card(s) 1, 2, 4 are Complete by different employee(s) - possible work split"]]).
Proof.
  intros c1 c2 c4 c5 jobcard session session4.
  split; [reflexivity|].
  split; [reflexivity|].
  split.
  - eexists; split; [reflexivity|].
    repeat split; discriminate.
  - eexists; split; [reflexivity|]; split; reflexivity.
Qed.

End SplitCandidateRule.

(** ** The engine's run: replace the card's unresolved flags *)

Section RunForJobcard.

Open Scope Z_scope.

Lemma delete_flags_filter (sel : list ValidationFlag.t) (s : Session.t) :
  Session.validation_flags
    (fold_left (fun s flag => Session.delete_flag flag s) sel s)
  = filter (fun g => forallb (fun f => match ValidationFlag.id g, ValidationFlag.id f with
                                       | Some x, Some y => negb (x =? y)
                                       | _, _ => true
                                       end) sel)
           (Session.validation_flags s).
Proof.
  revert s; induction sel as [|f sel IH]; intro s; simpl.
  - induction (Session.validation_flags s) as [|g l IHl]; simpl; congruence.
  - rewrite IH; simpl.
    induction (Session.validation_flags s) as [|g l IHl]; simpl; [reflexivity|].
    destruct (match ValidationFlag.id g, ValidationFlag.id f with
              | Some x, Some y => negb (x =? y)
              | _, _ => true
              end); simpl; [|exact IHl].
    destruct (forallb _ sel); simpl; congruence.
Qed.

Lemma delete_flags_other_fields (sel : list ValidationFlag.t) (s : Session.t) :
  let s' := fold_left (fun s flag => Session.delete_flag flag s) sel s in
  Session.next_flag_id s' = Session.next_flag_id s
  /\ Session.job_cards s' = Session.job_cards s
  /\ Session.work_orders s' = Session.work_orders s.
Proof.
  revert s; induction sel as [|f sel IH]; intro s; simpl; [auto|].
  destruct (IH (Session.delete_flag f s)) as (A & B & D); auto.
Qed.

Lemma keyed_injective (l : list ValidationFlag.t) (f g : ValidationFlag.t) :
  NoDup (map ValidationFlag.id l) -> In f l -> In g l ->
  ValidationFlag.id f = ValidationFlag.id g -> f = g.
Proof.
  induction l as [|h l IH]; simpl; [tauto|].
  intros N Hf Hg E; inversion N as [|? ? Hh N']; subst.
  destruct Hf as [->|Hf], Hg as [->|Hg]; auto.
  - exfalso; apply Hh; rewrite E; now apply in_map.
  - exfalso; apply Hh; rewrite <- E; now apply in_map.
Qed.

(** With the primary key in place, clearing removes exactly the card's
    unresolved flags. *)
Lemma clear_existing_flags_spec (job_card_id : Z) (s : Session.t) :
  flags_keyed s ->
  Session.validation_flags (ValidationEngine._clear_existing_flags job_card_id s)
  = filter (fun g => negb (unresolved_of job_card_id g)) (Session.validation_flags s).
Proof.
  intros [N K]; unfold ValidationEngine._clear_existing_flags.
  rewrite delete_flags_filter.
  apply filter_ext_in; intros g Hg.
  fold (unresolved_of job_card_id).
  destruct (unresolved_of job_card_id g) eqn:U; simpl.
  - apply not_true_is_false; intro A.
    rewrite forallb_forall in A.
    assert (Hin : In g (filter (unresolved_of job_card_id) (Session.validation_flags s)))
      by (apply filter_In; auto).
    specialize (A g Hin).
    rewrite Forall_forall in K; destruct (K g Hg) as (i & Hi & _).
    rewrite Hi, Z.eqb_refl in A; discriminate.
  - apply forallb_forall; intros f Hf.
    apply filter_In in Hf; destruct Hf as [Hf Uf].
    destruct (ValidationFlag.id g) as [x|] eqn:Ig, (ValidationFlag.id f) as [y|] eqn:If;
      try reflexivity.
    apply negb_true_iff, Z.eqb_neq; intro E; subst y.
    assert (g = f) by (apply (keyed_injective _ _ _ N Hg Hf); congruence).
    congruence.
Qed.

Lemma add_all_spec (flags : list ValidationFlag.t) (s : Session.t) :
  let '(s', out) := ValidationEngine.add_all flags s in
  out = keyed_from (Session.next_flag_id s) flags
  /\ Session.validation_flags s' = Session.validation_flags s ++ out
  /\ Session.next_flag_id s' = Session.next_flag_id s + Z.of_nat (List.length flags).
Proof.
  revert s; induction flags as [|f flags IH]; intro s; simpl.
  - rewrite app_nil_r; repeat split; lia.
  - specialize (IH (fst (Session.add_flag f s))); simpl in IH.
    destruct (ValidationEngine.add_all flags _) as [s2 rest].
    destruct IH as (A & B & D); simpl in *.
    repeat split.
    + now rewrite A.
    + now rewrite B, <- app_assoc.
    + rewrite D; lia.
Qed.


Lemma keyed_from_resolved (i : Z) (flags : list ValidationFlag.t) :
  Forall (fun f => ValidationFlag.resolved f = false) flags ->
  Forall (fun f => ValidationFlag.resolved f = false) (keyed_from i flags).
Proof.
  intro H; revert i; induction H as [|f flags Hf _ IH]; intro i; simpl;
    constructor; auto.
Qed.

Lemma keyed_from_keys (i : Z) (flags : list ValidationFlag.t) :
  map ValidationFlag.id (keyed_from i flags)
  = map (fun k => Some (i + Z.of_nat k)) (seq 0 (List.length flags)).
Proof.
  revert i; induction flags as [|f flags IH]; intro i; [reflexivity|].
  cbn [keyed_from map List.length seq]; cbn [keyed ValidationFlag.id].
  rewrite IH, <- seq_shift, map_map; f_equal; [f_equal; lia|].
  apply map_ext; intro k; f_equal; lia.
Qed.

Ltac rule_cases :=
  repeat match goal with
         | H : Ok _ = Ok _ |- _ => injection H as <-
         | H : Raise _ = Ok _ |- _ => discriminate H
         | H : bind ?m _ = Ok _ |- _ => destruct m eqn:?; simpl in H
         | H : match ?x with _ => _ end = Ok _ |- _ => destruct x eqn:?; simpl in H
         | H : (let '(_, _) := ?x in _) = Ok _ |- _ => destruct x eqn:?; simpl in H
         end.

Ltac all_new_flags :=
  repeat match goal with
         | |- context [if ?c then _ else _] => destruct c
         end;
  repeat (apply Forall_cons || apply Forall_nil || apply Forall_app; try split);
  try reflexivity;
  try (apply Forall_map, Forall_forall; intros; reflexivity).

Lemma init_builds_unresolved :
  Forall builds_unresolved (ValidationEngine.rules ValidationEngine.init).
Proof.
  repeat constructor; intros jobcard session flags H.
  - unfold ValidationEngine.msd_window_rule in H; rule_cases; all_new_flags.
  - unfold ValidationEngine.duplication_rule in H; rule_cases; all_new_flags.
  - unfold ValidationEngine.awc_rule in H; rule_cases; all_new_flags.
  - unfold ValidationEngine.split_candidate_rule in H; rule_cases; all_new_flags.
  - unfold ValidationEngine.qty_mismatch_rule in H; rule_cases; all_new_flags.
Qed.

Lemma rules_build_unresolved (rules : list ValidationEngine.Rule)
  (jobcard : JobCard.t) (session : Session.t) (acc all_flags : list ValidationFlag.t) :
  Forall builds_unresolved rules ->
  Forall (fun f => ValidationFlag.resolved f = false) acc ->
  for_each (fun all_flags rule =>
              flags <- rule jobcard session ;; Ok (all_flags ++ flags)) rules acc
  = Ok all_flags ->
  Forall (fun f => ValidationFlag.resolved f = false) all_flags.
Proof.
  intro R; revert acc; induction R as [|rule rules Hr _ IH]; intros acc Hacc H; simpl in H.
  - now injection H as <-.
  - destruct (rule jobcard session) as [flags|] eqn:E; simpl in H; [|discriminate].
    apply (IH (acc ++ flags)); [|exact H].
    apply Forall_app; split; [exact Hacc|]. now apply (Hr jobcard session).
Qed.

Lemma filter_filter_twice {A : Type} (p q : A -> bool) (l : list A) :
  filter p (filter q l) = filter (fun x => q x && p x) l.
Proof.
  induction l as [|x l IH]; simpl; [reflexivity|].
  destruct (q x); simpl; [destruct (p x)|]; now rewrite IH.
Qed.

Lemma filter_none {A : Type} (p : A -> bool) (l : list A) :
  (forall x, In x l -> p x = false) -> filter p l = [].
Proof.
  induction l as [|x l IH]; simpl; intro H; [reflexivity|].
  rewrite (H x (or_introl eq_refl)); apply IH; auto.
Qed.

Lemma NoDup_map_filter {Row Key : Type} (key : Row -> Key) (keep : Row -> bool)
  (rows : list Row) :
  NoDup (map key rows) -> NoDup (map key (filter keep rows)).
Proof.
  induction rows as [|r rows IH]; simpl; intro N; [constructor|].
  inversion N as [|? ? Hr N']; subst.
  destruct (keep r); simpl; auto.
  constructor; auto.
  intro H; apply Hr.
  apply in_map_iff in H; destruct H as (y & E & Hy).
  apply filter_In in Hy; rewrite <- E; apply in_map; tauto.
Qed.

(** What one run does to the flag table. *)
Lemma run_for_jobcard_table (self : ValidationEngine.t) (jobcard : JobCard.t)
  (session session' : Session.t) (all_flags : list ValidationFlag.t) :
  flags_keyed session ->
  Forall builds_unresolved (ValidationEngine.rules self) ->
  ValidationEngine.run_for_jobcard self jobcard session = Ok (session', all_flags) ->
  Session.validation_flags session'
  = filter (fun g => negb (unresolved_of (JobCard.id jobcard) g))
           (Session.validation_flags session) ++ all_flags
  /\ Forall (fun f => ValidationFlag.resolved f = false) all_flags
  /\ map ValidationFlag.id all_flags
     = map (fun k => Some (Session.next_flag_id session + Z.of_nat k))
           (seq 0 (List.length all_flags))
  /\ Session.next_flag_id session'
     = Session.next_flag_id session + Z.of_nat (List.length all_flags).
Proof.
  intros K R H; unfold ValidationEngine.run_for_jobcard in H.
  match type of H with
  | bind ?m _ = _ => destruct m as [raw|] eqn:E; simpl in H; [|discriminate]
  end.
  pose proof (add_all_spec raw
                (ValidationEngine._clear_existing_flags (JobCard.id jobcard) session))
    as S.
  destruct (ValidationEngine.add_all raw _) as [s2 out].
  injection H as -> ->.
  destruct S as (Out & Tab & Next).
  pose proof (delete_flags_other_fields
                (filter (fun f => (ValidationFlag.job_card_id f =? JobCard.id jobcard)
                                  && negb (ValidationFlag.resolved f))
                        (Session.validation_flags session)) session) as (Nx & _).
  fold (ValidationEngine._clear_existing_flags (JobCard.id jobcard) session) in Nx.
  rewrite Nx in *.
  assert (L : List.length all_flags = List.length raw).
  { rewrite Out; clear; generalize (Session.next_flag_id session).
    induction raw; intro i; simpl; auto. }
  repeat split.
  - now rewrite Tab, clear_existing_flags_spec.
  - rewrite Out; apply keyed_from_resolved.
    now apply (rules_build_unresolved _ jobcard session [] raw R).
  - rewrite Out, keyed_from_keys, <- L, Out; reflexivity.
  - rewrite L; exact Next.
Qed.

(** C1, as the code has it.  When a run of the engine on a card
    completes, the unresolved flags stored for that card are exactly the
    flags of the run's answer addressed to it: the card's earlier
    unresolved flags are replaced, not merged.  The flags the answer
    addresses to any other card are appended to that card's unresolved
    flags, whose earlier ones stay; resolved flags are untouched and the
    primary key of the table is kept. *)
Theorem run_for_jobcard_replaces_flags_of_its_card
  (jobcard : JobCard.t) (session session' : Session.t)
  (all_flags : list ValidationFlag.t) :
  flags_keyed session ->
  ValidationEngine.run_for_jobcard ValidationEngine.init jobcard session
  = Ok (session', all_flags) ->
  unresolved_flags (JobCard.id jobcard) session'
  = flags_for (JobCard.id jobcard) all_flags
  /\ (forall other : Z,
        other <> JobCard.id jobcard ->
        unresolved_flags other session'
        = unresolved_flags other session ++ flags_for other all_flags)
  /\ resolved_flags session' = resolved_flags session
  /\ flags_keyed session'.
Proof.
  intros K H.
  destruct (run_for_jobcard_table _ _ _ _ _ K init_builds_unresolved H)
    as (Tab & Unres & Keys & Next).
  assert (U : forall c, filter (unresolved_of c) all_flags = flags_for c all_flags).
  { intro c; apply filter_ext_in; intros f Hf; unfold unresolved_of.
    rewrite Forall_forall in Unres; rewrite (Unres f Hf); apply andb_true_r. }
  unfold unresolved_flags, resolved_flags; rewrite Tab, !filter_app.
  repeat split.
  - rewrite U, filter_filter_twice, filter_none; [reflexivity|].
    intros g _; destruct (unresolved_of (JobCard.id jobcard) g); reflexivity.
  - intros other Ho; rewrite filter_app, U, filter_filter_twice; f_equal.
    apply filter_ext; intro g; unfold unresolved_of.
    destruct (Z.eqb_spec (ValidationFlag.job_card_id g) other) as [E|E];
      [|now rewrite andb_false_r].
    destruct (Z.eqb_spec (ValidationFlag.job_card_id g) (JobCard.id jobcard));
      [congruence | reflexivity].
  - rewrite filter_filter_twice, (filter_none _ all_flags), app_nil_r.
    + apply filter_ext; intro g; unfold unresolved_of.
      destruct (ValidationFlag.resolved g); [|apply andb_false_r].
      now rewrite andb_false_r.
    + intros f Hf; rewrite Forall_forall in Unres; exact (Unres f Hf).
  - rewrite Tab, map_app; destruct K as [N B]; apply NoDup_app.
    + now apply NoDup_map_filter.
    + rewrite Keys; apply NoDup_map_NoDup_ForallPairs; [|apply seq_NoDup].
      intros a b _ _ E; injection E; lia.
    + intros k Hk Hk'; rewrite Keys in Hk'.
      apply in_map_iff in Hk; destruct Hk as (g & Eg & Hg).
      apply filter_In in Hg; destruct Hg as [Hg _].
      rewrite Forall_forall in B; destruct (B g Hg) as (i & Ei & Li).
      apply in_map_iff in Hk'; destruct Hk' as (n & En & _).
      rewrite <- Eg, Ei in En; injection En; lia.
  - rewrite Next, Tab; apply Forall_app; split.
    + destruct K as [_ B]; rewrite Forall_forall in B |- *.
      intros g Hg; apply filter_In in Hg; destruct (B g (proj1 Hg)) as (i & Ei & Li).
      exists i; split; [exact Ei | lia].
    + apply Forall_forall; intros f Hf.
      apply (in_map ValidationFlag.id) in Hf; rewrite Keys in Hf.
      apply in_map_iff in Hf; destruct Hf as (n & En & Hn).
      apply in_seq in Hn; eexists; split; [symmetry; exact En | lia].
Qed.

End RunForJobcard.

Section RunForJobcardExamples.

Open Scope Z_scope.

Lemma sample_session_keyed (cards : list JobCard.t) : flags_keyed (sample_session cards []).
Proof. split; constructor. Qed.

(** The theorem at a run on an Incomplete card with one Complete sibling
    by another employee. *)
Lemma run_for_jobcard_replaces_flags_of_its_card_witness :
  let c1 := sample_card 1 1 (of_int 50) (of_int 5) C (Date 2024 11 5) in
  let c3 := sample_card 3 3 (of_int 30) (of_int 3) IC (Date 2024 11 6) in
  let session := sample_session [c1; c3] [] in
  exists session' all_flags,
    flags_keyed session
    /\ ValidationEngine.run_for_jobcard ValidationEngine.init c3 session
       = Ok (session', all_flags)
    /\ (unresolved_flags 3 session' = flags_for 3 all_flags
        /\ (forall other : Z,
              other <> 3 ->
              unresolved_flags other session'
              = unresolved_flags other session ++ flags_for other all_flags)
        /\ resolved_flags session' = resolved_flags session
        /\ flags_keyed session').
Proof.
  intros c1 c3 session.
  destruct (ValidationEngine.run_for_jobcard ValidationEngine.init c3 session)
    as [[session' all_flags]|] eqn:R; [|discriminate R].
  exists session', all_flags.
  split; [apply sample_session_keyed|].
  split; [reflexivity|].
  exact (run_for_jobcard_replaces_flags_of_its_card c3 session session' all_flags
           (sample_session_keyed [c1; c3]) R).
Defined.

(** A Complete card is validated, then its Incomplete sibling: the run on
    the sibling leaves a SPLIT_CANDIDATE flag on the first card, whose
    unresolved flags are then neither the answer of its own last run nor
    the part of the sibling's answer addressed to it. *)
Lemma sibling_run_adds_flag_to_validated_card :
  let c1 := sample_card 1 1 (of_int 50) (of_int 5) C (Date 2024 11 5) in
  let c3 := sample_card 3 3 (of_int 30) (of_int 3) IC (Date 2024 11 6) in
  let session := sample_session [c1; c3] [] in
  exists s1 flags1 s2 flags3,
    ValidationEngine.run_for_jobcard ValidationEngine.init c1 session = Ok (s1, flags1)
    /\ ValidationEngine.run_for_jobcard ValidationEngine.init c3 s1 = Ok (s2, flags3)
    /\ unresolved_flags 1 s1 = flags1
    /\ map ValidationFlag.flag_type flags1 = [DUPLICATION]
    /\ map ValidationFlag.flag_type (unresolved_flags 1 s2)
       = [DUPLICATION; SPLIT_CANDIDATE]
    /\ map ValidationFlag.flag_type (flags_for 1 flags3) = [SPLIT_CANDIDATE]
    /\ unresolved_flags 1 s2 <> flags1
    /\ unresolved_flags 1 s2 <> flags_for 1 flags3.
Proof.
  intros c1 c3 session.
  do 4 eexists.
  split; [vm_compute; reflexivity|].
  split; [vm_compute; reflexivity|].
  split; [reflexivity|].
  split; [reflexivity|].
  split; [reflexivity|].
  split; [reflexivity|].
  split; intro E; apply (f_equal (@List.length _)) in E; discriminate E.
Qed.

End RunForJobcardExamples.

(** ** The upsert of an efficiency period *)

Section Upsert.

Open Scope Z_scope.

Variables (employee_id : Z) (period_start period_end : date).
Variable data : EfficiencyEngine.Payload.t.

Let key := EfficiencyEngine.period_key employee_id period_start period_end.

Lemma date_eqb_refl (d : date) : EfficiencyEngine.date_eqb d d = true.
Proof.
  unfold EfficiencyEngine.date_eqb, date_compare; now rewrite !Z.compare_refl.
Qed.

Lemma set_metrics_key (p : EfficiencyPeriod.t) :
  key (EfficiencyEngine.set_metrics p data) = key p.
Proof. reflexivity. Qed.

Lemma new_period_key (i : Z) :
  key (new_period i employee_id period_start period_end data) = true.
Proof.
  unfold key, EfficiencyEngine.period_key; simpl.
  now rewrite Z.eqb_refl, !date_eqb_refl.
Qed.

Lemma delete_periods_filter (dups rows : list EfficiencyPeriod.t) :
  fold_left (fun rows dup => EfficiencyEngine.delete_period dup rows) dups rows
  = filter (fun p => forallb (fun d => negb (EfficiencyPeriod.id p =? EfficiencyPeriod.id d))
                             dups) rows.
Proof.
  revert rows; induction dups as [|d dups IH]; intro rows; simpl.
  - now rewrite filter_true.
  - rewrite IH; unfold EfficiencyEngine.delete_period.
    rewrite filter_filter_twice; reflexivity.
Qed.

Lemma period_injective (l : list EfficiencyPeriod.t) (p q : EfficiencyPeriod.t) :
  NoDup (map EfficiencyPeriod.id l) -> In p l -> In q l ->
  EfficiencyPeriod.id p = EfficiencyPeriod.id q -> p = q.
Proof.
  induction l as [|h l IH]; simpl; [tauto|].
  intros N Hp Hq E; inversion N as [|? ? Hh N']; subst.
  destruct Hp as [->|Hp], Hq as [->|Hq]; auto.
  - exfalso; apply Hh; rewrite E; now apply in_map.
  - exfalso; apply Hh; rewrite <- E; now apply in_map.
Qed.

Lemma map_filter_flat_map {A B : Type} (f : A -> B) (q : A -> bool) (l : list A) :
  map f (filter q l) = flat_map (fun x => if q x then [f x] else []) l.
Proof.
  induction l as [|x l IH]; simpl; [reflexivity|].
  destruct (q x); simpl; now rewrite IH.
Qed.

Lemma flat_map_ext_in {A B : Type} (f g : A -> list B) (l : list A) :
  (forall x, In x l -> f x = g x) -> flat_map f l = flat_map g l.
Proof.
  induction l as [|x l IH]; simpl; intro H; [reflexivity|].
  rewrite (H x (or_introl eq_refl)), IH; auto.
Qed.

Lemma filter_flat_map {A B : Type} (q : B -> bool) (f : A -> list B) (l : list A) :
  filter q (flat_map f l) = flat_map (fun x => filter q (f x)) l.
Proof.
  induction l as [|x l IH]; simpl; [reflexivity|].
  now rewrite filter_app, IH.
Qed.

Lemma flat_map_single_hit (l : list EfficiencyPeriod.t) (x c : EfficiencyPeriod.t) :
  NoDup (map EfficiencyPeriod.id l) -> In x l ->
  flat_map (fun p => if EfficiencyPeriod.id p =? EfficiencyPeriod.id x then [c] else []) l
  = [c].
Proof.
  induction l as [|h l IH]; simpl; [tauto|].
  intros N Hx; inversion N as [|? ? Hh N']; subst.
  destruct Hx as [->|Hx].
  - rewrite Z.eqb_refl; simpl; f_equal.
    clear IH N; induction l as [|q l IHl]; simpl; [reflexivity|].
    simpl in Hh; inversion N' as [|? ? _ N'']; subst.
    destruct (Z.eqb_spec (EfficiencyPeriod.id q) (EfficiencyPeriod.id x)) as [E|E];
      [exfalso; apply Hh; now left|].
    simpl; apply IHl; auto.
  - destruct (Z.eqb_spec (EfficiencyPeriod.id h) (EfficiencyPeriod.id x)) as [E|E].
    + exfalso; apply Hh; rewrite E; now apply in_map.
    + simpl; auto.
Qed.

Lemma upsert_existing (session : Session.t) (first : EfficiencyPeriod.t)
  (dups : list EfficiencyPeriod.t) :
  periods_keyed session ->
  filter key (Session.efficiency_periods session) = first :: dups ->
  Session.efficiency_periods
    (EfficiencyEngine._upsert_efficiency_period employee_id period_start period_end
       data session)
  = collapsed employee_id period_start period_end data first (Session.efficiency_periods session).
Proof.
  intros N E; unfold EfficiencyEngine._upsert_efficiency_period.
  fold key; set (rows := Session.efficiency_periods session) in *.
  assert (Hfirst : In first rows /\ key first = true)
    by (apply filter_In; rewrite E; now left).
  assert (Hdups : forall d, In d dups -> In d rows /\ key d = true)
    by (intros d Hd; apply filter_In; rewrite E; now right).
  assert (Nex : NoDup (map EfficiencyPeriod.id (first :: dups)))
    by (rewrite <- E; now apply NoDup_map_filter).
  assert (R : Session.efficiency_periods
                (Session.with_efficiency_periods session
                   (map (fun p => if EfficiencyPeriod.id p =? EfficiencyPeriod.id first
                                  then EfficiencyEngine.set_metrics first data else p)
                        (fold_left (fun rows dup => EfficiencyEngine.delete_period dup rows)
                                   dups rows))
                   (Session.next_period_id session))
              = collapsed employee_id period_start period_end data first rows).
  { simpl; unfold collapsed; fold key.
    rewrite delete_periods_filter, map_filter_flat_map.
    apply flat_map_ext_in; intros p Hp.
    destruct (key p) eqn:Kp.
    - destruct (Z.eqb_spec (EfficiencyPeriod.id p) (EfficiencyPeriod.id first)) as [I|I].
      + assert (p = first) by (apply (period_injective rows); tauto); subst p.
        replace (forallb _ dups) with true; [reflexivity|].
        symmetry; apply forallb_forall; intros d Hd.
        apply negb_true_iff, Z.eqb_neq; intro Ed.
        inversion Nex as [|? ? Hn _]; subst; apply Hn; rewrite Ed; now apply in_map.
      + assert (Hin : In p (first :: dups)) by (rewrite <- E; apply filter_In; tauto).
        destruct Hin as [->|Hin]; [congruence|].
        replace (forallb _ dups) with false; [reflexivity|].
        symmetry; apply not_true_is_false; intro A.
        rewrite forallb_forall in A; specialize (A p Hin).
        now rewrite Z.eqb_refl in A.
    - replace (forallb _ dups) with true.
      + destruct (Z.eqb_spec (EfficiencyPeriod.id p) (EfficiencyPeriod.id first)) as [I|I];
          [|reflexivity].
        assert (p = first) by (apply (period_injective rows); tauto); subst p.
        destruct Hfirst; congruence.
      + symmetry; apply forallb_forall; intros d Hd.
        apply negb_true_iff, Z.eqb_neq; intro Ed.
        assert (p = d) by (apply (period_injective rows); auto; apply Hdups, Hd).
        subst p; destruct (Hdups d Hd); congruence. }
  rewrite E; destruct dups as [|d dups]; exact R.
Qed.

Lemma collapsed_key (first : EfficiencyPeriod.t) (rows : list EfficiencyPeriod.t) :
  NoDup (map EfficiencyPeriod.id rows) -> In first rows -> key first = true ->
  filter key (collapsed employee_id period_start period_end data first rows) = [EfficiencyEngine.set_metrics first data]
  /\ filter (fun p => negb (key p)) (collapsed employee_id period_start period_end data first rows)
     = filter (fun p => negb (key p)) rows.
Proof.
  intros N Hin Kf; unfold collapsed; fold key; rewrite !filter_flat_map; split.
  - etransitivity; [|exact (flat_map_single_hit rows first _ N Hin)].
    apply flat_map_ext_in; intros p Hp.
    destruct (key p) eqn:Kp.
    + destruct (EfficiencyPeriod.id p =? EfficiencyPeriod.id first); cbn [filter];
        [now rewrite set_metrics_key, Kf | reflexivity].
    + cbn [filter]; rewrite Kp.
      destruct (Z.eqb_spec (EfficiencyPeriod.id p) (EfficiencyPeriod.id first)) as [I|I];
        [|reflexivity].
      assert (p = first) by (apply (period_injective rows); tauto); congruence.
  - rewrite <- (map_id (filter _ rows)), map_filter_flat_map.
    apply flat_map_ext_in; intros p Hp.
    destruct (key p) eqn:Kp; cbn [filter negb]; [|now rewrite Kp].
    destruct (EfficiencyPeriod.id p =? EfficiencyPeriod.id first); cbn [filter];
      [now rewrite set_metrics_key, Kf | reflexivity].
Qed.

Lemma upsert_missing (session : Session.t) :
  filter key (Session.efficiency_periods session) = [] ->
  EfficiencyEngine._upsert_efficiency_period employee_id period_start period_end
    data session
  = Session.with_efficiency_periods session
      (Session.efficiency_periods session
       ++ [new_period (Session.next_period_id session) employee_id period_start
             period_end data])
      (Session.next_period_id session + 1).
Proof.
  intro E; unfold EfficiencyEngine._upsert_efficiency_period.
  fold key; rewrite E; reflexivity.
Qed.

(** After the upsert the key has one row, and it carries the metrics of
    [data]. *)
Lemma upsert_key_row (session : Session.t) :
  periods_keyed session ->
  exists base,
    filter key
      (Session.efficiency_periods
         (EfficiencyEngine._upsert_efficiency_period employee_id period_start
            period_end data session))
    = [EfficiencyEngine.set_metrics base data].
Proof.
  intro N.
  destruct (filter key (Session.efficiency_periods session)) as [|first dups] eqn:E.
  - rewrite (upsert_missing _ E); cbn [Session.efficiency_periods Session.with_efficiency_periods].
    rewrite filter_app, E; cbn [filter app].
    rewrite new_period_key; eexists; reflexivity.
  - rewrite (upsert_existing _ first dups N E).
    assert (Hf : In first (Session.efficiency_periods session) /\ key first = true)
      by (apply filter_In; rewrite E; now left).
    exists first; now apply collapsed_key.
Qed.

Lemma set_metrics_stores (base : EfficiencyPeriod.t) :
  stores (EfficiencyEngine.set_metrics base data) data.
Proof.
  unfold stores, EfficiencyEngine.set_metrics; simpl.
  rewrite !or_float_zero; repeat split.
Qed.

End Upsert.

(** C6.  With the primary key of the period table in place, the upsert
    leaves exactly one row for the key (employee_id, period_start,
    period_end), that row holds the six metrics of [data], and the rows of
    other keys are not touched.  If rows of the
    key exist, the first is updated where it stands with the new metrics
    and every other row of the key is deleted, so nothing is appended
    (with exactly one existing row this is an update in place); if none
    exists, one new row is appended under the next primary key. *)
Theorem upsert_leaves_one_row_per_key
  (employee_id : Z) (period_start period_end : date)
  (data : EfficiencyEngine.Payload.t) (session : Session.t) :
  periods_keyed session ->
  let key := EfficiencyEngine.period_key employee_id period_start period_end in
  let rows := Session.efficiency_periods session in
  let session' :=
    EfficiencyEngine._upsert_efficiency_period employee_id period_start period_end
      data session in
  let rows' := Session.efficiency_periods session' in
  List.length (filter key rows') = 1%nat
  /\ (exists row,
        filter key rows' = [row]
        /\ stores row data
        /\ EfficiencyPeriod.id row
           = match filter key rows with
             | first :: _ => EfficiencyPeriod.id first
             | [] => Session.next_period_id session
             end)
  /\ filter (fun p => negb (key p)) rows' = filter (fun p => negb (key p)) rows
  /\ match filter key rows with
     | first :: others =>
         filter key rows' = [EfficiencyEngine.set_metrics first data]
         /\ rows' = collapsed employee_id period_start period_end data first rows
         /\ List.length rows' = (List.length rows - List.length others)%nat
     | [] =>
         rows' = rows ++ [new_period (Session.next_period_id session) employee_id
                            period_start period_end data]
     end.
Proof.
  intros N; cbv zeta.
  set (key := EfficiencyEngine.period_key employee_id period_start period_end).
  set (rows := Session.efficiency_periods session).
  destruct (filter key rows) as [|first others] eqn:E.
  - unfold key in E |- *; rewrite (upsert_missing _ _ _ _ _ E); cbn [Session.efficiency_periods Session.with_efficiency_periods].
    fold rows key; rewrite !filter_app; fold key in E; rewrite E; cbn [filter app].
    unfold key at 1 2 4; rewrite new_period_key; cbn [negb List.length].
    rewrite app_nil_r; repeat split.
    eexists; split; [reflexivity|]; split; [apply set_metrics_stores | reflexivity].
  - unfold key in E.
    rewrite (upsert_existing _ _ _ _ _ first others N E).
    fold key in E; fold rows.
    assert (Hf : In first rows /\ key first = true)
      by (apply filter_In; rewrite E; now left).
    destruct (collapsed_key employee_id period_start period_end data first rows N
                (proj1 Hf) (proj2 Hf)) as [K1 K2].
    fold key in K1, K2.
    rewrite K1; split; [reflexivity|]; split.
    { eexists; split; [reflexivity|]; split; [apply set_metrics_stores | reflexivity]. }
    repeat split; auto.
    assert (L : forall l : list EfficiencyPeriod.t,
               List.length l
               = (List.length (filter key l)
                  + List.length (filter (fun p => negb (key p)) l))%nat).
    { induction l as [|p l IH]; simpl; [reflexivity|].
      destruct (key p); simpl; lia. }
    rewrite (L (collapsed _ _ _ _ _ _)), (L rows), K1, K2, E; cbn [List.length]; lia.
Qed.

(** The theorem at a table holding three rows of one key and one row of
    another: the first row of the key is overwritten with the metrics of
    the payload and keeps its primary key, the two other rows of the key
    are gone; and at an empty table, where the row is inserted. *)
Lemma upsert_leaves_one_row_per_key_witness :
  let rows := [sample_period 1 1 (of_int 50); sample_period 2 2 (of_int 60);
               sample_period 3 1 (of_int 70); sample_period 4 1 (of_int 80)] in
  let session := Session.Build [] [] [] [] [] rows 1 5 in
  let empty := Session.Build [] [] [] [] [] [] 1 7 in
  let key := EfficiencyEngine.period_key 1 (Date 2024 11 1) (Date 2024 11 30) in
  let upsert :=
    EfficiencyEngine._upsert_efficiency_period 1 (Date 2024 11 1) (Date 2024 11 30)
      sample_payload in
  let rows' := Session.efficiency_periods (upsert session) in
  periods_keyed session
  /\ List.length (filter key rows) = 3%nat
  /\ List.length (filter key rows') = 1%nat
  /\ (exists row,
        filter key rows' = [row] /\ stores row sample_payload
        /\ EfficiencyPeriod.id row = 1%Z)
  /\ rows' = [EfficiencyPeriod.Build 1 1 (Date 2024 11 1) (Date 2024 11 30)
                (Some (of_int 95)) (Some (of_int 100)) (Some (of_int 0))
                (of_int 0) (of_int 19) (of_int 20);
              sample_period 2 2 (of_int 60)]
  /\ Session.efficiency_periods (upsert empty)
     = [EfficiencyPeriod.Build 7 1 (Date 2024 11 1) (Date 2024 11 30)
          (Some (of_int 95)) (Some (of_int 100)) (Some (of_int 0))
          (of_int 0) (of_int 19) (of_int 20)].
Proof.
  intros rows session empty key upsert rows'.
  assert (N : periods_keyed session).
  { unfold periods_keyed; simpl.
    repeat (constructor; [simpl; intuition discriminate|]); constructor. }
  assert (N0 : periods_keyed empty) by constructor.
  split; [exact N|].
  split; [reflexivity|].
  pose proof (upsert_leaves_one_row_per_key 1 (Date 2024 11 1) (Date 2024 11 30)
                sample_payload session N) as T.
  pose proof (upsert_leaves_one_row_per_key 1 (Date 2024 11 1) (Date 2024 11 30)
                sample_payload empty N0) as T0.
  cbv zeta in T, T0; split; [exact (proj1 T)|].
  split; [exact (proj1 (proj2 T))|].
  split.
  - exact (proj1 (proj2 (proj2 (proj2 (proj2 T))))).
  - exact (proj2 (proj2 (proj2 T0))).
Defined.

(** ** The efficiency computation *)

Section Efficiency.

Open Scope Qc_scope.

Lemma EPS_pos : of_int 0 < EfficiencyEngine.EPS.
Proof. reflexivity. Qed.

Lemma max_EPS_nonzero (x : float) : max x EfficiencyEngine.EPS <> of_int 0.
Proof.
  intro E.
  pose proof (max_ge_r x EfficiencyEngine.EPS) as G; rewrite E in G.
  exact (Qclt_not_le _ _ EPS_pos G).
Qed.


(** One turn of the loop: it does not raise, and adds the row to the
    accumulators of its kind. *)
Lemma accumulate_row_step (t : EfficiencyEngine.Totals)
  (row : JobCard.t * option ActivityCode.t) :
  exists t',
    EfficiencyEngine.accumulate_row t row = Ok t'
    /\ EfficiencyEngine.productive_hours t'
       = EfficiencyEngine.productive_hours t
         + (if coded row then row_hours row else of_int 0)
    /\ EfficiencyEngine.awc_hours t'
       = EfficiencyEngine.awc_hours t
         + (if negb (coded row) then row_hours row else of_int 0)
    /\ EfficiencyEngine.standard_hours_allowed t'
       = EfficiencyEngine.standard_hours_allowed t
         + (if coded row then row_std_hours row else of_int 0)
    /\ EfficiencyEngine.tasks_completed t'
       = (EfficiencyEngine.tasks_completed t
          + (if of_type TASK_BASED row then 1 else 0))%Z
    /\ EfficiencyEngine.qty_eff_sum t'
       = EfficiencyEngine.qty_eff_sum t
         + (if of_type QUANTITY_BASED row then per_card_ratio_floored row else of_int 0)
    /\ EfficiencyEngine.qty_eff_count t'
       = (EfficiencyEngine.qty_eff_count t
          + (if of_type QUANTITY_BASED row then 1 else 0))%Z.
Proof.
  destruct row as [jc act].
  unfold EfficiencyEngine.accumulate_row, coded, of_type, row_hours, row_std_hours,
    per_card_ratio_floored; cbn [fst snd].
  rewrite !or_float_zero.
  destruct (JobCard.activity_code_id jc) as [a|], act as [act|]; cbn [negb].
  2-4: eexists; split; [reflexivity|];
    cbn [EfficiencyEngine.productive_hours EfficiencyEngine.awc_hours
         EfficiencyEngine.standard_hours_allowed EfficiencyEngine.tasks_completed
         EfficiencyEngine.qty_eff_sum EfficiencyEngine.qty_eff_count];
    repeat split; try float_ring; lia.
  rewrite truediv_Ok by apply max_EPS_nonzero.
  destruct (ActivityCode.efficiency_type act); cbn [EfficiencyTypeEnum_eqb bind];
    eexists; (split; [reflexivity|]);
    cbn [EfficiencyEngine.productive_hours EfficiencyEngine.awc_hours
         EfficiencyEngine.standard_hours_allowed EfficiencyEngine.tasks_completed
         EfficiencyEngine.qty_eff_sum EfficiencyEngine.qty_eff_count];
    repeat split; try float_ring; lia.
Qed.

(** The loop over the fetched rows never raises, and its accumulators are
    the sums and counts over the rows of each kind. *)
Lemma accumulate_rows (rows : list (JobCard.t * option ActivityCode.t))
  (t0 : EfficiencyEngine.Totals) :
  exists t,
    for_each EfficiencyEngine.accumulate_row rows t0 = Ok t
    /\ EfficiencyEngine.productive_hours t
       = EfficiencyEngine.productive_hours t0 + sum (map row_hours (filter coded rows))
    /\ EfficiencyEngine.awc_hours t
       = EfficiencyEngine.awc_hours t0
         + sum (map row_hours (filter (fun r => negb (coded r)) rows))
    /\ EfficiencyEngine.standard_hours_allowed t
       = EfficiencyEngine.standard_hours_allowed t0
         + sum (map row_std_hours (filter coded rows))
    /\ EfficiencyEngine.tasks_completed t
       = (EfficiencyEngine.tasks_completed t0
          + Z.of_nat (List.length (filter (of_type TASK_BASED) rows)))%Z
    /\ EfficiencyEngine.qty_eff_sum t
       = EfficiencyEngine.qty_eff_sum t0
         + sum (map per_card_ratio_floored (filter (of_type QUANTITY_BASED) rows))
    /\ EfficiencyEngine.qty_eff_count t
       = (EfficiencyEngine.qty_eff_count t0
          + Z.of_nat (List.length (filter (of_type QUANTITY_BASED) rows)))%Z.
Proof.
  revert t0; induction rows as [|row rows IH]; intro t0.
  - exists t0; simpl; rewrite sum_nil.
    repeat split; try float_ring; lia.
  - destruct (accumulate_row_step t0 row) as (t1 & R1 & P1 & A1 & S1 & T1 & Q1 & N1).
    destruct (IH t1) as (t & R & P & A & S & T & Q & N).
    exists t; cbn [for_each]; rewrite R1; cbn [bind].
    rewrite !sum_filter_cons, !length_filter_cons.
    split; [exact R|].
    split; [rewrite P, P1; float_ring|].
    split; [rewrite A, A1; float_ring|].
    split; [rewrite S, S1; float_ring|].
    split; [rewrite T, T1; lia|].
    split; [rewrite Q, Q1; float_ring|].
    rewrite N, N1; lia.
Qed.

(** No division after the loop raises. *)
Lemma ratios_Ok (t : EfficiencyEngine.Totals) :
  EfficiencyEngine.ratios t = Ok (ratios_of t).
Proof.
  unfold EfficiencyEngine.ratios, ratios_of; cbv beta iota zeta.
  rewrite <- Z.max_assoc, Z.max_id.
  rewrite (truediv_Ok _ (max (EfficiencyEngine.productive_hours t) _))
    by apply max_EPS_nonzero.
  rewrite !(truediv_Ok _ (of_int (Z.max _ 1))) by (apply of_int_pos; lia).
  destruct (float_ltb (of_int 0) _);
    [rewrite truediv_Ok by apply max_EPS_nonzero|]; reflexivity.
Qed.

(** The computation always returns: the individual's dictionary, built
    from the sums and counts over the fetched rows, and the session in
    which it has been upserted. *)
Lemma compute_employee_efficiency_Ok (employee_id : Z) (period_start period_end : date)
  (session : Session.t) :
  let rows :=
    EfficiencyEngine._fetch_employee_jobcards employee_id period_start period_end
      session in
  exists t,
    EfficiencyEngine.compute_employee_efficiency employee_id period_start period_end
      session
    = Ok (EfficiencyEngine._upsert_efficiency_period employee_id period_start
            period_end
            (EfficiencyEngine.individual_payload employee_id period_start period_end
               t (ratios_of t))
            session,
          EfficiencyEngine.individual_payload employee_id period_start period_end
            t (ratios_of t))
    /\ EfficiencyEngine.productive_hours t = sum (map row_hours (filter coded rows))
    /\ EfficiencyEngine.awc_hours t
       = sum (map row_hours (filter (fun r => negb (coded r)) rows))
    /\ EfficiencyEngine.standard_hours_allowed t
       = sum (map row_std_hours (filter coded rows))
    /\ EfficiencyEngine.tasks_completed t
       = Z.of_nat (List.length (filter (of_type TASK_BASED) rows))
    /\ EfficiencyEngine.qty_eff_sum t
       = sum (map per_card_ratio_floored (filter (of_type QUANTITY_BASED) rows))
    /\ EfficiencyEngine.qty_eff_count t
       = Z.of_nat (List.length (filter (of_type QUANTITY_BASED) rows)).
Proof.
  intro rows.
  destruct (accumulate_rows rows EfficiencyEngine.totals0)
    as (t & R & P & A & S & T & Q & N).
  cbn [EfficiencyEngine.totals0 EfficiencyEngine.productive_hours
       EfficiencyEngine.awc_hours EfficiencyEngine.standard_hours_allowed
       EfficiencyEngine.tasks_completed EfficiencyEngine.qty_eff_sum
       EfficiencyEngine.qty_eff_count] in *.
  exists t; split.
  - unfold EfficiencyEngine.compute_employee_efficiency.
    fold rows; rewrite R; cbn [bind]; rewrite ratios_Ok; reflexivity.
  - repeat split; try (rewrite P || rewrite A || rewrite S || rewrite Q);
      try float_ring; lia.
Qed.


Lemma round_hundred : round (of_int 100) 2 = of_int 100.
Proof.
  apply Qc_is_canon; reflexivity.
Qed.

(** [compute_team_average] never names an employee. *)
Lemma team_average_has_no_employee (team : option string) (period_start period_end : date)
  (session : Session.t) (p : EfficiencyEngine.Payload.t) :
  EfficiencyEngine.compute_team_average team period_start period_end session = Ok p ->
  EfficiencyEngine.Payload.employee_id p = None
  /\ EfficiencyEngine.Payload.team p <> None.
Proof.
  unfold EfficiencyEngine.compute_team_average; intro H.
  repeat match type of H with
         | Ok _ = Ok _ => injection H as <-
         | Raise _ = Ok _ => discriminate H
         | bind ?m _ = Ok _ => destruct m; cbn [bind] in H
         | match ?x with _ => _ end = Ok _ => destruct x
         end; split; simpl; congruence.
Qed.








(** The fetched rows, card by card. *)
Lemma fetch_card_by_card (employee_id : Z) (period_start period_end : date)
  (session : Session.t) :
  EfficiencyEngine._fetch_employee_jobcards employee_id period_start period_end session
  = flat_map (fun jc => match activities_of session jc with
                        | [] => [(jc, None)]
                        | acts => map (fun act => (jc, Some act)) acts
                        end)
             (period_cards employee_id period_start period_end session).
Proof. reflexivity. Qed.


(** A row of a type is fetched exactly when a card of the employee and
    period names a stored activity code of that type. *)
Lemma fetched_of_type (ty : EfficiencyTypeEnum) (employee_id : Z)
  (period_start period_end : date) (session : Session.t) :
  existsb (of_type ty)
    (EfficiencyEngine._fetch_employee_jobcards employee_id period_start period_end
       session)
  = existsb (card_of_type ty session)
      (period_cards employee_id period_start period_end session).
Proof.
  rewrite fetch_card_by_card.
  induction (period_cards employee_id period_start period_end session) as [|jc cards IH];
    [reflexivity|].
  cbn [flat_map existsb]; rewrite existsb_app, IH; f_equal.
  unfold card_of_type, activities_of.
  destruct (JobCard.activity_code_id jc) as [a|] eqn:A.
  - destruct (filter _ (Session.activity_codes session)) as [|act acts];
      [cbn; unfold of_type; cbn [fst snd]; now rewrite A|].
    generalize (act :: acts); intro l.
    induction l as [|x l IHl]; [reflexivity|].
    cbn [map existsb]; rewrite IHl; unfold of_type at 1; cbn [fst snd].
    now rewrite A.
  - rewrite filter_none by reflexivity.
    cbn; unfold of_type; cbn [fst snd]; now rewrite A.
Qed.




(** C10.  The returned task efficiency is 100 when a card of the employee
    entered within the period names a stored TASK_BASED activity code, and
    0 when none does; no other value occurs.  Such a card is what gives a
    fetched row with a TASK_BASED activity, and with n such rows the value
    is n / max(n, 1) * 100. *)
Theorem task_efficiency_is_zero_or_hundred
  (employee_id : Z) (period_start period_end : date) (session : Session.t) :
  let cards := period_cards employee_id period_start period_end session in
  let task_rows :=
    filter (of_type TASK_BASED)
      (EfficiencyEngine._fetch_employee_jobcards employee_id period_start period_end
         session) in
  let n := Z.of_nat (List.length task_rows) in
  exists session' payload,
    EfficiencyEngine.compute_employee_efficiency employee_id period_start period_end
      session = Ok (session', payload)
    /\ EfficiencyEngine.Payload.task_efficiency payload
       = (if existsb (card_of_type TASK_BASED session) cards
          then of_int 100 else of_int 0)
    /\ (task_rows = []
        <-> existsb (card_of_type TASK_BASED session) cards = false)
    /\ EfficiencyEngine.Payload.task_efficiency payload
       = round (of_int n / of_int (Z.max n 1) * of_int 100) 2
    /\ (task_rows = [] ->
        EfficiencyEngine.Payload.task_efficiency payload = of_int 0)
    /\ (task_rows <> [] ->
        EfficiencyEngine.Payload.task_efficiency payload = of_int 100)
    /\ (EfficiencyEngine.Payload.task_efficiency payload = of_int 0
        \/ EfficiencyEngine.Payload.task_efficiency payload = of_int 100).
Proof.
  intros cards task_rows n.
  destruct (compute_employee_efficiency_Ok employee_id period_start period_end session)
    as (t & Run & _ & _ & _ & T & _).
  fold task_rows in T; fold n in T.
  assert (E : EfficiencyEngine.Payload.task_efficiency
                (EfficiencyEngine.individual_payload employee_id period_start period_end
                   t (ratios_of t))
              = round (of_int n / of_int (Z.max n 1) * of_int 100) 2)
    by (cbn [EfficiencyEngine.individual_payload EfficiencyEngine.Payload.task_efficiency
             ratios_of EfficiencyEngine.task_efficiency]; now rewrite T).
  assert (Zero : task_rows = [] ->
                 round (of_int n / of_int (Z.max n 1) * of_int 100) 2 = of_int 0).
  { intro N; unfold n; rewrite N; apply Qc_is_canon; reflexivity. }
  assert (Hundred : task_rows <> [] ->
                    round (of_int n / of_int (Z.max n 1) * of_int 100) 2 = of_int 100).
  { intro N.
    assert (Pos : (0 < n)%Z) by (unfold n; destruct task_rows; [congruence | simpl; lia]).
    rewrite Z.max_l by lia.
    replace (of_int n / of_int n * of_int 100) with (of_int 100);
      [apply round_hundred|].
    pose proof (of_int_pos n Pos) as NZ; unfold of_int, inject_Z in *; field; exact NZ. }
  assert (Cards : task_rows = []
                  <-> existsb (card_of_type TASK_BASED session) cards = false).
  { unfold cards; rewrite <- fetched_of_type; unfold task_rows.
    generalize (EfficiencyEngine._fetch_employee_jobcards employee_id period_start
                  period_end session); intro l.
    induction l as [|x l IH]; [tauto|].
    cbn [filter existsb]; destruct (of_type TASK_BASED x); cbn [orb]; [|exact IH].
    split; discriminate. }
  do 2 eexists; split; [exact Run|].
  split.
  { rewrite E.
    destruct (existsb (card_of_type TASK_BASED session) cards) eqn:X.
    - apply Hundred; intro N; apply Cards in N; congruence.
    - now apply Zero, Cards. }
  split; [exact Cards|].
  split; [exact E|].
  split; [intro N; rewrite E; now apply Zero|].
  split; [intro N; rewrite E; now apply Hundred|].
  rewrite E; destruct task_rows as [|r l] eqn:D.
  - left; now apply Zero.
  - right; apply Hundred; discriminate.
Qed.

(** The theorem at a period with a card on a TASK_BASED activity, where
    the task efficiency is 100, and at one without, where it is 0. *)
Lemma task_efficiency_is_zero_or_hundred_witness :
  (exists session' payload,
      EfficiencyEngine.compute_employee_efficiency 1 (Date 2024 11 1) (Date 2024 11 30)
        task_session = Ok (session', payload)
      /\ EfficiencyEngine.Payload.task_efficiency payload = of_int 100)
  /\ (exists session' payload,
         EfficiencyEngine.compute_employee_efficiency 1 (Date 2024 11 1)
           (Date 2024 11 30) mostly_awc_session = Ok (session', payload)
         /\ EfficiencyEngine.Payload.task_efficiency payload = of_int 0).
Proof.
  destruct (task_efficiency_is_zero_or_hundred 1 (Date 2024 11 1) (Date 2024 11 30)
              task_session) as (s1 & p1 & Run1 & T1 & _).
  destruct (task_efficiency_is_zero_or_hundred 1 (Date 2024 11 1) (Date 2024 11 30)
              mostly_awc_session) as (s2 & p2 & Run2 & T2 & _).
  split; [exists s1, p1 | exists s2, p2]; split; assumption.
Defined.




(** C7.  For every input the computation returns the dictionary built from
    the employee's own totals and ratios, whatever the AWC share: it
    carries the employee's id and no team, so it is never an answer of
    [compute_team_average] (which names no employee), and the one row the
    upsert leaves for the key stores the metrics of that same
    dictionary. *)
Theorem individual_snapshot_is_returned_and_stored
  (employee_id : Z) (period_start period_end : date) (session : Session.t) :
  periods_keyed session ->
  exists session' payload t,
    EfficiencyEngine.compute_employee_efficiency employee_id period_start period_end
      session = Ok (session', payload)
    /\ for_each EfficiencyEngine.accumulate_row
         (EfficiencyEngine._fetch_employee_jobcards employee_id period_start period_end
            session) EfficiencyEngine.totals0 = Ok t
    /\ payload = EfficiencyEngine.individual_payload employee_id period_start period_end
                   t (ratios_of t)
    /\ EfficiencyEngine.Payload.employee_id payload = Some employee_id
    /\ EfficiencyEngine.Payload.team payload = None
    /\ EfficiencyEngine.Payload.awc_pct payload
       = round (EfficiencyEngine.awc_pct (ratios_of t)) 4
    /\ (forall team start stop s,
          EfficiencyEngine.compute_team_average team start stop s <> Ok payload)
    /\ exists row,
        filter (EfficiencyEngine.period_key employee_id period_start period_end)
               (Session.efficiency_periods session') = [row]
        /\ stores row payload.
Proof.
  intro N.
  destruct (accumulate_rows
              (EfficiencyEngine._fetch_employee_jobcards employee_id period_start
                 period_end session) EfficiencyEngine.totals0) as (t & R & _).
  assert (Run : EfficiencyEngine.compute_employee_efficiency employee_id period_start
                  period_end session
                = Ok (EfficiencyEngine._upsert_efficiency_period employee_id period_start
                        period_end
                        (EfficiencyEngine.individual_payload employee_id period_start
                           period_end t (ratios_of t)) session,
                      EfficiencyEngine.individual_payload employee_id period_start
                        period_end t (ratios_of t))).
  { unfold EfficiencyEngine.compute_employee_efficiency.
    rewrite R; cbn [bind]; rewrite ratios_Ok; reflexivity. }
  do 3 eexists; split; [exact Run|].
  split; [exact R|].
  repeat (split; [reflexivity|]).
  split.
  - intros team start stop s H.
    apply team_average_has_no_employee in H; destruct H as [H _]; discriminate H.
  - destruct (upsert_key_row employee_id period_start period_end
                (EfficiencyEngine.individual_payload employee_id period_start period_end
                   t (ratios_of t)) session N) as (base & K).
    eexists; split; [exact K|]; apply set_metrics_stores.
Qed.

(** The theorem at an employee whose hours are four fifths without
    activity code: the AWC share returned is 0.8, above one half, and the
    dictionary is still the employee's own. *)
Lemma individual_snapshot_is_returned_and_stored_witness :
  periods_keyed mostly_awc_session
  /\ exists session' payload,
      EfficiencyEngine.compute_employee_efficiency 1 (Date 2024 11 1) (Date 2024 11 30)
        mostly_awc_session = Ok (session', payload)
      /\ EfficiencyEngine.Payload.awc_pct payload = Q2Qc 0.8
      /\ float_ltb (Q2Qc 0.5) (EfficiencyEngine.Payload.awc_pct payload) = true
      /\ EfficiencyEngine.Payload.employee_id payload = Some 1%Z
      /\ EfficiencyEngine.Payload.team payload = None
      /\ EfficiencyEngine.compute_team_average (Some "A"%string) (Date 2024 11 1)
           (Date 2024 11 30) session' <> Ok payload
      /\ exists row,
          Session.efficiency_periods session' = [row] /\ stores row payload.
Proof.
  assert (N : periods_keyed mostly_awc_session) by constructor.
  split; [exact N|].
  destruct (individual_snapshot_is_returned_and_stored 1%Z (Date 2024 11 1)
              (Date 2024 11 30) mostly_awc_session N)
    as (session' & payload & t & Run & R & P & Id & Team & Awc & NotTeam & row & K & St).
  exists session', payload.
  split; [exact Run|].
  assert (A : EfficiencyEngine.Payload.awc_pct payload = Q2Qc 0.8).
  { vm_compute in R; injection R as <-; rewrite Awc.
    apply Qc_is_canon; reflexivity. }
  split; [exact A|].
  split; [rewrite A; reflexivity|].
  split; [exact Id|].
  split; [exact Team|].
  split; [apply NotTeam|].
  exists row; split; [|exact St].
  vm_compute in Run; injection Run as <- _.
  vm_compute in K; exact K.
Defined.

End Efficiency.

(** ** Dictionaries in insertion order *)

Section Dict.

Import SplitService.

Open Scope Z_scope.

Context {V : Type}.

Lemma dict_get_update_same (k : Z) (f : option V -> V) (d : dict V) :
  dict_get k (dict_update k f d) = Some (f (dict_get k d)).
Proof.
  induction d as [|[k' v] d IH]; simpl.
  - now rewrite Z.eqb_refl.
  - destruct (Z.eqb_spec k' k) as [E|E]; simpl.
    + subst; now rewrite Z.eqb_refl.
    + destruct (Z.eqb_spec k' k); [contradiction | exact IH].
Qed.

Lemma dict_get_update_other (k k' : Z) (f : option V -> V) (d : dict V) :
  k' <> k -> dict_get k' (dict_update k f d) = dict_get k' d.
Proof.
  intro N; induction d as [|[k0 v] d IH]; simpl.
  - destruct (Z.eqb_spec k k'); [congruence | reflexivity].
  - destruct (Z.eqb_spec k0 k) as [E|E]; simpl.
    + subst; destruct (Z.eqb_spec k k'); [congruence | reflexivity].
    + now rewrite IH.
Qed.

Lemma dict_keys_update (k : Z) (f : option V -> V) (d : dict V) :
  map fst (dict_update k f d)
  = if existsb (Z.eqb k) (map fst d) then map fst d else map fst d ++ [k].
Proof.
  induction d as [|[k' v] d IH]; simpl; [reflexivity|].
  rewrite (Z.eqb_sym k k').
  destruct (Z.eqb_spec k' k) as [E|E]; simpl; [reflexivity|].
  rewrite IH; now destruct (existsb (Z.eqb k) (map fst d)).
Qed.

Lemma dict_keys_update_in (k k' : Z) (f : option V -> V) (d : dict V) :
  In k' (map fst (dict_update k f d)) <-> k' = k \/ In k' (map fst d).
Proof.
  rewrite dict_keys_update.
  destruct (existsb (Z.eqb k) (map fst d)) eqn:E.
  - apply existsb_exists in E; destruct E as (x & Hx & Ex).
    apply Z.eqb_eq in Ex; subst x; intuition congruence.
  - rewrite in_app_iff; simpl; intuition.
Qed.

Lemma dict_keys_update_NoDup (k : Z) (f : option V -> V) (d : dict V) :
  NoDup (map fst d) -> NoDup (map fst (dict_update k f d)).
Proof.
  intro N; rewrite dict_keys_update.
  destruct (existsb (Z.eqb k) (map fst d)) eqn:E; [exact N|].
  apply NoDup_app; [exact N | repeat constructor; simpl; tauto|].
  intros x Hx [E'|[]]; subst x.
  assert (existsb (Z.eqb k) (map fst d) = true)
    by (apply existsb_exists; exists k; split; [exact Hx | apply Z.eqb_refl]).
  congruence.
Qed.

Lemma dict_get_keys (k : Z) (d : dict V) :
  In k (map fst d) <-> dict_get k d <> None.
Proof.
  induction d as [|[k' v] d IH]; simpl; [tauto|].
  destruct (Z.eqb_spec k' k); [subst; intuition congruence|].
  rewrite <- IH; intuition.
Qed.

Lemma dict_get_In (k : Z) (v : V) (d : dict V) :
  NoDup (map fst d) -> In (k, v) d -> dict_get k d = Some v.
Proof.
  induction d as [|[k' v'] d IH]; simpl; [tauto|].
  intros N [E|H]; inversion N as [|? ? Hk N']; subst.
  - injection E as -> ->; now rewrite Z.eqb_refl.
  - destruct (Z.eqb_spec k' k) as [->|_]; [|auto].
    exfalso; apply Hk; change k with (fst (k, v)); now apply in_map.
Qed.

End Dict.

(** ** Split allocation *)

Section SplitAllocation.

Import SplitService.

Open Scope Qc_scope.

(** *** Grouping *)

Lemma grouped_step (groups : dict (list JobCard.t)) (seen : list JobCard.t)
  (jc : JobCard.t) :
  grouped groups seen ->
  grouped (match JobCard.activity_code_id jc with
           | Some a =>
               dict_update a (fun o => match o with
                                       | Some jcs => jcs ++ [jc]
                                       | None => [jc]
                                       end) groups
           | None => groups
           end) (seen ++ [jc]).
Proof.
  intros [N G]; unfold grouped.
  destruct (JobCard.activity_code_id jc) as [a|] eqn:A.
  - split; [now apply dict_keys_update_NoDup|].
    intro a'; rewrite filter_app; cbn [filter]; unfold has_activity at 2; rewrite A.
    destruct (Z.eqb_spec a a') as [<-|D].
    + rewrite dict_get_update_same, G.
      destruct (filter (has_activity a) seen); reflexivity.
    + rewrite dict_get_update_other by congruence.
      now rewrite app_nil_r, G.
  - split; [exact N|].
    intro a'; rewrite filter_app; cbn [filter]; unfold has_activity at 2; rewrite A.
    now rewrite app_nil_r, G.
Qed.

Lemma grouped_fold (rows : list JobCard.t) (groups : dict (list JobCard.t))
  (seen : list JobCard.t) :
  grouped groups seen ->
  grouped (fold_left (fun groups jc =>
                        match JobCard.activity_code_id jc with
                        | Some a =>
                            dict_update a (fun o => match o with
                                                    | Some jcs => jcs ++ [jc]
                                                    | None => [jc]
                                                    end) groups
                        | None => groups
                        end) rows groups)
          (seen ++ rows).
Proof.
  revert groups seen; induction rows as [|jc rows IH]; intros groups seen H; simpl.
  - now rewrite app_nil_r.
  - replace (seen ++ jc :: rows) with ((seen ++ [jc]) ++ rows)
      by (now rewrite <- app_assoc).
    apply IH, grouped_step, H.
Qed.

(** The groups are the rows of each activity, in order, under distinct
    keys, and every activity of a row has its group. *)
Lemma group_by_activity_spec (flagged : list JobCard.t) :
  NoDup (map fst (group_by_activity flagged))
  /\ (forall a jcs, In (a, jcs) (group_by_activity flagged) ->
                    jcs = group_rows flagged a)
  /\ (forall jc a, In jc flagged -> JobCard.activity_code_id jc = Some a ->
                   In a (map fst (group_by_activity flagged))).
Proof.
  assert (G : grouped (group_by_activity flagged) flagged).
  { apply (grouped_fold flagged [] []); split; [constructor | reflexivity]. }
  destruct G as [N G]; split; [exact N|]; split.
  - intros a jcs H; apply (dict_get_In _ _ _ N) in H.
    rewrite G in H; unfold group_rows.
    destruct (filter (has_activity a) flagged); congruence.
  - intros jc a Hjc A; apply dict_get_keys; rewrite G.
    assert (In jc (filter (has_activity a) flagged)).
    { apply filter_In; split; [exact Hjc|].
      unfold has_activity; rewrite A; apply Z.eqb_refl. }
    destruct (filter (has_activity a) flagged); [contradiction | discriminate].
Qed.

(** *** The two loops *)

Section Loops.

Variable activities : dict ActivityCode.t.
Variable flagged : list JobCard.t.

Lemma group_rows_activity (a : Z) (jc : JobCard.t) :
  In jc (group_rows flagged a) -> JobCard.activity_code_id jc = Some a.
Proof.
  intro H; apply filter_In in H; destruct H as [_ H].
  unfold has_activity in H; destruct (JobCard.activity_code_id jc); [|discriminate].
  apply Z.eqb_eq in H; now subst.
Qed.

(** The inner loop of a group that is not skipped does not raise and
    tallies its rows. *)
Lemma credit_cards_tally (a : Z) (jcs : list JobCard.t) (s : Sums) :
  (forall jc, In jc jcs -> JobCard.activity_code_id jc = Some a) ->
  float_leb (total_actual flagged a) (of_int 0) = false ->
  for_each (credit_card (total_std activities flagged a) (total_actual flagged a)) jcs s
  = Ok (tally activities flagged jcs s).
Proof.
  intros A P; revert s; induction jcs as [|jc jcs IH]; intro s; [reflexivity|].
  cbn [for_each tally fold_left].
  assert (E : credit_card (total_std activities flagged a) (total_actual flagged a) s jc
              = Ok (tally_row activities flagged s jc)).
  { unfold credit_card, tally_row, row_credit.
    rewrite (A jc (or_introl eq_refl)), or_float_zero.
    destruct (JobCard.employee_id jc); [|reflexivity].
    rewrite truediv_Ok; [reflexivity|].
    intro Z0; rewrite Z0 in P; discriminate P. }
  rewrite E; cbn [bind]; apply IH.
  intros jc' H; apply A; now right.
Qed.

(** The outer loop does not raise and tallies, group after group, the rows
    of the groups that are not skipped. *)
Lemma credit_groups_tally (groups : dict (list JobCard.t)) (s : Sums) :
  (forall a jcs, In (a, jcs) groups -> jcs = group_rows flagged a) ->
  for_each (credit_group activities) groups s
  = Ok (tally activities flagged
          (List.concat (map snd (filter (group_credited flagged) groups))) s).
Proof.
  revert s; induction groups as [|[a jcs] groups IH]; intros s G; [reflexivity|].
  assert (J : jcs = group_rows flagged a) by (apply G; now left).
  assert (G' : forall a jcs, In (a, jcs) groups -> jcs = group_rows flagged a)
    by (intros; apply G; now right).
  cbn [for_each filter]; unfold credit_group at 1, group_credited at 1; cbn [fst].
  rewrite J; fold (total_actual flagged a) (total_std activities flagged a).
  destruct (float_leb (total_actual flagged a) (of_int 0)) eqn:P; cbn [negb bind].
  - now apply IH.
  - rewrite (credit_cards_tally a _ s (group_rows_activity a) P); cbn [bind].
    rewrite (IH _ G'); cbn [map List.concat snd].
    unfold tally; now rewrite fold_left_app.
Qed.

(** *** What a tally holds *)

Lemma dict_value_add_same (e : Z) (x : float) (d : dict float) :
  dict_value e (dict_add e x d) = dict_value e d + x.
Proof.
  unfold dict_value, dict_add; rewrite dict_get_update_same.
  destruct (dict_get e d); reflexivity.
Qed.

Lemma dict_value_add_other (e e' : Z) (x : float) (d : dict float) :
  e' <> e -> dict_value e' (dict_add e x d) = dict_value e' d.
Proof.
  intro N; unfold dict_value, dict_add; now rewrite dict_get_update_other.
Qed.

Lemma tally_values (rows : list JobCard.t) (s : Sums) (e : Z) :
  dict_value e (employee_actual_sum (tally activities flagged rows s))
  = dict_value e (employee_actual_sum s)
    + sum (map JobCard.actual_hours (filter (has_employee e) rows))
  /\ dict_value e (employee_credit_sum (tally activities flagged rows s))
     = dict_value e (employee_credit_sum s)
       + sum (map (row_credit activities flagged) (filter (has_employee e) rows)).
Proof.
  revert s; induction rows as [|jc rows IH]; intro s.
  - cbn [tally fold_left filter map]; rewrite sum_nil; split; float_ring.
  - change (tally activities flagged (jc :: rows) s)
      with (tally activities flagged rows (tally_row activities flagged s jc)).
    destruct (IH (tally_row activities flagged s jc)) as [IA IC].
    rewrite IA, IC, !sum_filter_cons.
    assert (H : has_employee e jc
                = match JobCard.employee_id jc with
                  | Some e' => (e' =? e)%Z
                  | None => false
                  end) by reflexivity.
    rewrite !H; clear H; unfold tally_row.
    destruct (JobCard.employee_id jc) as [e'|]; [|split; float_ring].
    cbn [employee_actual_sum employee_credit_sum].
    destruct (Z.eqb_spec e' e) as [E'|D]; [subst e'|].
    + rewrite !dict_value_add_same; split; float_ring.
    + rewrite !dict_value_add_other by congruence; split; float_ring.
Qed.

Lemma tally_keys (rows : list JobCard.t) (s : Sums) :
  map fst (employee_credit_sum s) = map fst (employee_actual_sum s) ->
  NoDup (map fst (employee_actual_sum s)) ->
  let s' := tally activities flagged rows s in
  map fst (employee_credit_sum s') = map fst (employee_actual_sum s')
  /\ NoDup (map fst (employee_actual_sum s'))
  /\ forall e, In e (map fst (employee_actual_sum s'))
               <-> In e (map fst (employee_actual_sum s))
                   \/ exists jc, In jc rows /\ JobCard.employee_id jc = Some e.
Proof.
  revert s; induction rows as [|jc rows IH]; intros s K N.
  - cbn; split; [exact K|]; split; [exact N|].
    intro e; split; [tauto | intros [H|(jc & [] & _)]; exact H].
  - change (tally activities flagged (jc :: rows) s)
      with (tally activities flagged rows (tally_row activities flagged s jc)).
    assert (K1 : map fst (employee_credit_sum (tally_row activities flagged s jc))
                 = map fst (employee_actual_sum (tally_row activities flagged s jc))).
    { unfold tally_row; destruct (JobCard.employee_id jc); [|exact K].
      cbn [employee_actual_sum employee_credit_sum]; unfold dict_add.
      now rewrite !dict_keys_update, K. }
    assert (N1 : NoDup (map fst (employee_actual_sum (tally_row activities flagged s jc)))).
    { unfold tally_row; destruct (JobCard.employee_id jc); [|exact N].
      now apply dict_keys_update_NoDup. }
    destruct (IH _ K1 N1) as (K' & N' & In').
    split; [exact K'|]; split; [exact N'|].
    intro e; rewrite In'.
    assert (Step : In e (map fst (employee_actual_sum (tally_row activities flagged s jc)))
                   <-> In e (map fst (employee_actual_sum s))
                       \/ JobCard.employee_id jc = Some e).
    { unfold tally_row; destruct (JobCard.employee_id jc) as [e'|].
      - cbn [employee_actual_sum]; unfold dict_add; rewrite dict_keys_update_in.
        intuition congruence.
      - intuition discriminate. }
    rewrite Step; split.
    + intros [[H|H]|(jc' & H1 & H2)]; [now left | right; exists jc; simpl; auto|].
      right; exists jc'; simpl; auto.
    + intros [H|(jc' & [->|H1] & H2)]; [now left; left | now left; right|].
      right; exists jc'; auto.
Qed.

End Loops.

(** *** From the groups back to the rows *)

Lemma sum_map_plus {A : Type} (f g : A -> float) (l : list A) :
  sum (map (fun x => f x + g x) l) = sum (map f l) + sum (map g l).
Proof.
  induction l as [|x l IH]; cbn [map]; [rewrite sum_nil | rewrite !sum_cons, IH];
    float_ring.
Qed.

Lemma sum_map_zero {A : Type} (l : list A) :
  sum (map (fun _ => of_int 0) l) = of_int 0.
Proof.
  induction l as [|x l IH]; cbn [map]; [apply sum_nil | rewrite sum_cons, IH];
    float_ring.
Qed.

Lemma sum_map_ext_in {A : Type} (f g : A -> float) (l : list A) :
  (forall x, In x l -> f x = g x) -> sum (map f l) = sum (map g l).
Proof. intro H; f_equal; now apply map_ext_in. Qed.

Lemma sum_map_filter {A : Type} (f : A -> float) (p : A -> bool) (l : list A) :
  sum (map f (filter p l)) = sum (map (fun x => if p x then f x else of_int 0) l).
Proof.
  induction l as [|x l IH]; [reflexivity|].
  rewrite sum_filter_cons, IH; cbn [map]; now rewrite sum_cons.
Qed.

Lemma sum_map_concat {A : Type} (f : A -> float) (ls : list (list A)) :
  sum (map f (List.concat ls)) = sum (map (fun l => sum (map f l)) ls).
Proof.
  induction ls as [|l ls IH]; [reflexivity|].
  cbn [List.concat map]; now rewrite map_app, sum_app, sum_cons, IH.
Qed.

(** In a duplicate-free list of keys, a sum that is non-zero at one key
    only is the term of that key. *)
Lemma sum_single_key (keys : list Z) (a : Z) (v : float) :
  NoDup keys ->
  sum (map (fun k => if (a =? k)%Z then v else of_int 0) keys)
  = if existsb (Z.eqb a) keys then v else of_int 0.
Proof.
  induction keys as [|k keys IH]; intro N; [reflexivity|].
  inversion N as [|? ? Hk N']; subst.
  cbn [map existsb]; rewrite sum_cons, (IH N').
  destruct (Z.eqb_spec a k) as [->|D]; cbn [orb]; [|float_ring].
  destruct (existsb (Z.eqb k) keys) eqn:E; [|float_ring].
  apply existsb_exists in E; destruct E as (x & Hx & Ex).
  apply Z.eqb_eq in Ex; subst x; contradiction.
Qed.

(** Summing group by group over the rows of each activity is summing over
    the rows that have an activity. *)
Lemma sum_by_group (g : Z -> JobCard.t -> float) (keys : list Z)
  (rows : list JobCard.t) :
  NoDup keys ->
  (forall jc a, In jc rows -> JobCard.activity_code_id jc = Some a -> In a keys) ->
  sum (map (fun a => sum (map (g a) (filter (has_activity a) rows))) keys)
  = sum (map (fun jc => match JobCard.activity_code_id jc with
                        | Some a => g a jc
                        | None => of_int 0
                        end) rows).
Proof.
  intros N; induction rows as [|jc rows IH]; intro Cover.
  - cbn [filter map]; rewrite sum_nil; apply sum_map_zero.
  - cbn [map]; rewrite sum_cons.
    rewrite <- IH by (intros jc' a' H1 H2; apply (Cover jc' a'); [now right | exact H2]).
    rewrite (sum_map_ext_in _
               (fun a => (if has_activity a jc then g a jc else of_int 0)
                         + sum (map (g a) (filter (has_activity a) rows))))
      by (intros; apply sum_filter_cons).
    rewrite sum_map_plus; f_equal.
    unfold has_activity; destruct (JobCard.activity_code_id jc) as [a0|] eqn:A.
    + rewrite (sum_map_ext_in _ (fun k => if (a0 =? k)%Z then g a0 jc else of_int 0)).
      * rewrite (sum_single_key _ _ _ N).
        replace (existsb (Z.eqb a0) keys) with true; [reflexivity|].
        symmetry; apply existsb_exists; exists a0; split; [|apply Z.eqb_refl].
        apply (Cover jc); [now left | exact A].
      * intros k _; destruct (Z.eqb_spec a0 k); [now subst | reflexivity].
    + apply sum_map_zero.
Qed.

Section Credited.

Variable activities : dict ActivityCode.t.
Variable flagged : list JobCard.t.

Lemma tallied_rows_In (jc : JobCard.t) :
  In jc (tallied_rows flagged) <-> In jc flagged /\ credited flagged jc = true.
Proof.
  destruct (group_by_activity_spec flagged) as (N & Rows & Cover).
  unfold tallied_rows; rewrite in_concat; split.
  - intros (l & Hl & Hjc).
    apply in_map_iff in Hl; destruct Hl as ([a jcs] & <- & Hg).
    apply filter_In in Hg; destruct Hg as [Hg Cr]; cbn [snd] in Hjc.
    rewrite (Rows a jcs Hg) in Hjc.
    pose proof (group_rows_activity flagged a jc Hjc) as A.
    apply filter_In in Hjc; split; [tauto|].
    unfold credited; rewrite A; exact Cr.
  - intros [Hjc Cr]; unfold credited in Cr.
    destruct (JobCard.activity_code_id jc) as [a|] eqn:A; [|discriminate].
    pose proof (Cover jc a Hjc A) as Ha.
    apply in_map_iff in Ha; destruct Ha as ([a' jcs] & Ea & Hg); cbn [fst] in Ea; subst a'.
    exists jcs; split.
    + apply in_map_iff; exists (a, jcs); split; [reflexivity|].
      apply filter_In; split; [exact Hg | exact Cr].
    + rewrite (Rows a jcs Hg); apply filter_In; split; [exact Hjc|].
      unfold has_activity; rewrite A; apply Z.eqb_refl.
Qed.

Lemma sum_tallied_rows (f : JobCard.t -> float) (p : JobCard.t -> bool) :
  sum (map f (filter p (tallied_rows flagged)))
  = sum (map f (filter (fun jc => p jc && credited flagged jc) flagged)).
Proof.
  destruct (group_by_activity_spec flagged) as (N & Rows & Cover).
  set (c := fun a => negb (float_leb (total_actual flagged a) (of_int 0))).
  set (h := fun jc => if p jc then f jc else of_int 0).
  rewrite !sum_map_filter; fold h; unfold tallied_rows.
  rewrite sum_map_concat, map_map, sum_map_filter.
  rewrite (sum_map_ext_in _
             (fun g => (fun a => sum (map (fun jc => if c a then h jc else of_int 0)
                                          (filter (has_activity a) flagged)))
                         (fst g))).
  - rewrite <- (map_map fst (fun a => sum (map (fun jc => if c a then h jc else of_int 0)
                                               (filter (has_activity a) flagged)))).
    rewrite (sum_by_group (fun a jc => if c a then h jc else of_int 0) _ flagged N Cover).
    apply sum_map_ext_in; intros jc _; unfold credited, h.
    destruct (JobCard.activity_code_id jc) as [a|].
    + change (negb (float_leb (total_actual flagged a) (of_int 0))) with (c a).
      destruct (c a), (p jc); reflexivity.
    + now rewrite andb_false_r.
  - intros [a jcs] Hg; cbn [fst snd]; rewrite (Rows a jcs Hg).
    unfold group_credited; cbn [fst]; unfold group_rows.
    change (negb (float_leb (total_actual flagged a) (of_int 0))) with (c a).
    destruct (c a); [reflexivity | now rewrite sum_map_zero].
Qed.

End Credited.

Lemma dict_sum_add (e : Z) (x : float) (d : dict float) :
  sum (map snd (dict_add e x d)) = sum (map snd d) + x.
Proof.
  unfold dict_add; induction d as [|[k v] d IH]; cbn [dict_update map snd].
  - rewrite sum_cons, !sum_nil; float_ring.
  - destruct (k =? e)%Z; cbn [map snd]; rewrite !sum_cons; [|rewrite IH]; float_ring.
Qed.

Lemma tally_total (activities : dict ActivityCode.t) (flagged rows : list JobCard.t)
  (s : Sums) :
  sum (map snd (employee_actual_sum (tally activities flagged rows s)))
  = sum (map snd (employee_actual_sum s))
    + sum (map JobCard.actual_hours (filter has_some_employee rows)).
Proof.
  revert s; induction rows as [|jc rows IH]; intro s.
  - cbn [tally fold_left filter map]; rewrite sum_nil; float_ring.
  - change (tally activities flagged (jc :: rows) s)
      with (tally activities flagged rows (tally_row activities flagged s jc)).
    rewrite IH, sum_filter_cons; unfold tally_row, has_some_employee at 2.
    destruct (JobCard.employee_id jc); [|float_ring].
    cbn [employee_actual_sum]; rewrite dict_sum_add; float_ring.
Qed.

(** The sums after the loops: an employee has an entry exactly when one of
    their rows is in a group that is not skipped, and the entries are the
    sums over those rows. *)
Lemma credit_sums_spec (flagged : list JobCard.t) (session : Session.t) :
  let activities := load_activities flagged session in
  let counted := fun e jc => has_employee e jc && credited flagged jc in
  exists s,
    credit_sums flagged session = Ok s
    /\ map fst (employee_credit_sum s) = map fst (employee_actual_sum s)
    /\ NoDup (map fst (employee_actual_sum s))
    /\ (forall e, In e (map fst (employee_actual_sum s))
                  <-> exists jc, In jc flagged /\ JobCard.employee_id jc = Some e
                                 /\ credited flagged jc = true)
    /\ (forall e, dict_value e (employee_actual_sum s)
                  = sum (map JobCard.actual_hours (filter (counted e) flagged)))
    /\ (forall e, dict_value e (employee_credit_sum s)
                  = sum (map (row_credit activities flagged)
                             (filter (counted e) flagged)))
    /\ sum (map snd (employee_actual_sum s))
       = sum (map JobCard.actual_hours
                  (filter (fun jc => has_some_employee jc && credited flagged jc)
                          flagged)).
Proof.
  intros activities counted.
  destruct (group_by_activity_spec flagged) as (N & Rows & Cover).
  unfold credit_sums; fold activities.
  rewrite (credit_groups_tally activities flagged _ _ Rows).
  fold (tallied_rows flagged).
  set (s0 := {| employee_actual_sum := []; employee_credit_sum := [] |}).
  destruct (tally_keys activities flagged (tallied_rows flagged) s0 eq_refl
              ltac:(constructor)) as (K & ND & Keys).
  eexists; split; [reflexivity|].
  split; [exact K|]; split; [exact ND|]; split; [|split; [|split]].
  - intro e; rewrite Keys; split.
    + intros [[]|(jc & Hjc & E)]; apply tallied_rows_In in Hjc; exists jc; tauto.
    + intros (jc & Hjc & E & Cr); right; exists jc; split; [|exact E].
      apply tallied_rows_In; tauto.
  - intro e.
    rewrite (proj1 (tally_values activities flagged (tallied_rows flagged) s0 e)).
    rewrite sum_tallied_rows; unfold dict_value, s0, counted.
    cbn [dict_get employee_actual_sum employee_credit_sum]; float_ring.
  - intro e.
    rewrite (proj2 (tally_values activities flagged (tallied_rows flagged) s0 e)).
    rewrite sum_tallied_rows; unfold dict_value, s0, counted.
    cbn [dict_get employee_actual_sum employee_credit_sum]; float_ring.
  - rewrite tally_total, sum_tallied_rows; unfold s0.
    cbn [employee_actual_sum map]; rewrite sum_nil; float_ring.
Qed.

(** *** The answer *)

Lemma grand_total_nonzero (s : Sums) : grand_total_actual s <> of_int 0.
Proof.
  unfold grand_total_actual, or_float.
  destruct (float_eqb _ (of_int 0)) eqn:E; [discriminate|].
  now apply float_eqb_neq.
Qed.

Lemma allocation_Ok (s : Sums) (entry : Z * float) :
  allocation s entry = Ok (allocation_of s entry).
Proof.
  destruct entry as [e x]; unfold allocation, credit_pct, allocation_of, dict_value.
  pose proof (grand_total_nonzero s) as G.
  apply float_eqb_neq in G; rewrite G, truediv_Ok by now apply float_eqb_neq.
  reflexivity.
Qed.

Lemma allocations_Ok (s : Sums) :
  allocations s = Ok (map (allocation_of s) (employee_actual_sum s)).
Proof.
  unfold allocations.
  assert (H : forall entries acc,
             for_each (fun acc entry => a <- allocation s entry ;; Ok (acc ++ [a]))
                      entries acc
             = Ok (acc ++ map (allocation_of s) entries)).
  { induction entries as [|entry entries IH]; intro acc; cbn [for_each map].
    - now rewrite app_nil_r.
    - rewrite allocation_Ok; cbn [bind]; rewrite IH, <- app_assoc; reflexivity. }
  apply (H _ []).
Qed.

Lemma insert_desc_perm (a : Allocation.t) (l : list Allocation.t) :
  Permutation (insert_desc a l) (a :: l).
Proof.
  induction l as [|b l IH]; cbn [insert_desc]; [reflexivity|].
  destruct (float_ltb _ _); [|reflexivity].
  rewrite IH; apply perm_swap.
Qed.

Lemma sort_desc_perm (l : list Allocation.t) : Permutation (sort_desc l) l.
Proof.
  induction l as [|a l IH]; cbn [sort_desc fold_right]; [reflexivity|].
  fold (sort_desc l); rewrite insert_desc_perm; now constructor.
Qed.

Lemma insert_desc_descending (a : Allocation.t) (l : list Allocation.t) :
  descending l -> descending (insert_desc a l).
Proof.
  unfold descending; induction l as [|b l IH]; intro S; cbn [insert_desc].
  - repeat constructor.
  - inversion S as [|? ? S' Hb]; subst.
    destruct (float_ltb _ _) eqn:E.
    + constructor; [now apply IH|].
      apply float_ltb_lt, Qclt_le_weak in E.
      apply Forall_forall; intros x Hx.
      apply (Permutation_in _ (insert_desc_perm a l)) in Hx.
      destruct Hx as [<-|Hx]; [exact E|].
      rewrite Forall_forall in Hb; now apply Hb.
    + apply float_ltb_ge in E.
      constructor; [exact S|].
      constructor; [exact E|].
      rewrite Forall_forall in Hb |- *; intros x Hx.
      exact (Qcle_trans _ _ _ (Hb x Hx) E).
Qed.

Lemma sort_desc_descending (l : list Allocation.t) : descending (sort_desc l).
Proof.
  induction l as [|a l IH]; cbn [sort_desc fold_right]; [constructor|].
  now apply insert_desc_descending.
Qed.

Lemma dict_value_In (e : Z) (x : float) (d : dict float) :
  NoDup (map fst d) -> In (e, x) d -> dict_value e d = x.
Proof.
  intros N H; unfold dict_value; now rewrite (dict_get_In _ _ _ N H).
Qed.

(** The early return on an empty join agrees with the general path. *)
Lemma compute_splits_unfold (work_order_id : Z) (session : Session.t) :
  compute_splits_for_workorder work_order_id session
  = (s <- credit_sums (flagged_jobcards work_order_id session) session ;;
     l <- allocations s ;;
     Ok (sort_desc l)).
Proof.
  unfold compute_splits_for_workorder.
  destruct (flagged_jobcards work_order_id session); reflexivity.
Qed.

(** The whole service: it does not raise; its answer has one allocation
    for each employee with a row in a group that is not skipped, largest
    credit first, built from the sums over those rows. *)
Lemma compute_splits_spec (work_order_id : Z) (session : Session.t) :
  let flagged := flagged_jobcards work_order_id session in
  let activities := load_activities flagged session in
  let counted := fun e jc => has_employee e jc && credited flagged jc in
  let actual_of := fun e => sum (map JobCard.actual_hours (filter (counted e) flagged)) in
  let credit_of :=
    fun e => sum (map (row_credit activities flagged) (filter (counted e) flagged)) in
  let grand_total :=
    or_float
      (sum (map JobCard.actual_hours
                (filter (fun jc => has_some_employee jc && credited flagged jc) flagged)))
      (of_int 1) in
  exists allocs,
    compute_splits_for_workorder work_order_id session = Ok allocs
    /\ descending allocs
    /\ NoDup (map Allocation.employee_id allocs)
    /\ (forall e, In e (map Allocation.employee_id allocs)
                  <-> exists jc, In jc flagged /\ JobCard.employee_id jc = Some e
                                 /\ credited flagged jc = true)
    /\ (forall al, In al allocs ->
                   al = Allocation.Build (Allocation.employee_id al)
                          (round (actual_of (Allocation.employee_id al)) 4)
                          (round (credit_of (Allocation.employee_id al)) 4)
                          (round (actual_of (Allocation.employee_id al) / grand_total) 6)).
Proof.
  intros flagged activities counted actual_of credit_of grand_total.
  destruct (credit_sums_spec flagged session)
    as (s & Run & K & ND & Keys & Act & Cre & Tot).
  fold activities in Cre.
  assert (Ids : map Allocation.employee_id (map (allocation_of s) (employee_actual_sum s))
                = map fst (employee_actual_sum s))
    by (rewrite map_map; reflexivity).
  exists (sort_desc (map (allocation_of s) (employee_actual_sum s))).
  split.
  { rewrite compute_splits_unfold; fold flagged; rewrite Run; cbn [bind].
    rewrite allocations_Ok; reflexivity. }
  split; [apply sort_desc_descending|].
  pose proof (sort_desc_perm (map (allocation_of s) (employee_actual_sum s))) as P.
  pose proof (Permutation_map Allocation.employee_id P) as Pm; rewrite Ids in Pm.
  split; [exact (Permutation_NoDup (Permutation_sym Pm) ND)|].
  split.
  - intro e; rewrite <- Keys; split; intro H.
    + exact (Permutation_in _ Pm H).
    + exact (Permutation_in _ (Permutation_sym Pm) H).
  - intros al H; apply (Permutation_in _ P) in H.
    apply in_map_iff in H; destruct H as ([e x] & <- & He).
    unfold allocation_of; cbn [fst snd Allocation.employee_id].
    rewrite <- (dict_value_In e x _ ND He), Act, Cre.
    unfold grand_total_actual; rewrite Tot; reflexivity.
Qed.

(** *** One activity group *)

Lemma float_plus_positive (x y : float) :
  of_int 0 < x -> of_int 0 <= y -> of_int 0 < x + y.
Proof.
  unfold Qclt, Qcle; cbn [this Qcplus Q2Qc of_int]; rewrite !Qred_correct.
  intros Hx Hy; change (inject_Z 0) with (0 + 0)%Q in |- *.
  now apply Qplus_lt_le_compat.
Qed.

Lemma sum_positive (l : list float) :
  l <> [] -> (forall x, In x l -> of_int 0 < x) -> of_int 0 < sum l.
Proof.
  induction l as [|x l IH]; [congruence|]; intros _ H.
  rewrite sum_cons; apply float_plus_positive; [apply H; now left|].
  destruct l as [|y l]; [rewrite sum_nil; apply Qcle_refl|].
  apply Qclt_le_weak, IH; [discriminate | intros; apply H; now right].
Qed.

Section OneGroup.

Variable activities : dict ActivityCode.t.
Variable flagged : list JobCard.t.
Variable a : Z.
Hypothesis nonempty : flagged <> [].
Hypothesis one_group :
  forall jc, In jc flagged ->
             JobCard.activity_code_id jc = Some a /\ of_int 0 < JobCard.actual_hours jc.







End OneGroup.



(** *** A card with several flags *)

Lemma of_int_succ (n : nat) : of_int (Z.of_nat (S n)) = of_int (Z.of_nat n) + of_int 1.
Proof.
  apply Qc_is_canon; unfold of_int; cbn [this Qcplus Q2Qc].
  rewrite !Qred_correct, Nat2Z.inj_succ, <- Z.add_1_r, inject_Z_plus; reflexivity.
Qed.

Lemma sum_repeat (f : JobCard.t -> float) (jc : JobCard.t) (n : nat) :
  sum (map f (repeat jc n)) = of_int (Z.of_nat n) * f jc.
Proof.
  induction n as [|n IH]; [cbn [repeat map Z.of_nat]; rewrite sum_nil; float_ring|].
  cbn [repeat map]; rewrite sum_cons, IH, of_int_succ; float_ring.
Qed.

Lemma filter_repeat (p : JobCard.t -> bool) (jc : JobCard.t) (n : nat) :
  filter p (repeat jc n) = if p jc then repeat jc n else [].
Proof.
  induction n as [|n IH]; cbn [repeat filter]; [now destruct (p jc)|].
  rewrite IH; now destruct (p jc).
Qed.

(** A sum over rows in which each card stands once per flag is the sum
    over the cards of the number of flags times the card's term. *)
Lemma sum_once_per_flag (f : JobCard.t -> float) (p : JobCard.t -> bool)
  (n : JobCard.t -> nat) (cards : list JobCard.t) :
  sum (map f (filter p (flat_map (fun jc => repeat jc (n jc)) cards)))
  = sum (map (fun jc => of_int (Z.of_nat (n jc)) * f jc) (filter p cards)).
Proof.
  induction cards as [|jc cards IH]; [reflexivity|].
  cbn [flat_map]; rewrite filter_app, map_app, sum_app, IH, filter_repeat.
  rewrite sum_filter_cons; destruct (p jc); [now rewrite sum_repeat|].
  cbn [map]; now rewrite sum_nil.
Qed.

Lemma flagged_once_per_flag (work_order_id : Z) (session : Session.t) :
  flagged_jobcards work_order_id session
  = flat_map (fun jc => repeat jc (split_flags session jc))
             (cards_of work_order_id session).
Proof.
  unfold flagged_jobcards, cards_of, split_flags.
  apply flat_map_ext; intro jc.
  induction (filter _ (Session.validation_flags session)) as [|vf l IH];
    [reflexivity | cbn [map List.length repeat]; now rewrite IH].
Qed.

(** C9, as the code has it.  The join returns a card once per unresolved
    SPLIT_CANDIDATE flag on it and nothing removes the repetitions: with k
    flags the card's hours and quantity enter the totals of its activity
    group k times, and in a group that is not skipped the card adds to its
    employee's accumulated hours k times its hours and to the credit k
    times the credit of one row, which is the group's standard hours times
    the card's share of the group's hours, both taken from the totals that
    hold the card k times.  The answer carries these sums, rounded.  So
    the hours are k-fold those of the card with a single flag, the credit
    is not: in the allocation test, flagged once each, the first card's
    employee is answered 5 hours and credit 3.75; with that card flagged
    twice, 10 hours and credit 8, twice the credit 4 of one row, and the
    other employee's credit goes from 11.25 to 12. *)
Theorem card_is_counted_once_per_flag (work_order_id : Z) (session : Session.t) :
  let flagged := flagged_jobcards work_order_id session in
  let cards := cards_of work_order_id session in
  let activities := load_activities flagged session in
  let k := fun jc => of_int (Z.of_nat (split_flags session jc)) in
  let counted := fun e jc => has_employee e jc && credited flagged jc in
  flagged = flat_map (fun jc => repeat jc (split_flags session jc)) cards
  /\ (forall a,
        total_actual flagged a
        = sum (map (fun jc => k jc * JobCard.actual_hours jc)
                   (filter (has_activity a) cards))
        /\ total_std activities flagged a
           = sum (map (fun jc => k jc * (JobCard.qty jc * group_std_per_unit activities a))
                      (filter (has_activity a) cards)))
  /\ (forall jc jc' a,
        JobCard.activity_code_id jc = Some a ->
        JobCard.activity_code_id jc' = Some a ->
        JobCard.actual_hours jc = JobCard.actual_hours jc' ->
        row_credit activities flagged jc
        = total_std activities flagged a
          * (JobCard.actual_hours jc / total_actual flagged a)
        /\ row_credit activities flagged jc = row_credit activities flagged jc')
  /\ (exists s allocs,
        credit_sums flagged session = Ok s
        /\ compute_splits_for_workorder work_order_id session = Ok allocs
        /\ (forall e,
              dict_value e (employee_actual_sum s)
              = sum (map (fun jc => k jc * JobCard.actual_hours jc)
                         (filter (counted e) cards))
              /\ dict_value e (employee_credit_sum s)
                 = sum (map (fun jc => k jc * row_credit activities flagged jc)
                            (filter (counted e) cards)))
        /\ (forall al, In al allocs ->
              Allocation.actual_hours al
              = round (dict_value (Allocation.employee_id al) (employee_actual_sum s)) 4
              /\ Allocation.credit_hours al
                 = round (dict_value (Allocation.employee_id al)
                            (employee_credit_sum s)) 4))
  /\ (map JobCard.id (flagged_jobcards 1 twice_flagged_session) = [1; 1; 2]%Z
      /\ total_actual (flagged_jobcards 1 twice_flagged_session) 1 = of_int 25
      /\ compute_splits_for_workorder 1 twice_flagged_session
         = Ok [Allocation.Build 2 (of_int 15) (of_int 12) (Q2Qc 0.6);
               Allocation.Build 1 (of_int 10) (of_int 8) (Q2Qc 0.4)]
      /\ map JobCard.id (flagged_jobcards 1 two_card_session) = [1; 2]%Z
      /\ total_actual (flagged_jobcards 1 two_card_session) 1 = of_int 20
      /\ compute_splits_for_workorder 1 two_card_session
         = Ok [Allocation.Build 2 (of_int 15) (Q2Qc 11.25) (Q2Qc 0.75);
               Allocation.Build 1 (of_int 5) (Q2Qc 3.75) (Q2Qc 0.25)]).
Proof.
  intros flagged cards activities k counted.
  assert (T : forall f p,
             sum (map f (filter p flagged))
             = sum (map (fun jc => k jc * f jc) (filter p cards)))
    by (intros; unfold flagged; rewrite flagged_once_per_flag; apply sum_once_per_flag).
  split; [apply flagged_once_per_flag|].
  split.
  { intro a; unfold total_actual, total_std, group_total_actual, group_total_std, group_rows.
    rewrite !T; split; apply sum_map_ext_in; intros jc _; now rewrite or_float_zero. }
  split.
  { intros jc jc' a A A' H; unfold row_credit; rewrite A, A', H; split; reflexivity. }
  split.
  { destruct (credit_sums_spec flagged session) as (s & Run & _ & _ & _ & Act & Cre & _).
    destruct (compute_splits_spec work_order_id session) as (allocs & Runs & _ & _ & _ & Each).
    fold flagged activities in Cre, Each.
    exists s, allocs; split; [exact Run|]; split; [exact Runs|]; split.
    - intro e; rewrite Act, Cre; fold (counted e); now rewrite !T.
    - intros al H; pose proof (Each al H) as E.
      pose proof (f_equal Allocation.actual_hours E) as E1.
      pose proof (f_equal Allocation.credit_hours E) as E2.
      unfold Allocation.actual_hours at 2 in E1.
      unfold Allocation.credit_hours at 2 in E2.
      now rewrite E1, E2, Act, Cre. }
  split; [reflexivity|].
  split; [apply Qc_is_canon; reflexivity|].
  split; [vm_compute; float_fields|].
  split; [reflexivity|].
  split; [apply Qc_is_canon; reflexivity|].
  vm_compute; float_fields.
Qed.

(** A second flag on a card does not double its employee's credit.  The
    two sessions hold the same two cards; in the first each has one open
    SPLIT_CANDIDATE flag, in the second card 1 has two.  The hours
    answered for employee 1 go from 5 to 10, the credit from 3.75 to 8,
    which is not 2 * 3.75, and the credit of employee 2 from 11.25 to
    12. *)
Lemma second_flag_does_not_double_the_credit :
  Session.job_cards twice_flagged_session = Session.job_cards two_card_session
  /\ map (split_flags two_card_session) (cards_of 1 two_card_session) = [1; 1]%nat
  /\ map (split_flags twice_flagged_session) (cards_of 1 twice_flagged_session)
     = [2; 1]%nat
  /\ compute_splits_for_workorder 1 two_card_session
     = Ok [Allocation.Build 2 (of_int 15) (Q2Qc 11.25) (Q2Qc 0.75);
           Allocation.Build 1 (of_int 5) (Q2Qc 3.75) (Q2Qc 0.25)]
  /\ compute_splits_for_workorder 1 twice_flagged_session
     = Ok [Allocation.Build 2 (of_int 15) (of_int 12) (Q2Qc 0.6);
           Allocation.Build 1 (of_int 10) (of_int 8) (Q2Qc 0.4)]
  /\ of_int 10 = of_int 2 * of_int 5
  /\ of_int 8 <> of_int 2 * Q2Qc 3.75.
Proof.
  split; [reflexivity|].
  split; [reflexivity|].
  split; [reflexivity|].
  split; [vm_compute; float_fields|].
  split; [vm_compute; float_fields|].
  split; [apply Qc_is_canon; reflexivity | discriminate].
Qed.

End SplitAllocation.

(** * Further properties of the services *)

(** ** The rules, one by one *)

Section RuleFacts.

Open Scope Z_scope.

Ltac rule_inv H :=
  repeat match type of H with
         | Ok _ = Ok _ => injection H as <-
         | Raise _ = Ok _ => discriminate H
         | bind ?m _ = Ok _ => destruct m eqn:?; cbn [bind] in H
         | match ?x with _ => _ end = Ok _ => destruct x eqn:?
         | (let '(_, _) := ?x in _) = Ok _ => destruct x eqn:?
         end.

Lemma get_work_order_found (session : Session.t) (work_order_id : option Z)
  (work_order : WorkOrder.t) :
  Session.get_work_order session work_order_id = Ok (Some work_order) ->
  work_order_id = Some (WorkOrder.id work_order)
  /\ In work_order (Session.work_orders session).
Proof.
  unfold Session.get_work_order, Session.scalar_one_or_none; intro H.
  destruct (filter _ (Session.work_orders session)) as [|r [|r' rows]] eqn:E;
    try discriminate H.
  injection H as ->.
  assert (Hin : In work_order [work_order]) by now left.
  rewrite <- E in Hin; apply filter_In in Hin; destruct Hin as [Hin Q].
  split; [|exact Hin].
  destruct work_order_id as [k|]; simpl in Q; [|discriminate Q].
  apply Z.eqb_eq in Q; now subst.
Qed.

Lemma existsb_filter {Row : Type} (keep : Row -> bool) (rows : list Row) :
  existsb keep rows = match filter keep rows with [] => false | _ :: _ => true end.
Proof.
  induction rows as [|r rows IH]; simpl; [reflexivity|].
  destruct (keep r); simpl; [reflexivity | exact IH].
Qed.

Lemma sql_eq_sym (x y : option Z) : Session.sql_eq x y = Session.sql_eq y x.
Proof. destruct x, y; simpl; auto using Z.eqb_sym. Qed.

Lemma twin_sym (a b : JobCard.t) : twin a b = twin b a.
Proof.
  unfold twin.
  rewrite (Z.eqb_sym (JobCard.id b)), (sql_eq_sym (JobCard.machine_id b)),
    (sql_eq_sym (JobCard.work_order_id b)), (sql_eq_sym (JobCard.activity_code_id b)).
  reflexivity.
Qed.

(** Within a found work order the restriction of the duplicates to the
    work orders of the same month selects nothing more. *)
Lemma duplicates_are_twins (jobcard : JobCard.t) (session : Session.t)
  (work_order : WorkOrder.t) :
  Session.get_work_order session (JobCard.work_order_id jobcard) = Ok (Some work_order) ->
  filter (fun jc =>
            negb (JobCard.id jc =? JobCard.id jobcard)
            && Session.sql_in (JobCard.work_order_id jc)
                 (map WorkOrder.id
                    (filter (fun wo => String.eqb (WorkOrder.msd_month wo)
                                         (WorkOrder.msd_month work_order))
                            (Session.work_orders session)))
            && Session.sql_eq (JobCard.machine_id jc) (JobCard.machine_id jobcard)
            && Session.sql_eq (JobCard.work_order_id jc) (JobCard.work_order_id jobcard)
            && Session.sql_eq (JobCard.activity_code_id jc)
                 (JobCard.activity_code_id jobcard))
         (Session.job_cards session)
  = filter (twin jobcard) (Session.job_cards session).
Proof.
  intro H; apply get_work_order_found in H; destruct H as [W Hin].
  apply filter_ext; intro jc; unfold twin.
  destruct (Session.sql_eq (JobCard.work_order_id jc) (JobCard.work_order_id jobcard))
    eqn:E.
  - replace (Session.sql_in _ _) with true;
      [now destruct (negb _), (Session.sql_eq (JobCard.machine_id jc) _)|].
    symmetry; rewrite W in E.
    destruct (JobCard.work_order_id jc) as [k|]; simpl in E; [|discriminate E].
    apply Z.eqb_eq in E; subst k; simpl.
    apply existsb_exists; exists (WorkOrder.id work_order); split; [|apply Z.eqb_refl].
    apply in_map, filter_In; split; [exact Hin | apply String.eqb_refl].
  - now rewrite !andb_false_r.
Qed.

Lemma duplication_rule_found (jobcard : JobCard.t) (session : Session.t)
  (work_order : WorkOrder.t) :
  Session.get_work_order session (JobCard.work_order_id jobcard) = Ok (Some work_order) ->
  exists flags,
    ValidationEngine.duplication_rule jobcard session = Ok flags
    /\ List.length flags
       = (if existsb (twin jobcard) (Session.job_cards session) then 1 else 0)%nat
    /\ Forall (raised_on (JobCard.id jobcard) DUPLICATION) flags.
Proof.
  intro H; unfold ValidationEngine.duplication_rule.
  rewrite H; cbn [bind]; cbv zeta.
  rewrite (duplicates_are_twins _ _ _ H), existsb_filter.
  destruct (filter (twin jobcard) (Session.job_cards session)) as [|d ds].
  - exists []; repeat split; constructor.
  - eexists; split; [reflexivity|]; split; [reflexivity|].
    repeat constructor.
Qed.

Lemma msd_window_rule_shape (jobcard : JobCard.t) (session : Session.t)
  (flags : list ValidationFlag.t) :
  ValidationEngine.msd_window_rule jobcard session = Ok flags ->
  Forall (raised_on (JobCard.id jobcard) OUTSIDE_MSD) flags.
Proof.
  unfold ValidationEngine.msd_window_rule; intro H; rule_inv H; repeat constructor.
Qed.

Lemma duplication_rule_shape (jobcard : JobCard.t) (session : Session.t)
  (flags : list ValidationFlag.t) :
  ValidationEngine.duplication_rule jobcard session = Ok flags ->
  Forall (raised_on (JobCard.id jobcard) DUPLICATION) flags.
Proof.
  unfold ValidationEngine.duplication_rule; intro H; rule_inv H; repeat constructor.
Qed.

Lemma awc_rule_shape (jobcard : JobCard.t) (session : Session.t) :
  exists flags,
    ValidationEngine.awc_rule jobcard session = Ok flags
    /\ List.length flags
       = match JobCard.activity_code_id jobcard with None => 1 | Some _ => 0 end%nat
    /\ Forall (raised_on (JobCard.id jobcard) AWC) flags.
Proof.
  unfold ValidationEngine.awc_rule.
  destruct (JobCard.activity_code_id jobcard); eexists; (split; [reflexivity|]);
    split; try reflexivity; repeat constructor.
Qed.

(** The flags of rule 4: one on the card, and one on each Complete card
    of the query. *)
Lemma split_candidate_rule_shape (jobcard : JobCard.t) (session : Session.t) :
  exists flags,
    ValidationEngine.split_candidate_rule jobcard session = Ok flags
    /\ Forall (fun f =>
                 ValidationFlag.flag_type f = SPLIT_CANDIDATE
                 /\ ValidationFlag.resolved f = false
                 /\ JobCard.status jobcard = IC
                 /\ (ValidationFlag.job_card_id f = JobCard.id jobcard
                     \/ exists other,
                          In other (ValidationEngine.completed_by_others jobcard session)
                          /\ ValidationFlag.job_card_id f = JobCard.id other))
              flags.
Proof.
  unfold ValidationEngine.split_candidate_rule.
  destruct (JobCard.status jobcard) eqn:St; cbn [JobCardStatusEnum_eqb negb];
    [|exists []; split; [reflexivity | constructor]].
  destruct (ValidationEngine.completed_by_others jobcard session) as [|o others] eqn:E.
  - exists []; split; [reflexivity | constructor].
  - eexists; split; [reflexivity|].
    constructor; [repeat split; now left|].
    apply Forall_map, Forall_forall; intros other Ho.
    repeat split; right; exists other; split; [exact Ho | reflexivity].
Qed.


Lemma qty_mismatch_rule_shape (jobcard : JobCard.t) (session : Session.t)
  (flags : list ValidationFlag.t) :
  ValidationEngine.qty_mismatch_rule jobcard session = Ok flags ->
  Forall (raised_on (JobCard.id jobcard) QTY_MISMATCH) flags.
Proof.
  unfold ValidationEngine.qty_mismatch_rule; intro H; rule_inv H;
    repeat match goal with
           | |- context [if ?c then _ else _] => destruct c
           end;
    repeat constructor.
Qed.

End RuleFacts.

(** ** The run of the engine, rule by rule *)

Section RunFacts.

Open Scope Z_scope.

Lemma run_for_jobcard_unfold (jobcard : JobCard.t) (session : Session.t) :
  ValidationEngine.run_for_jobcard ValidationEngine.init jobcard session
  = (f1 <- ValidationEngine.msd_window_rule jobcard session ;;
     f2 <- ValidationEngine.duplication_rule jobcard session ;;
     f3 <- ValidationEngine.awc_rule jobcard session ;;
     f4 <- ValidationEngine.split_candidate_rule jobcard session ;;
     f5 <- ValidationEngine.qty_mismatch_rule jobcard session ;;
     Ok (ValidationEngine.add_all (f1 ++ f2 ++ f3 ++ f4 ++ f5)
           (ValidationEngine._clear_existing_flags (JobCard.id jobcard) session))).
Proof.
  unfold ValidationEngine.run_for_jobcard, ValidationEngine.init.
  cbn [ValidationEngine.rules for_each].
  destruct (ValidationEngine.msd_window_rule jobcard session) as [f1|];
    cbn [bind]; [|reflexivity].
  destruct (ValidationEngine.duplication_rule jobcard session) as [f2|];
    cbn [bind]; [|reflexivity].
  destruct (ValidationEngine.awc_rule jobcard session) as [f3|];
    cbn [bind]; [|reflexivity].
  destruct (ValidationEngine.split_candidate_rule jobcard session) as [f4|];
    cbn [bind]; [|reflexivity].
  destruct (ValidationEngine.qty_mismatch_rule jobcard session) as [f5|];
    cbn [bind]; [|reflexivity].
  cbn [app]; rewrite <- !app_assoc; reflexivity.
Qed.

(** The tables a run leaves alone. *)
Lemma delete_flags_frame (sel : list ValidationFlag.t) (s : Session.t) :
  let s' := fold_left (fun s flag => Session.delete_flag flag s) sel s in
  Session.employees s' = Session.employees s
  /\ Session.activity_codes s' = Session.activity_codes s
  /\ Session.work_orders s' = Session.work_orders s
  /\ Session.job_cards s' = Session.job_cards s
  /\ Session.efficiency_periods s' = Session.efficiency_periods s
  /\ Session.next_period_id s' = Session.next_period_id s
  /\ Session.next_flag_id s' = Session.next_flag_id s.
Proof.
  revert s; induction sel as [|f sel IH]; intro s; cbn [fold_left]; [tauto|].
  exact (IH (Session.delete_flag f s)).
Qed.

Lemma add_all_frame (flags : list ValidationFlag.t) (s : Session.t) :
  let s' := fst (ValidationEngine.add_all flags s) in
  Session.employees s' = Session.employees s
  /\ Session.activity_codes s' = Session.activity_codes s
  /\ Session.work_orders s' = Session.work_orders s
  /\ Session.job_cards s' = Session.job_cards s
  /\ Session.efficiency_periods s' = Session.efficiency_periods s
  /\ Session.next_period_id s' = Session.next_period_id s.
Proof.
  revert s; induction flags as [|f flags IH]; intro s; cbn [ValidationEngine.add_all];
    [cbn [fst]; tauto|].
  specialize (IH (fst (Session.add_flag f s))).
  cbn [Session.add_flag fst] in *.
  destruct (ValidationEngine.add_all flags _) as [s2 rest]; exact IH.
Qed.

(** A run that completes: every rule returned, the answer is the rules'
    flags in the order of the rules under the next keys, and only the flag
    table and its next key have changed. *)
Lemma run_for_jobcard_answer (jobcard : JobCard.t) (session session' : Session.t)
  (flags : list ValidationFlag.t) :
  ValidationEngine.run_for_jobcard ValidationEngine.init jobcard session
  = Ok (session', flags) ->
  exists f1 f2 f3 f4 f5,
    ValidationEngine.msd_window_rule jobcard session = Ok f1
    /\ ValidationEngine.duplication_rule jobcard session = Ok f2
    /\ ValidationEngine.awc_rule jobcard session = Ok f3
    /\ ValidationEngine.split_candidate_rule jobcard session = Ok f4
    /\ ValidationEngine.qty_mismatch_rule jobcard session = Ok f5
    /\ flags = keyed_from (Session.next_flag_id session) (f1 ++ f2 ++ f3 ++ f4 ++ f5)
    /\ (Session.employees session' = Session.employees session
        /\ Session.activity_codes session' = Session.activity_codes session
        /\ Session.work_orders session' = Session.work_orders session
        /\ Session.job_cards session' = Session.job_cards session
        /\ Session.efficiency_periods session' = Session.efficiency_periods session
        /\ Session.next_period_id session' = Session.next_period_id session).
Proof.
  rewrite run_for_jobcard_unfold; intro H.
  destruct (ValidationEngine.msd_window_rule jobcard session) as [f1|];
    cbn [bind] in H; [|discriminate H].
  destruct (ValidationEngine.duplication_rule jobcard session) as [f2|];
    cbn [bind] in H; [|discriminate H].
  destruct (ValidationEngine.awc_rule jobcard session) as [f3|];
    cbn [bind] in H; [|discriminate H].
  destruct (ValidationEngine.split_candidate_rule jobcard session) as [f4|];
    cbn [bind] in H; [|discriminate H].
  destruct (ValidationEngine.qty_mismatch_rule jobcard session) as [f5|];
    cbn [bind] in H; [|discriminate H].
  exists f1, f2, f3, f4, f5; repeat (split; [reflexivity|]).
  set (raw := f1 ++ f2 ++ f3 ++ f4 ++ f5) in *.
  set (cleared := ValidationEngine._clear_existing_flags (JobCard.id jobcard) session)
    in *.
  pose proof (add_all_spec raw cleared) as S.
  pose proof (add_all_frame raw cleared) as F.
  destruct (ValidationEngine.add_all raw cleared) as [s2 out].
  injection H as <- <-; destruct S as (-> & _ & _); cbn [fst] in F.
  pose proof (delete_flags_frame
                (filter (fun f => (ValidationFlag.job_card_id f =? JobCard.id jobcard)
                                  && negb (ValidationFlag.resolved f))
                        (Session.validation_flags session)) session) as D.
  cbv zeta in D.
  change (fold_left _ _ session) with cleared in D.
  destruct D as (D1 & D2 & D3 & D4 & D5 & D6 & D7).
  destruct F as (F1 & F2 & F3 & F4 & F5 & F6).
  split; [now rewrite D7|].
  repeat split; congruence.
Qed.

Lemma keyed_from_Forall (holds : ValidationFlag.t -> Prop) (i : Z)
  (flags : list ValidationFlag.t) :
  (forall k f, holds f -> holds (keyed k f)) ->
  Forall holds flags -> Forall holds (keyed_from i flags).
Proof.
  intros K H; revert i; induction H as [|f flags Hf _ IH]; intro i;
    cbn [keyed_from]; constructor; auto.
Qed.

Lemma keyed_from_filter (keep : ValidationFlag.t -> bool) (i : Z)
  (flags : list ValidationFlag.t) :
  (forall k f, keep (keyed k f) = keep f) ->
  map unkeyed (filter keep (keyed_from i flags)) = map unkeyed (filter keep flags).
Proof.
  intro K; revert i; induction flags as [|f flags IH]; intro i;
    cbn [keyed_from filter]; [reflexivity|].
  rewrite K; destruct (keep f); cbn [map]; rewrite IH; reflexivity.
Qed.

Lemma filter_one_type (ty ty' : FlagTypeEnum) (flags : list ValidationFlag.t) :
  Forall (fun f => ValidationFlag.flag_type f = ty) flags ->
  filter (of_flag_type ty') flags = if FlagTypeEnum_eqb ty ty' then flags else [].
Proof.
  intro H; induction H as [|f flags Hf _ IH]; cbn [filter].
  - now destruct (FlagTypeEnum_eqb ty ty').
  - unfold of_flag_type at 1; rewrite Hf, IH.
    now destruct (FlagTypeEnum_eqb ty ty').
Qed.

Lemma raised_on_type (job_card_id : Z) (ty : FlagTypeEnum)
  (flags : list ValidationFlag.t) :
  Forall (raised_on job_card_id ty) flags ->
  Forall (fun f => ValidationFlag.flag_type f = ty) flags.
Proof. apply Forall_impl; unfold raised_on; tauto. Qed.

Lemma length_map_unkeyed_filter (keep : ValidationFlag.t -> bool) (i : Z)
  (flags : list ValidationFlag.t) :
  (forall k f, keep (keyed k f) = keep f) ->
  List.length (filter keep (keyed_from i flags)) = List.length (filter keep flags).
Proof.
  intro K.
  rewrite <- (length_map unkeyed), (keyed_from_filter keep i flags K).
  apply length_map.
Qed.

End RunFacts.

(** ** What the rules and the run guarantee *)

Section EngineProperties.

Open Scope Z_scope.

(** X1.  The duplication rule, for a card whose work order is found: the query
    for duplicates returns the other cards with the same machine, work
    order and activity, the restriction to work orders of the same MSD
    month adding nothing (a duplicate has the card's own work order); the
    rule returns one unresolved DUPLICATION flag on the card when there is
    such a card, whatever their number, and no flag otherwise. *)
Theorem duplication_rule_flags_a_card_with_a_twin
  (jobcard : JobCard.t) (session : Session.t) (work_order : WorkOrder.t) :
  Session.get_work_order session (JobCard.work_order_id jobcard) = Ok (Some work_order) ->
  exists flags,
    ValidationEngine.duplication_rule jobcard session = Ok flags
    /\ List.length flags
       = (if existsb (twin jobcard) (Session.job_cards session) then 1 else 0)%nat
    /\ Forall (raised_on (JobCard.id jobcard) DUPLICATION) flags.
Proof.
  intro H; unfold ValidationEngine.duplication_rule.
  rewrite H; cbn [bind]; cbv zeta.
  rewrite (duplicates_are_twins jobcard session work_order H), existsb_filter.
  destruct (filter (twin jobcard) (Session.job_cards session)) as [|d ds] eqn:F.
  - exists []; split; [reflexivity|]; split; [reflexivity | constructor].
  - eexists; split; [reflexivity|]; split; [reflexivity|].
    constructor; [|constructor].
    unfold raised_on, ValidationEngine.new_flag; cbn; tauto.
Qed.

(** The theorem at a card with two twins and at a card with none. *)
Lemma duplication_rule_flags_a_card_with_a_twin_witness :
  let c1 := sample_card 1 1 (of_int 50) (of_int 5) C (Date 2024 11 5) in
  let c2 := sample_card 2 2 (of_int 20) (of_int 2) C (Date 2024 11 5) in
  let c3 := sample_card 3 3 (of_int 30) (of_int 3) IC (Date 2024 11 6) in
  let session := sample_session [c1; c2; c3] [] in
  Session.get_work_order session (JobCard.work_order_id c1) = Ok (Some sample_work_order)
  /\ exists flags,
       ValidationEngine.duplication_rule c1 session = Ok flags
       /\ List.length flags = 1%nat
       /\ Forall (raised_on 1 DUPLICATION) flags.
Proof.
  intros c1 c2 c3 session; split; [reflexivity|].
  exact (duplication_rule_flags_a_card_with_a_twin c1 session sample_work_order eq_refl).
Defined.

(** X2.  Duplication is mutual: of two stored cards with the same machine, work
    order and activity, the work order being found, the rule flags either
    one when run on it, one DUPLICATION flag each. *)
Theorem duplication_rule_flags_both_twins
  (a b : JobCard.t) (session : Session.t) (work_order : WorkOrder.t) :
  In a (Session.job_cards session) ->
  In b (Session.job_cards session) ->
  Session.get_work_order session (JobCard.work_order_id a) = Ok (Some work_order) ->
  twin a b = true ->
  exists fa fb,
    ValidationEngine.duplication_rule a session = Ok [fa]
    /\ ValidationEngine.duplication_rule b session = Ok [fb]
    /\ raised_on (JobCard.id a) DUPLICATION fa
    /\ raised_on (JobCard.id b) DUPLICATION fb.
Proof.
  intros Ha Hb Hwo T.
  assert (Wb : JobCard.work_order_id b = JobCard.work_order_id a).
  { pose proof (proj1 (get_work_order_found _ _ _ Hwo)) as W.
    unfold twin in T; rewrite W in T |- *.
    destruct (JobCard.work_order_id b) as [k|];
      [|now rewrite !andb_false_r in T].
    destruct (Z.eqb_spec k (WorkOrder.id work_order)) as [->|N]; [reflexivity|].
    cbn [Session.sql_eq] in T.
    replace (k =? WorkOrder.id work_order) with false in T
      by (symmetry; now apply Z.eqb_neq).
    now rewrite !andb_false_r in T. }
  assert (One : forall c,
             Session.get_work_order session (JobCard.work_order_id c)
             = Ok (Some work_order) ->
             existsb (twin c) (Session.job_cards session) = true ->
             exists f, ValidationEngine.duplication_rule c session = Ok [f]
                       /\ raised_on (JobCard.id c) DUPLICATION f).
  { intros c Hc Ex.
    destruct (duplication_rule_found c session work_order Hc) as (flags & R & L & All).
    rewrite Ex in L.
    destruct flags as [|f [|g flags]]; try discriminate L.
    exists f; split; [exact R|]; now inversion All. }
  destruct (One a Hwo) as (fa & Ra & Pa);
    [apply existsb_exists; exists b; tauto|].
  destruct (One b) as (fb & Rb & Pb);
    [now rewrite Wb | apply existsb_exists; exists a; rewrite twin_sym; tauto|].
  exists fa, fb; tauto.
Qed.

Lemma duplication_rule_flags_both_twins_witness :
  let c1 := sample_card 1 1 (of_int 50) (of_int 5) C (Date 2024 11 5) in
  let c2 := sample_card 2 2 (of_int 20) (of_int 2) C (Date 2024 11 5) in
  let session := sample_session [c1; c2] [] in
  twin c1 c2 = true
  /\ exists fa fb,
       ValidationEngine.duplication_rule c1 session = Ok [fa]
       /\ ValidationEngine.duplication_rule c2 session = Ok [fb]
       /\ raised_on 1 DUPLICATION fa
       /\ raised_on 2 DUPLICATION fb.
Proof.
  intros c1 c2 session; split; [reflexivity|].
  exact (duplication_rule_flags_both_twins c1 c2 session sample_work_order
           (or_introl eq_refl) (or_intror (or_introl eq_refl)) eq_refl eq_refl).
Defined.

Lemma rules_without_work_order (jobcard : JobCard.t) (session : Session.t) :
  Session.get_work_order session (JobCard.work_order_id jobcard) = Ok None ->
  ValidationEngine.msd_window_rule jobcard session = Ok []
  /\ ValidationEngine.duplication_rule jobcard session = Ok []
  /\ ValidationEngine.qty_mismatch_rule jobcard session = Ok [].
Proof.
  intro H.
  unfold ValidationEngine.msd_window_rule, ValidationEngine.duplication_rule,
    ValidationEngine.qty_mismatch_rule.
  rewrite H; repeat split.
Qed.

(** X3.  A card whose work order is not in the table (the key is NULL or
    dangling) is not an error: the run completes, the window, duplication
    and quantity rules return nothing, and the answer holds only AWC and
    SPLIT_CANDIDATE flags. *)
Theorem run_without_work_order_checks_activity_and_split_only
  (jobcard : JobCard.t) (session : Session.t) :
  Session.get_work_order session (JobCard.work_order_id jobcard) = Ok None ->
  exists session' flags,
    ValidationEngine.run_for_jobcard ValidationEngine.init jobcard session
    = Ok (session', flags)
    /\ Forall (fun f => ValidationFlag.flag_type f = AWC
                        \/ ValidationFlag.flag_type f = SPLIT_CANDIDATE) flags.
Proof.
  intro H; destruct (rules_without_work_order _ _ H) as (R1 & R2 & R5).
  destruct (awc_rule_shape jobcard session) as (f3 & R3 & _ & A3).
  destruct (split_candidate_rule_shape jobcard session) as (f4 & R4 & A4).
  rewrite run_for_jobcard_unfold, R1, R2, R3, R4, R5; cbn [bind app].
  rewrite app_nil_r.
  pose proof (add_all_spec (f3 ++ f4)
                (ValidationEngine._clear_existing_flags (JobCard.id jobcard) session))
    as S.
  destruct (ValidationEngine.add_all (f3 ++ f4) _) as [s2 out].
  destruct S as (-> & _ & _).
  exists s2; eexists; split; [reflexivity|].
  apply keyed_from_Forall; [intros k f T; exact T|].
  apply Forall_app; split.
  - eapply Forall_impl; [|exact A3]; unfold raised_on; tauto.
  - eapply Forall_impl; [|exact A4]; cbv beta; tauto.
Qed.

Lemma run_without_work_order_checks_activity_and_split_only_witness :
  let orphan := JobCard.Build 9 (Some 1) (Some 1) None None (of_int 500) (of_int 5) C
                  (Date 2020 1 1) in
  let session := sample_session [orphan] [] in
  exists session' flags,
    ValidationEngine.run_for_jobcard ValidationEngine.init orphan session
    = Ok (session', flags)
    /\ Forall (fun f => ValidationFlag.flag_type f = AWC
                        \/ ValidationFlag.flag_type f = SPLIT_CANDIDATE) flags.
Proof.
  intros orphan session.
  exact (run_without_work_order_checks_activity_and_split_only orphan session eq_refl).
Defined.

Lemma two_digit_reads_back (m : Z) : 13 <= m <= 99 -> reads_back 2 m = true.
Proof.
  intro H; apply (forallb_range (reads_back 2) 13 87); [|lia].
  vm_compute; reflexivity.
Qed.

(** X4.  A work order whose [msd_month] cannot be read aborts the run: when the
    text has no dash, or names a month from 13 to 99, the window rule
    raises ValueError, and so does the run of the engine, before any flag
    is deleted or stored. *)
Theorem run_raises_on_unreadable_msd_month
  (jobcard : JobCard.t) (session : Session.t) (work_order : WorkOrder.t) :
  Session.get_work_order session (JobCard.work_order_id jobcard) = Ok (Some work_order) ->
  no_dash (WorkOrder.msd_month work_order) = true
  \/ (exists y m, WorkOrder.msd_month work_order = msd_text y m
                  /\ 1 <= y <= 9999 /\ 13 <= m <= 99) ->
  ValidationEngine.msd_window_rule jobcard session = Raise ValueError
  /\ ValidationEngine.run_for_jobcard ValidationEngine.init jobcard session
     = Raise ValueError.
Proof.
  intros Hwo Bad.
  assert (R : ValidationEngine.msd_window_rule jobcard session = Raise ValueError).
  { unfold ValidationEngine.msd_window_rule; rewrite Hwo; cbn [bind].
    destruct Bad as [D|(y & m & E & Hy & Hm)].
    - unfold ValidationEngine.parse_msd_month; rewrite (split_no_dash _ D); reflexivity.
    - assert (P : ValidationEngine.parse_msd_month (WorkOrder.msd_month work_order)
                  = Ok (y, m)).
      { rewrite E.
        destruct (reads_back_spec _ _ (year_reads_back y Hy)) as [Dy Iy].
        destruct (reads_back_spec _ _ (two_digit_reads_back m Hm)) as [Dm Im].
        unfold ValidationEngine.parse_msd_month, msd_text.
        rewrite (split_one_dash _ _ Dy Dm), Iy; cbn [bind]; rewrite Im; reflexivity. }
      rewrite P; cbn [bind fst snd].
      unfold ValidationEngine.msd_window, mk_date.
      replace (m <=? 12) with false by (symmetry; apply Z.leb_gt; lia).
      rewrite andb_false_r; reflexivity. }
  split; [exact R|].
  rewrite run_for_jobcard_unfold, R; reflexivity.
Qed.

Lemma run_raises_on_unreadable_msd_month_witness :
  let card := sample_card 1 1 (of_int 50) (of_int 5) C (Date 2024 11 5) in
  let undashed := month_session "202411" [card] in
  let thirteenth := month_session "2024-13" [card] in
  (ValidationEngine.msd_window_rule card undashed = Raise ValueError
   /\ ValidationEngine.run_for_jobcard ValidationEngine.init card undashed
      = Raise ValueError)
  /\ (ValidationEngine.msd_window_rule card thirteenth = Raise ValueError
      /\ ValidationEngine.run_for_jobcard ValidationEngine.init card thirteenth
         = Raise ValueError).
Proof.
  intros card undashed thirteenth; split.
  - exact (run_raises_on_unreadable_msd_month card undashed
             (WorkOrder.Build 1 1 (of_int 100) "202411") eq_refl (or_introl eq_refl)).
  - apply (run_raises_on_unreadable_msd_month card thirteenth
             (WorkOrder.Build 1 1 (of_int 100) "2024-13") eq_refl).
    right; exists 2024, 13; split; [reflexivity | lia].
Defined.

(** X5.  The flags of a completed run, by type: AWC is raised exactly once when
    the card has no activity code and never otherwise, and always on the
    card itself. *)
Theorem run_raises_awc_exactly_for_a_card_without_activity
  (jobcard : JobCard.t) (session session' : Session.t)
  (flags : list ValidationFlag.t) :
  ValidationEngine.run_for_jobcard ValidationEngine.init jobcard session
  = Ok (session', flags) ->
  List.length (filter (of_flag_type AWC) flags)
  = match JobCard.activity_code_id jobcard with None => 1 | Some _ => 0 end%nat
  /\ Forall (fun f => ValidationFlag.flag_type f = AWC ->
                      ValidationFlag.job_card_id f = JobCard.id jobcard) flags.
Proof.
  intro H.
  destruct (run_for_jobcard_answer _ _ _ _ H)
    as (f1 & f2 & f3 & f4 & f5 & R1 & R2 & R3 & R4 & R5 & -> & _).
  pose proof (msd_window_rule_shape _ _ _ R1) as A1.
  pose proof (duplication_rule_shape _ _ _ R2) as A2.
  destruct (awc_rule_shape jobcard session) as (f3' & R3' & L3 & A3).
  rewrite R3 in R3'; injection R3' as <-.
  destruct (split_candidate_rule_shape jobcard session) as (f4' & R4' & A4).
  rewrite R4 in R4'; injection R4' as <-.
  pose proof (qty_mismatch_rule_shape _ _ _ R5) as A5.
  split.
  - rewrite length_map_unkeyed_filter by reflexivity.
    rewrite !filter_app.
    rewrite (filter_one_type _ AWC f1 (raised_on_type _ _ _ A1)),
      (filter_one_type _ AWC f2 (raised_on_type _ _ _ A2)),
      (filter_one_type _ AWC f3 (raised_on_type _ _ _ A3)),
      (filter_one_type SPLIT_CANDIDATE AWC f4),
      (filter_one_type _ AWC f5 (raised_on_type _ _ _ A5)).
    + cbn [FlagTypeEnum_eqb app]; now rewrite app_nil_r.
    + eapply Forall_impl; [|exact A4]; cbv beta; tauto.
  - apply keyed_from_Forall; [intros k f T; exact T|].
    repeat (apply Forall_app; split).
    + eapply Forall_impl; [|exact A1]; unfold raised_on; tauto.
    + eapply Forall_impl; [|exact A2]; unfold raised_on; tauto.
    + eapply Forall_impl; [|exact A3]; unfold raised_on; tauto.
    + eapply Forall_impl; [|exact A4]; cbv beta.
      intros f (T & _) E; rewrite T in E; discriminate E.
    + eapply Forall_impl; [|exact A5]; unfold raised_on; tauto.
Qed.

Lemma run_raises_awc_exactly_for_a_card_without_activity_witness :
  let uncoded := JobCard.Build 1 (Some 1) (Some 1) (Some 1) None (of_int 4) (of_int 8) C
                   (Date 2024 11 5) in
  let session := sample_session [uncoded] [] in
  exists session' flags,
    ValidationEngine.run_for_jobcard ValidationEngine.init uncoded session
    = Ok (session', flags)
    /\ List.length (filter (of_flag_type AWC) flags) = 1%nat
    /\ Forall (fun f => ValidationFlag.flag_type f = AWC ->
                        ValidationFlag.job_card_id f = 1) flags.
Proof.
  intros uncoded session.
  destruct (ValidationEngine.run_for_jobcard ValidationEngine.init uncoded session)
    as [[session' flags]|] eqn:R; [|discriminate R].
  exists session', flags; split; [reflexivity|].
  exact (run_raises_awc_exactly_for_a_card_without_activity uncoded session session'
           flags R).
Defined.

(** X6.  A run writes onto another card only as rule 4 does: every flag of the
    answer that is not addressed to the card is a SPLIT_CANDIDATE flag,
    the card is Incomplete, and the flag is addressed to a stored Complete
    card of the same work order and activity by a different employee.  A
    run on a Complete card therefore flags that card only. *)
Theorem run_flags_other_cards_only_as_split_candidates
  (jobcard : JobCard.t) (session session' : Session.t)
  (flags : list ValidationFlag.t) :
  ValidationEngine.run_for_jobcard ValidationEngine.init jobcard session
  = Ok (session', flags) ->
  Forall (fun f =>
            ValidationFlag.job_card_id f <> JobCard.id jobcard ->
            ValidationFlag.flag_type f = SPLIT_CANDIDATE
            /\ JobCard.status jobcard = IC
            /\ exists other,
                 In other (Session.job_cards session)
                 /\ JobCard.id other = ValidationFlag.job_card_id f
                 /\ JobCard.status other = C
                 /\ Session.sql_eq (JobCard.work_order_id other)
                      (JobCard.work_order_id jobcard) = true
                 /\ Session.sql_eq (JobCard.activity_code_id other)
                      (JobCard.activity_code_id jobcard) = true
                 /\ Session.sql_ne (JobCard.employee_id other)
                      (JobCard.employee_id jobcard) = true)
         flags.
Proof.
  intro H.
  destruct (run_for_jobcard_answer _ _ _ _ H)
    as (f1 & f2 & f3 & f4 & f5 & R1 & R2 & R3 & R4 & R5 & -> & _).
  pose proof (msd_window_rule_shape _ _ _ R1) as A1.
  pose proof (duplication_rule_shape _ _ _ R2) as A2.
  destruct (awc_rule_shape jobcard session) as (f3' & R3' & L3 & A3).
  rewrite R3 in R3'; injection R3' as <-.
  destruct (split_candidate_rule_shape jobcard session) as (f4' & R4' & A4).
  rewrite R4 in R4'; injection R4' as <-.
  pose proof (qty_mismatch_rule_shape _ _ _ R5) as A5.
  apply keyed_from_Forall; [intros k f T; exact T|].
  assert (Own : forall ty l, Forall (raised_on (JobCard.id jobcard) ty) l ->
                             Forall (fun f => ValidationFlag.job_card_id f
                                              = JobCard.id jobcard) l)
    by (intros ty l; apply Forall_impl; unfold raised_on; tauto).
  repeat (apply Forall_app; split);
    try (eapply Forall_impl; [|eapply Own; eassumption]; cbv beta;
         intros f E N; contradiction).
  eapply Forall_impl; [|exact A4]; cbv beta.
  intros f (T & _ & St & [E|(other & Ho & E)]) N; [contradiction|].
  split; [exact T|]; split; [exact St|].
  exists other.
  unfold ValidationEngine.completed_by_others in Ho.
  apply filter_In in Ho; destruct Ho as [Hin Q].
  repeat (apply andb_prop in Q; destruct Q as [Q ?]).
  repeat split; auto.
  destruct (JobCard.status other); [discriminate | reflexivity].
Qed.

Lemma run_flags_other_cards_only_as_split_candidates_witness :
  let c1 := sample_card 1 1 (of_int 50) (of_int 5) C (Date 2024 11 5) in
  let c3 := sample_card 3 3 (of_int 30) (of_int 3) IC (Date 2024 11 6) in
  let session := sample_session [c1; c3] [] in
  exists session' flags,
    ValidationEngine.run_for_jobcard ValidationEngine.init c3 session
    = Ok (session', flags)
    /\ map ValidationFlag.job_card_id (filter (of_flag_type SPLIT_CANDIDATE) flags)
       = [3; 1]
    /\ Forall (fun f => ValidationFlag.job_card_id f <> 3 ->
                        ValidationFlag.flag_type f = SPLIT_CANDIDATE) flags.
Proof.
  intros c1 c3 session.
  destruct (ValidationEngine.run_for_jobcard ValidationEngine.init c3 session)
    as [[session' flags]|] eqn:R; [|discriminate R].
  exists session', flags; split; [reflexivity|].
  split; [injection R as _ <-; reflexivity|].
  eapply Forall_impl;
    [|exact (run_flags_other_cards_only_as_split_candidates c3 session session'
               flags R)].
  cbv beta; intros f T N; exact (proj1 (T N)).
Defined.



End EngineProperties.

(** ** Running the engine again, and what a run leaves alone *)

Section Rerun.

Open Scope Z_scope.

(** The rules read the job cards and the work orders, nothing else. *)
Lemma rules_read_cards_and_work_orders (jobcard : JobCard.t) (s s' : Session.t) :
  Session.job_cards s' = Session.job_cards s ->
  Session.work_orders s' = Session.work_orders s ->
  ValidationEngine.msd_window_rule jobcard s' = ValidationEngine.msd_window_rule jobcard s
  /\ ValidationEngine.duplication_rule jobcard s'
     = ValidationEngine.duplication_rule jobcard s
  /\ ValidationEngine.awc_rule jobcard s' = ValidationEngine.awc_rule jobcard s
  /\ ValidationEngine.split_candidate_rule jobcard s'
     = ValidationEngine.split_candidate_rule jobcard s
  /\ ValidationEngine.qty_mismatch_rule jobcard s'
     = ValidationEngine.qty_mismatch_rule jobcard s.
Proof.
  intros J W.
  unfold ValidationEngine.msd_window_rule, ValidationEngine.duplication_rule,
    ValidationEngine.awc_rule, ValidationEngine.split_candidate_rule,
    ValidationEngine.qty_mismatch_rule, ValidationEngine.completed_by_others,
    Session.get_work_order.
  rewrite J, W; repeat split.
Qed.

(** The card's unresolved flags after a run are the flags the answer
    addresses to it; another card's are its earlier ones followed by those
    the answer addresses to it; and the primary key is kept. *)
Lemma run_for_jobcard_unresolved (jobcard : JobCard.t) (session session' : Session.t)
  (flags : list ValidationFlag.t) :
  flags_keyed session ->
  ValidationEngine.run_for_jobcard ValidationEngine.init jobcard session
  = Ok (session', flags) ->
  unresolved_flags (JobCard.id jobcard) session' = flags_for (JobCard.id jobcard) flags
  /\ (forall other,
        other <> JobCard.id jobcard ->
        unresolved_flags other session'
        = unresolved_flags other session ++ flags_for other flags)
  /\ flags_keyed session'.
Proof.
  intros K H.
  destruct (run_for_jobcard_table _ _ _ _ _ K init_builds_unresolved H)
    as (Tab & Unres & Keys & Next).
  assert (U : forall c, filter (unresolved_of c) flags = flags_for c flags).
  { intro c; apply filter_ext_in; intros f Hf; unfold unresolved_of.
    rewrite Forall_forall in Unres; rewrite (Unres f Hf); apply andb_true_r. }
  split; [|split].
  - unfold unresolved_flags; rewrite Tab, filter_app, U, filter_filter_twice.
    rewrite filter_none; [reflexivity|].
    intros g _; destruct (unresolved_of (JobCard.id jobcard) g); reflexivity.
  - intros other Ho.
    unfold unresolved_flags; rewrite Tab, filter_app, U, filter_filter_twice; f_equal.
    apply filter_ext; intro g; unfold unresolved_of.
    destruct (Z.eqb_spec (ValidationFlag.job_card_id g) other) as [E|E];
      [|now rewrite andb_false_r].
    destruct (Z.eqb_spec (ValidationFlag.job_card_id g) (JobCard.id jobcard));
      [congruence | reflexivity].
  - destruct K as [N B]; split.
    + rewrite Tab, map_app; apply NoDup_app.
      * now apply NoDup_map_filter.
      * rewrite Keys; apply NoDup_map_NoDup_ForallPairs; [|apply seq_NoDup].
        intros a b _ _ E; injection E; lia.
      * intros k Hk Hk'; rewrite Keys in Hk'.
        apply in_map_iff in Hk; destruct Hk as (g & Eg & Hg).
        apply filter_In in Hg; destruct Hg as [Hg _].
        rewrite Forall_forall in B; destruct (B g Hg) as (i & Ei & Li).
        apply in_map_iff in Hk'; destruct Hk' as (n & En & _).
        rewrite <- Eg, Ei in En; injection En; lia.
    + rewrite Next, Tab; apply Forall_app; split.
      * rewrite Forall_forall in B |- *.
        intros g Hg; apply filter_In in Hg; destruct (B g (proj1 Hg)) as (i & Ei & Li).
        exists i; split; [exact Ei | lia].
      * apply Forall_forall; intros f Hf.
        apply (in_map ValidationFlag.id) in Hf; rewrite Keys in Hf.
        apply in_map_iff in Hf; destruct Hf as (n & En & Hn).
        apply in_seq in Hn; eexists; split; [symmetry; exact En | lia].
Qed.

(** X8.  Running the engine on a card a second time, nothing else having
    changed, completes and gives the first answer again under new keys, and
    the card's unresolved flags are again that answer: on the card itself
    the run is idempotent.  On any other card it is not: the flags the
    answer addresses to that card are stored once more at every run. *)
Theorem rerun_repeats_the_answer_and_piles_up_on_other_cards
  (jobcard : JobCard.t) (session s1 : Session.t) (flags1 : list ValidationFlag.t) :
  flags_keyed session ->
  ValidationEngine.run_for_jobcard ValidationEngine.init jobcard session
  = Ok (s1, flags1) ->
  exists s2 flags2,
    ValidationEngine.run_for_jobcard ValidationEngine.init jobcard s1 = Ok (s2, flags2)
    /\ map unkeyed flags2 = map unkeyed flags1
    /\ map unkeyed (unresolved_flags (JobCard.id jobcard) s2)
       = map unkeyed (unresolved_flags (JobCard.id jobcard) s1)
    /\ forall other,
         other <> JobCard.id jobcard ->
         List.length (unresolved_flags other s2)
         = (List.length (unresolved_flags other s1)
            + List.length (flags_for other flags1))%nat.
Proof.
  intros K H.
  destruct (run_for_jobcard_unresolved _ _ _ _ K H) as (Own1 & _ & K1).
  destruct (run_for_jobcard_answer _ _ _ _ H)
    as (f1 & f2 & f3 & f4 & f5 & R1 & R2 & R3 & R4 & R5 & E1 & Fr).
  destruct Fr as (_ & _ & W & J & _ & _).
  destruct (rules_read_cards_and_work_orders jobcard session s1 J W)
    as (Q1 & Q2 & Q3 & Q4 & Q5).
  destruct (ValidationEngine.run_for_jobcard ValidationEngine.init jobcard s1)
    as [[s2 flags2]|e] eqn:H2.
  2: { rewrite run_for_jobcard_unfold, Q1, Q2, Q3, Q4, Q5, R1, R2, R3, R4, R5 in H2.
       discriminate H2. }
  exists s2, flags2; split; [reflexivity|].
  destruct (run_for_jobcard_unresolved _ _ _ _ K1 H2) as (Own2 & Other2 & _).
  destruct (run_for_jobcard_answer _ _ _ _ H2)
    as (g1 & g2 & g3 & g4 & g5 & P1 & P2 & P3 & P4 & P5 & E2 & _).
  rewrite Q1, R1 in P1; rewrite Q2, R2 in P2; rewrite Q3, R3 in P3;
    rewrite Q4, R4 in P4; rewrite Q5, R5 in P5.
  injection P1 as <-; injection P2 as <-; injection P3 as <-;
    injection P4 as <-; injection P5 as <-.
  set (raw := f1 ++ f2 ++ f3 ++ f4 ++ f5) in *.
  assert (Same : forall keep : ValidationFlag.t -> bool,
             (forall k f, keep (keyed k f) = keep f) ->
             map unkeyed (filter keep flags2) = map unkeyed (filter keep flags1)).
  { intros keep Inv; rewrite E1, E2, !keyed_from_filter by exact Inv; reflexivity. }
  split; [|split].
  - rewrite <- (filter_true flags1), <- (filter_true flags2).
    apply Same; reflexivity.
  - rewrite Own1, Own2; apply Same; reflexivity.
  - intros other Ho; rewrite (Other2 other Ho), length_app; f_equal.
    unfold flags_for.
    rewrite <- (length_map unkeyed), Same by reflexivity.
    apply length_map.
Qed.

(** The theorem at an Incomplete card with one Complete sibling: after the
    second run the sibling holds two SPLIT_CANDIDATE flags. *)
Lemma rerun_repeats_the_answer_and_piles_up_on_other_cards_witness :
  let c1 := sample_card 1 1 (of_int 50) (of_int 5) C (Date 2024 11 5) in
  let c3 := sample_card 3 3 (of_int 30) (of_int 3) IC (Date 2024 11 6) in
  let session := sample_session [c1; c3] [] in
  exists s1 flags1 s2 flags2,
    ValidationEngine.run_for_jobcard ValidationEngine.init c3 session = Ok (s1, flags1)
    /\ ValidationEngine.run_for_jobcard ValidationEngine.init c3 s1 = Ok (s2, flags2)
    /\ map unkeyed flags2 = map unkeyed flags1
    /\ map unkeyed (unresolved_flags 3 s2) = map unkeyed (unresolved_flags 3 s1)
    /\ List.length (unresolved_flags 1 s1) = 1%nat
    /\ List.length (unresolved_flags 1 s2) = 2%nat.
Proof.
  intros c1 c3 session.
  destruct (ValidationEngine.run_for_jobcard ValidationEngine.init c3 session)
    as [[s1 flags1]|] eqn:R; [|discriminate R].
  destruct (rerun_repeats_the_answer_and_piles_up_on_other_cards c3 session s1 flags1
              (sample_session_keyed [c1; c3]) R)
    as (s2 & flags2 & R2 & A & B & D).
  exists s1, flags1, s2, flags2.
  split; [reflexivity|]; split; [exact R2|]; split; [exact A|]; split; [exact B|].
  assert (L1 : List.length (unresolved_flags 1 s1) = 1%nat)
    by (injection R as <- _; reflexivity).
  split; [exact L1|].
  rewrite (D 1 ltac:(discriminate)), L1.
  injection R as _ <-; reflexivity.
Defined.

(** The efficiency computation reads the job cards and the activity codes
    and writes the period table. *)
Lemma upsert_reads_periods (employee_id : Z) (period_start period_end : date)
  (data : EfficiencyEngine.Payload.t) (s s' : Session.t) :
  Session.efficiency_periods s' = Session.efficiency_periods s ->
  Session.next_period_id s' = Session.next_period_id s ->
  Session.efficiency_periods
    (EfficiencyEngine._upsert_efficiency_period employee_id period_start period_end
       data s')
  = Session.efficiency_periods
      (EfficiencyEngine._upsert_efficiency_period employee_id period_start period_end
         data s).
Proof.
  intros P N; unfold EfficiencyEngine._upsert_efficiency_period.
  rewrite P, N.
  destruct (filter _ (Session.efficiency_periods s)) as [|first [|d dups]];
    reflexivity.
Qed.

Lemma fetch_reads_cards_and_activities (employee_id : Z) (period_start period_end : date)
  (s s' : Session.t) :
  Session.job_cards s' = Session.job_cards s ->
  Session.activity_codes s' = Session.activity_codes s ->
  EfficiencyEngine._fetch_employee_jobcards employee_id period_start period_end s'
  = EfficiencyEngine._fetch_employee_jobcards employee_id period_start period_end s.
Proof.
  intros J A; unfold EfficiencyEngine._fetch_employee_jobcards.
  rewrite J, A; reflexivity.
Qed.

(** X9.  Validation and efficiency do not interact: after a run of the engine
    the efficiency computation returns, for any employee and period, the
    dictionary it returned before the run and leaves the same period
    table.  No flag, resolved or not, changes an efficiency. *)
Theorem validation_run_leaves_efficiency_unchanged
  (jobcard : JobCard.t) (session session' : Session.t)
  (flags : list ValidationFlag.t)
  (employee_id : Z) (period_start period_end : date) :
  ValidationEngine.run_for_jobcard ValidationEngine.init jobcard session
  = Ok (session', flags) ->
  exists after after' payload,
    EfficiencyEngine.compute_employee_efficiency employee_id period_start period_end
      session = Ok (after, payload)
    /\ EfficiencyEngine.compute_employee_efficiency employee_id period_start period_end
         session' = Ok (after', payload)
    /\ Session.efficiency_periods after' = Session.efficiency_periods after.
Proof.
  intro H.
  destruct (run_for_jobcard_answer _ _ _ _ H)
    as (f1 & f2 & f3 & f4 & f5 & _ & _ & _ & _ & _ & _ & Fr).
  destruct Fr as (_ & A & _ & J & P & N).
  unfold EfficiencyEngine.compute_employee_efficiency.
  rewrite (fetch_reads_cards_and_activities _ _ _ _ _ J A).
  destruct (accumulate_rows
              (EfficiencyEngine._fetch_employee_jobcards employee_id period_start
                 period_end session) EfficiencyEngine.totals0) as (t & R & _).
  rewrite R; cbn [bind]; rewrite ratios_Ok; cbn [bind].
  do 3 eexists; split; [reflexivity|]; split; [reflexivity|].
  now apply upsert_reads_periods.
Qed.

Lemma validation_run_leaves_efficiency_unchanged_witness :
  let c1 := sample_card 1 1 (of_int 50) (of_int 5) C (Date 2024 11 5) in
  let c3 := sample_card 3 3 (of_int 30) (of_int 3) IC (Date 2024 11 6) in
  let session := sample_session [c1; c3] [] in
  exists session' flags after after' payload,
    ValidationEngine.run_for_jobcard ValidationEngine.init c3 session
    = Ok (session', flags)
    /\ List.length flags = 3%nat
    /\ EfficiencyEngine.compute_employee_efficiency 1 (Date 2024 11 1) (Date 2024 11 30)
         session = Ok (after, payload)
    /\ EfficiencyEngine.compute_employee_efficiency 1 (Date 2024 11 1) (Date 2024 11 30)
         session' = Ok (after', payload)
    /\ Session.efficiency_periods after' = Session.efficiency_periods after.
Proof.
  intros c1 c3 session.
  destruct (ValidationEngine.run_for_jobcard ValidationEngine.init c3 session)
    as [[session' flags]|] eqn:R; [|discriminate R].
  destruct (validation_run_leaves_efficiency_unchanged c3 session session' flags
              1 (Date 2024 11 1) (Date 2024 11 30) R)
    as (after & after' & payload & A & B & D).
  exists session', flags, after, after', payload.
  split; [reflexivity|].
  split; [injection R as _ <-; reflexivity|].
  tauto.
Defined.

End Rerun.

(** ** The efficiency computation: empty periods, recomputation *)

Section EfficiencyProperties.

Open Scope Qc_scope.

(** X11.  An employee with no card in the period gets a snapshot of zeros, not
    an error: every efficiency, the AWC share and both hour totals are 0,
    and (under the primary key of the period table) the snapshot is still
    stored: the key has one row, holding those zeros. *)
Theorem employee_without_cards_gets_a_snapshot_of_zeros
  (employee_id : Z) (period_start period_end : date) (session : Session.t) :
  periods_keyed session ->
  period_cards employee_id period_start period_end session = [] ->
  let zeros :=
    EfficiencyEngine.Payload.Build (Some employee_id) (isoformat period_start)
      (isoformat period_end) (of_int 0) (of_int 0) (of_int 0) (of_int 0) (of_int 0)
      (of_int 0) None in
  exists session' row,
    EfficiencyEngine.compute_employee_efficiency employee_id period_start period_end
      session = Ok (session', zeros)
    /\ filter (EfficiencyEngine.period_key employee_id period_start period_end)
              (Session.efficiency_periods session') = [row]
    /\ stores row zeros.
Proof.
  intros K E zeros.
  assert (R : EfficiencyEngine.compute_employee_efficiency employee_id period_start
                period_end session
              = Ok (EfficiencyEngine._upsert_efficiency_period employee_id period_start
                      period_end zeros session, zeros)).
  { unfold EfficiencyEngine.compute_employee_efficiency,
      EfficiencyEngine._fetch_employee_jobcards.
    unfold period_cards in E; rewrite E.
    cbn [flat_map for_each bind]; rewrite ratios_Ok; cbn [bind].
    assert (Z : EfficiencyEngine.individual_payload employee_id period_start period_end
                  EfficiencyEngine.totals0 (ratios_of EfficiencyEngine.totals0)
                = zeros).
    { unfold EfficiencyEngine.individual_payload, zeros.
      f_equal; apply Qc_is_canon; reflexivity. }
    rewrite Z; reflexivity. }
  destruct (upsert_key_row employee_id period_start period_end zeros session K)
    as (base & F).
  do 2 eexists; split; [exact R|]; split; [exact F|].
  apply set_metrics_stores.
Qed.

Lemma stored_periods_session_keyed :
  periods_keyed stored_periods_session /\ periods_below_next stored_periods_session.
Proof.
  split.
  - unfold periods_keyed; cbn.
    repeat (constructor; [cbn; intuition discriminate|]); constructor.
  - repeat constructor.
Qed.

(** The theorem at employee 2, who has a stored period and no card: the
    stored row is overwritten with zeros. *)
Lemma employee_without_cards_gets_a_snapshot_of_zeros_witness :
  exists session' row,
    EfficiencyEngine.compute_employee_efficiency 2 (Date 2024 11 1) (Date 2024 11 30)
      stored_periods_session
    = Ok (session',
          EfficiencyEngine.Payload.Build (Some 2%Z) "2024-11-01" "2024-11-30"
            (of_int 0) (of_int 0) (of_int 0) (of_int 0) (of_int 0) (of_int 0) None)
    /\ filter (EfficiencyEngine.period_key 2 (Date 2024 11 1) (Date 2024 11 30))
              (Session.efficiency_periods session') = [row]
    /\ EfficiencyPeriod.time_efficiency row = Some (of_int 0).
Proof.
  destruct (employee_without_cards_gets_a_snapshot_of_zeros 2 (Date 2024 11 1)
              (Date 2024 11 30) stored_periods_session
              (proj1 stored_periods_session_keyed) eq_refl)
    as (session' & row & R & F & S).
  exists session', row; split; [exact R|]; split; [exact F|].
  exact (proj1 S).
Defined.

Lemma with_efficiency_periods_same (s : Session.t) :
  Session.with_efficiency_periods s (Session.efficiency_periods s)
    (Session.next_period_id s) = s.
Proof. destruct s; reflexivity. Qed.

Lemma collapsed_ids (employee_id : Z) (period_start period_end : date)
  (data : EfficiencyEngine.Payload.t) (first : EfficiencyPeriod.t)
  (rows : list EfficiencyPeriod.t) :
  map EfficiencyPeriod.id
      (collapsed employee_id period_start period_end data first rows)
  = map EfficiencyPeriod.id
        (filter (fun p =>
                   if EfficiencyEngine.period_key employee_id period_start period_end p
                   then (EfficiencyPeriod.id p =? EfficiencyPeriod.id first)%Z
                   else true) rows).
Proof.
  unfold collapsed; induction rows as [|p rows IH]; cbn [flat_map filter map];
    [reflexivity|].
  destruct (EfficiencyEngine.period_key employee_id period_start period_end p).
  - destruct (Z.eqb_spec (EfficiencyPeriod.id p) (EfficiencyPeriod.id first)) as [I|I];
      cbn [app map]; rewrite IH; [|reflexivity].
    now rewrite I.
  - cbn [app map]; now rewrite IH.
Qed.

(** The upsert keeps the primary key of the period table. *)
Lemma upsert_keeps_keys (employee_id : Z) (period_start period_end : date)
  (data : EfficiencyEngine.Payload.t) (session : Session.t) :
  periods_keyed session -> periods_below_next session ->
  periods_keyed
    (EfficiencyEngine._upsert_efficiency_period employee_id period_start period_end
       data session).
Proof.
  intros K B; unfold periods_keyed in *.
  destruct (filter (EfficiencyEngine.period_key employee_id period_start period_end)
                   (Session.efficiency_periods session)) as [|first dups] eqn:E.
  - rewrite (upsert_missing _ _ _ _ _ E).
    cbn [Session.efficiency_periods Session.with_efficiency_periods].
    rewrite map_app; apply NoDup_app; [exact K | repeat constructor; intros [] |].
    intros i Hi [<-|[]].
    apply in_map_iff in Hi; destruct Hi as (p & Ep & Hp).
    unfold periods_below_next in B; rewrite Forall_forall in B.
    specialize (B p Hp); unfold new_period in Ep; cbn in Ep; lia.
  - rewrite (upsert_existing _ _ _ _ _ first dups K E), collapsed_ids.
    now apply NoDup_map_filter.
Qed.

Lemma upsert_twice (employee_id : Z) (period_start period_end : date)
  (data : EfficiencyEngine.Payload.t) (session : Session.t) :
  periods_keyed session -> periods_below_next session ->
  let once :=
    EfficiencyEngine._upsert_efficiency_period employee_id period_start period_end
      data session in
  EfficiencyEngine._upsert_efficiency_period employee_id period_start period_end
    data once = once.
Proof.
  intros K B once.
  pose proof (upsert_keeps_keys employee_id period_start period_end data session K B)
    as K1; fold once in K1.
  destruct (upsert_key_row employee_id period_start period_end data session K)
    as (base & F); fold once in F.
  unfold EfficiencyEngine._upsert_efficiency_period at 1; rewrite F; cbv iota beta.
  rewrite <- (with_efficiency_periods_same once) at 4; f_equal.
  rewrite <- (map_id (Session.efficiency_periods once)) at 2.
  apply map_ext_in; intros p Hp.
  destruct (Z.eqb_spec (EfficiencyPeriod.id p)
              (EfficiencyPeriod.id (EfficiencyEngine.set_metrics base data)))
    as [I|I]; [|reflexivity].
  assert (Hin : In (EfficiencyEngine.set_metrics base data)
                   (Session.efficiency_periods once)).
  { assert (H' : In (EfficiencyEngine.set_metrics base data)
                    [EfficiencyEngine.set_metrics base data]) by now left.
    rewrite <- F in H'; now apply filter_In in H'. }
  rewrite (period_injective employee_id period_start period_end _ _ _ K1 Hp Hin I).
  reflexivity.
Qed.

(** X12.  Recomputing is idempotent: with the primary key of the period table
    in place and every key below the next one, computing an employee's
    efficiency for a period a second time returns the same dictionary and
    leaves the session exactly as the first computation left it. *)
Theorem recomputing_an_efficiency_changes_nothing
  (employee_id : Z) (period_start period_end : date)
  (session once : Session.t) (payload : EfficiencyEngine.Payload.t) :
  periods_keyed session -> periods_below_next session ->
  EfficiencyEngine.compute_employee_efficiency employee_id period_start period_end
    session = Ok (once, payload) ->
  EfficiencyEngine.compute_employee_efficiency employee_id period_start period_end
    once = Ok (once, payload).
Proof.
  intros K B H.
  unfold EfficiencyEngine.compute_employee_efficiency in H |- *.
  destruct (accumulate_rows
              (EfficiencyEngine._fetch_employee_jobcards employee_id period_start
                 period_end session) EfficiencyEngine.totals0) as (t & R & _).
  rewrite R in H; cbn [bind] in H; rewrite ratios_Ok in H; cbn [bind] in H.
  injection H as <- <-.
  set (data := EfficiencyEngine.individual_payload employee_id period_start period_end
                 t (ratios_of t)).
  set (once := EfficiencyEngine._upsert_efficiency_period employee_id period_start
                 period_end data session).
  assert (F : EfficiencyEngine._fetch_employee_jobcards employee_id period_start
                period_end once
              = EfficiencyEngine._fetch_employee_jobcards employee_id period_start
                  period_end session).
  { apply fetch_reads_cards_and_activities; unfold once,
      EfficiencyEngine._upsert_efficiency_period;
      destruct (filter _ (Session.efficiency_periods session)) as [|first [|d dups]];
      reflexivity. }
  rewrite F, R; cbn [bind]; rewrite ratios_Ok; cbn [bind].
  fold data; unfold once; rewrite (upsert_twice _ _ _ data session K B); reflexivity.
Qed.

(** The theorem at a table that already holds a period of the employee
    and one of another. *)
Lemma recomputing_an_efficiency_changes_nothing_witness :
  exists once payload,
    EfficiencyEngine.compute_employee_efficiency 1 (Date 2024 11 1) (Date 2024 11 30)
      stored_periods_session = Ok (once, payload)
    /\ EfficiencyEngine.compute_employee_efficiency 1 (Date 2024 11 1) (Date 2024 11 30)
         once = Ok (once, payload)
    /\ List.length (Session.efficiency_periods once) = 2%nat.
Proof.
  destruct (EfficiencyEngine.compute_employee_efficiency 1 (Date 2024 11 1)
              (Date 2024 11 30) stored_periods_session) as [[once payload]|] eqn:R;
    [|discriminate R].
  exists once, payload; split; [reflexivity|]; split.
  - exact (recomputing_an_efficiency_changes_nothing 1 (Date 2024 11 1)
             (Date 2024 11 30) stored_periods_session once payload
             (proj1 stored_periods_session_keyed) (proj2 stored_periods_session_keyed)
             R).
  - injection R as <- _; reflexivity.
Defined.

End EfficiencyProperties.

(** ** The team average *)

Section TeamAverage.

Open Scope Qc_scope.

Lemma member_of_team (team_name : string) (employee_id : Z)
  (employees : list EfficiencyEmployee.t) :
  existsb (Z.eqb employee_id)
    (map EfficiencyEmployee.id
       (filter (fun e => match EfficiencyEmployee.team e with
                         | Some x => String.eqb x team_name
                         | None => false
                         end) employees))
  = existsb (fun e => (EfficiencyEmployee.id e =? employee_id)%Z
                      && match EfficiencyEmployee.team e with
                         | Some x => String.eqb x team_name
                         | None => false
                         end) employees.
Proof.
  induction employees as [|e employees IH]; cbn [filter map existsb]; [reflexivity|].
  destruct (match EfficiencyEmployee.team e with
            | Some x => String.eqb x team_name
            | None => false
            end); cbn [map existsb]; rewrite IH.
  - now rewrite andb_true_r, Z.eqb_sym.
  - now rewrite andb_false_r.
Qed.

(** The rows the average is taken over, as the two queries select them. *)
Lemma team_average_rows (team_name : string) (period_start period_end : date)
  (session : Session.t) :
  filter (fun p =>
            existsb (Z.eqb (EfficiencyPeriod.employee_id p))
              (map EfficiencyEmployee.id
                 (filter (fun e => match EfficiencyEmployee.team e with
                                   | Some x => String.eqb x team_name
                                   | None => false
                                   end) (Session.employees session)))
            && EfficiencyEngine.date_eqb (EfficiencyPeriod.period_start p) period_start
            && EfficiencyEngine.date_eqb (EfficiencyPeriod.period_end p) period_end
            && float_leb (EfficiencyPeriod.awc_pct p) (Q2Qc 0.5))
         (Session.efficiency_periods session)
  = team_rows team_name period_start period_end session.
Proof.
  unfold team_rows; apply filter_ext; intro p.
  now rewrite member_of_team.
Qed.

(** X13.  The team average always returns: no division raises, since the only
    divisor is the number of rows averaged and the rows are not empty
    when it is used.  Its answer names no employee and carries the period;
    with no team it is the zero snapshot without team, and for a team
    without a row to average (no member, no row of a member for exactly
    the period, or only rows whose AWC share exceeds one half) it is the
    zero snapshot of the team. *)
Theorem team_average_always_returns
  (team : option string) (period_start period_end : date) (session : Session.t) :
  exists payload,
    EfficiencyEngine.compute_team_average team period_start period_end session
    = Ok payload
    /\ EfficiencyEngine.Payload.employee_id payload = None
    /\ EfficiencyEngine.Payload.period_start payload = isoformat period_start
    /\ EfficiencyEngine.Payload.period_end payload = isoformat period_end
    /\ match team with
       | None | Some EmptyString =>
           payload = EfficiencyEngine.zero_payload period_start period_end None
       | Some team_name =>
           EfficiencyEngine.Payload.team payload = Some team
           /\ (team_rows team_name period_start period_end session = [] ->
               payload = EfficiencyEngine.zero_payload period_start period_end team)
       end.
Proof.
  destruct team as [[|c name]|];
    [eexists; repeat split; reflexivity| |eexists; repeat split; reflexivity].
  set (team_name := String c name).
  pose proof (team_average_rows team_name period_start period_end session) as Rows.
  unfold EfficiencyEngine.compute_team_average; fold team_name.
  destruct (map EfficiencyEmployee.id _) as [|e emp_ids] eqn:Ids.
  { eexists; repeat split; reflexivity. }
  rewrite Rows.
  destruct (team_rows team_name period_start period_end session) as [|p rows] eqn:T.
  { eexists; repeat split; reflexivity. }
  rewrite !(truediv_Ok _ (of_int (Z.of_nat (List.length (p :: rows)))))
    by (apply of_int_pos; cbn [List.length]; lia).
  cbn [bind]; eexists; split; [reflexivity|].
  repeat split; discriminate.
Qed.

(** X14.  A stored period whose AWC share exceeds one half does not enter any
    team average: with such a row put anywhere into the period table, the
    average of every team and period is what it was without it. *)
Theorem team_average_ignores_rows_above_half_awc
  (team : option string) (period_start period_end : date) (session : Session.t)
  (before after : list EfficiencyPeriod.t) (row : EfficiencyPeriod.t) :
  Session.efficiency_periods session = before ++ after ->
  Q2Qc 0.5 < EfficiencyPeriod.awc_pct row ->
  EfficiencyEngine.compute_team_average team period_start period_end
    (with_periods session (before ++ row :: after))
  = EfficiencyEngine.compute_team_average team period_start period_end session.
Proof.
  intros E H.
  apply float_leb_gt in H.
  unfold EfficiencyEngine.compute_team_average, with_periods.
  destruct team as [[|c name]|]; [reflexivity| |reflexivity].
  cbn [Session.with_efficiency_periods Session.employees Session.efficiency_periods].
  cbv zeta.
  rewrite E, !filter_app; cbn [filter]; rewrite H, !andb_false_r; reflexivity.
Qed.

Lemma team_average_ignores_rows_above_half_awc_witness :
  let member := EfficiencyEmployee.Build 1 (Some "A"%string) in
  let light := EfficiencyPeriod.Build 1 1 (Date 2024 11 1) (Date 2024 11 30)
                 (Some (of_int 90)) (Some (of_int 100)) (Some (of_int 0))
                 (Q2Qc 0.1) (of_int 9) (of_int 10) in
  let heavy := EfficiencyPeriod.Build 2 1 (Date 2024 11 1) (Date 2024 11 30)
                 (Some (of_int 10)) (Some (of_int 0)) (Some (of_int 0))
                 (Q2Qc 0.8) (of_int 1) (of_int 10) in
  let session := Session.Build [member] [] [] [] [] [light] 1 3 in
  EfficiencyEngine.compute_team_average (Some "A"%string) (Date 2024 11 1)
    (Date 2024 11 30) (with_periods session [light; heavy])
  = EfficiencyEngine.compute_team_average (Some "A"%string) (Date 2024 11 1)
      (Date 2024 11 30) session.
Proof.
  intros member light heavy session.
  exact (team_average_ignores_rows_above_half_awc (Some "A"%string) (Date 2024 11 1)
           (Date 2024 11 30) session [light] [] heavy eq_refl eq_refl).
Defined.

End TeamAverage.

(** ** The split allocation: who is credited *)

Section SplitProperties.

Import SplitService.

Open Scope Qc_scope.

(** X15.  The answer of the service, for any work order and any state of the
    tables: it never raises; it lists each employee who has a flagged row
    in a group whose hours sum to more than zero, and no one else, each
    once; and the allocations come largest credit first. *)
Theorem splits_list_each_credited_employee_once_largest_credit_first
  (work_order_id : Z) (session : Session.t) :
  let flagged := flagged_jobcards work_order_id session in
  exists allocs,
    compute_splits_for_workorder work_order_id session = Ok allocs
    /\ descending allocs
    /\ NoDup (map Allocation.employee_id allocs)
    /\ (forall e, In e (map Allocation.employee_id allocs)
                  <-> exists jc, In jc flagged /\ JobCard.employee_id jc = Some e
                                 /\ credited flagged jc = true).
Proof.
  intro flagged.
  destruct (compute_splits_spec work_order_id session)
    as (allocs & Run & D & N & Who & _).
  exists allocs; repeat split; try assumption; apply Who.
Qed.





Lemma flagged_jobcards_ignore (work_order_id : Z) (session : Session.t)
  (before after : list ValidationFlag.t) (flag : ValidationFlag.t) :
  Session.validation_flags session = before ++ after ->
  counts_for_split flag = false
  \/ (forall jc, In jc (cards_of work_order_id session) ->
                 JobCard.id jc <> ValidationFlag.job_card_id flag) ->
  flagged_jobcards work_order_id (with_flags session (before ++ flag :: after))
  = flagged_jobcards work_order_id session.
Proof.
  intros E H; unfold flagged_jobcards, with_flags.
  cbn [Session.job_cards Session.validation_flags]; rewrite E.
  apply flat_map_ext_in; intros jc Hjc; f_equal.
  rewrite !filter_app; cbn [filter].
  replace ((ValidationFlag.job_card_id flag =? JobCard.id jc)%Z
           && FlagTypeEnum_eqb (ValidationFlag.flag_type flag) SPLIT_CANDIDATE
           && negb (ValidationFlag.resolved flag)) with false; [reflexivity|].
  symmetry; destruct H as [H|H].
  - unfold counts_for_split in H; rewrite <- andb_assoc, H; apply andb_false_r.
  - replace (ValidationFlag.job_card_id flag =? JobCard.id jc)%Z with false;
      [reflexivity|].
    symmetry; apply Z.eqb_neq; intro I; exact (H jc Hjc (eq_sym I)).
Qed.

(** X19.  The service counts unresolved SPLIT_CANDIDATE flags on the cards of
    the work order and nothing else: a flag that is resolved, or of
    another type, or on a card of another work order, put anywhere into
    the flag table, leaves the answer for the work order as it was.  So
    resolving a SPLIT_CANDIDATE flag takes its card's row out of the
    allocation, and no other flag of the validation engine bears on it. *)
Theorem splits_count_only_open_split_flags_of_the_work_order
  (work_order_id : Z) (session : Session.t)
  (before after : list ValidationFlag.t) (flag : ValidationFlag.t) :
  Session.validation_flags session = before ++ after ->
  counts_for_split flag = false
  \/ (forall jc, In jc (cards_of work_order_id session) ->
                 JobCard.id jc <> ValidationFlag.job_card_id flag) ->
  compute_splits_for_workorder work_order_id
    (with_flags session (before ++ flag :: after))
  = compute_splits_for_workorder work_order_id session.
Proof.
  intros E H.
  unfold compute_splits_for_workorder, credit_sums, load_activities.
  rewrite (flagged_jobcards_ignore work_order_id session before after flag E H).
  reflexivity.
Qed.

(** The theorem at the second flag of a card, once resolved: the card
    counts once again. *)
Lemma splits_count_only_open_split_flags_of_the_work_order_witness :
  let resolved := ValidationFlag.Build (Some 3%Z) 1 SPLIT_CANDIDATE [] true in
  compute_splits_for_workorder 1
    (with_flags two_card_session [split_flag 1 1; split_flag 2 2; resolved])
  = compute_splits_for_workorder 1 two_card_session.
Proof.
  intro resolved.
  exact (splits_count_only_open_split_flags_of_the_work_order 1 two_card_session
           [split_flag 1 1; split_flag 2 2] [] resolved eq_refl (or_introl eq_refl)).
Defined.

End SplitProperties.

(** ** From the engine to the split service *)

Section EngineToSplit.

Import SplitService.

Open Scope Z_scope.

Lemma run_for_jobcard_stores_answer (jobcard : JobCard.t) (session session' : Session.t)
  (flags : list ValidationFlag.t) :
  ValidationEngine.run_for_jobcard ValidationEngine.init jobcard session
  = Ok (session', flags) ->
  forall f, In f flags -> In f (Session.validation_flags session').
Proof.
  rewrite run_for_jobcard_unfold; intros H f Hf.
  repeat match type of H with
         | bind ?m _ = Ok _ => destruct m; cbn [bind] in H; [|discriminate H]
         end.
  match type of H with
  | Ok (ValidationEngine.add_all ?raw ?cleared) = _ =>
      pose proof (add_all_spec raw cleared) as S;
      destruct (ValidationEngine.add_all raw cleared) as [s2 out]
  end.
  injection H as <- <-; destruct S as (_ & -> & _).
  apply in_or_app; now right.
Qed.

Lemma keyed_from_In (i : Z) (flags : list ValidationFlag.t) (f : ValidationFlag.t) :
  In f flags -> exists k, In (keyed k f) (keyed_from i flags).
Proof.
  revert i; induction flags as [|g flags IH]; intros i H; [destruct H|].
  destruct H as [->|H].
  - exists i; now left.
  - destruct (IH (i + 1) H) as (k & Hk); exists k; now right.
Qed.

(** X20.  What the engine finds, the split service reads: after a completed run
    on a stored Incomplete card of a work order, the card and every
    Complete card that rule 4 matched with it are rows of the join the
    split allocation of that work order starts from. *)
Theorem split_candidates_of_a_run_are_rows_of_the_allocation
  (jobcard : JobCard.t) (session session' : Session.t)
  (flags : list ValidationFlag.t) (work_order_id : Z) :
  ValidationEngine.run_for_jobcard ValidationEngine.init jobcard session
  = Ok (session', flags) ->
  In jobcard (Session.job_cards session) ->
  JobCard.status jobcard = IC ->
  JobCard.work_order_id jobcard = Some work_order_id ->
  ValidationEngine.completed_by_others jobcard session <> [] ->
  In jobcard (flagged_jobcards work_order_id session')
  /\ forall other,
       In other (ValidationEngine.completed_by_others jobcard session) ->
       In other (flagged_jobcards work_order_id session').
Proof.
  intros H Hin St W Ne.
  pose proof (run_for_jobcard_stores_answer _ _ _ _ H) as Stored.
  destruct (run_for_jobcard_answer _ _ _ _ H)
    as (f1 & f2 & f3 & f4 & f5 & _ & _ & _ & R4 & _ & E & Fr).
  destruct Fr as (_ & _ & _ & J & _ & _).
  destruct (split_candidate_rule_incomplete jobcard session St) as (f4' & R4' & Ids & All).
  rewrite R4 in R4'; injection R4' as <-.
  destruct (ValidationEngine.completed_by_others jobcard session) as [|o others] eqn:Q;
    [congruence|].
  assert (Row : forall c,
             In c (Session.job_cards session) ->
             JobCard.work_order_id c = Some work_order_id ->
             In (JobCard.id c) (map ValidationFlag.job_card_id f4) ->
             In c (flagged_jobcards work_order_id session')).
  { intros c Hc Wc Hid.
    apply in_map_iff in Hid; destruct Hid as (g & Eg & Hg).
    rewrite Forall_forall in All; destruct (All g Hg) as (T & U & _).
    destruct (keyed_from_In (Session.next_flag_id session)
                (f1 ++ f2 ++ f3 ++ f4 ++ f5) g) as (k & Hk).
    { do 3 (apply in_or_app; right); apply in_or_app; now left. }
    rewrite <- E in Hk; apply Stored in Hk.
    unfold flagged_jobcards; apply in_flat_map; exists c; split.
    - apply filter_In; rewrite J; split; [exact Hc|].
      rewrite Wc; cbn [Session.sql_eq]; apply Z.eqb_refl.
    - apply in_map_iff; exists (keyed k g); split; [reflexivity|].
      apply filter_In; split; [exact Hk|].
      cbn [keyed ValidationFlag.job_card_id ValidationFlag.flag_type
           ValidationFlag.resolved].
      now rewrite Eg, T, U, Z.eqb_refl. }
  rewrite Ids in Row; split.
  - apply Row; [exact Hin | exact W | now left].
  - intros other Ho.
    assert (Ho' : In other (ValidationEngine.completed_by_others jobcard session))
      by now rewrite Q.
    unfold ValidationEngine.completed_by_others in Ho'.
    apply filter_In in Ho'; destruct Ho' as [Hc P].
    repeat (apply andb_prop in P; destruct P as [P ?]).
    apply Row; [exact Hc | | right; now apply in_map].
    match goal with
    | X : Session.sql_eq (JobCard.work_order_id other) _ = true |- _ =>
        rewrite W in X; destruct (JobCard.work_order_id other) as [k|];
        cbn [Session.sql_eq] in X; [|discriminate X];
        apply Z.eqb_eq in X; now subst
    end.
Qed.

Lemma split_candidates_of_a_run_are_rows_of_the_allocation_witness :
  let c1 := sample_card 1 1 (of_int 50) (of_int 5) C (Date 2024 11 5) in
  let c3 := sample_card 3 3 (of_int 30) (of_int 3) IC (Date 2024 11 6) in
  let session := sample_session [c1; c3] [] in
  exists session' flags,
    ValidationEngine.run_for_jobcard ValidationEngine.init c3 session
    = Ok (session', flags)
    /\ flagged_jobcards 1 session = []
    /\ In c3 (flagged_jobcards 1 session')
    /\ In c1 (flagged_jobcards 1 session').
Proof.
  intros c1 c3 session.
  destruct (ValidationEngine.run_for_jobcard ValidationEngine.init c3 session)
    as [[session' flags]|] eqn:R; [|discriminate R].
  exists session', flags; split; [reflexivity|]; split; [reflexivity|].
  destruct (split_candidates_of_a_run_are_rows_of_the_allocation c3 session session'
              flags 1 R (or_intror (or_introl eq_refl)) eq_refl eq_refl
              ltac:(discriminate)) as [Own Others].
  split; [exact Own|].
  apply Others; now left.
Defined.

End EngineToSplit.

(** ** Work assignment: the equal split *)

Section AutoSplit.

Import Supervisor.

Open Scope Qc_scope.

Lemma comprehension_new_assignments (hours qty : float)
  (assignments : list AssignmentItem.t) :
  of_int 0 < hours -> of_int 0 < qty ->
  comprehension (fun a => new_assignment (AssignmentItem.employee_id a) hours qty)
                assignments
  = Return (map (fun a => AssignmentItem.Build (AssignmentItem.employee_id a) hours qty)
                assignments).
Proof.
  intros H Q; induction assignments as [|a assignments IH]; [reflexivity|].
  cbn [comprehension map]; unfold new_assignment at 1.
  apply float_ltb_lt in H, Q; rewrite H, Q, IH; reflexivity.
Qed.

Lemma mean_positive (l : list float) :
  l <> [] -> (forall x, In x l -> of_int 0 < x) ->
  of_int 0 < sum l / of_int (Z.of_nat (List.length l)).
Proof.
  intros Ne H.
  pose proof (sum_positive l Ne H) as S.
  assert (N : (0 < Z.of_nat (List.length l))%Z)
    by (destruct l; [congruence | cbn [List.length]; lia]).
  assert (P : of_int 0 < of_int (Z.of_nat (List.length l))).
  { unfold Qclt; cbn [this of_int Q2Qc]; rewrite !Qred_correct.
    unfold Qlt; cbn [Qnum Qden inject_Z]; lia. }
  apply Qcnot_le_lt; intro L.
  assert (M : sum l / of_int (Z.of_nat (List.length l))
              * of_int (Z.of_nat (List.length l))
              <= of_int 0 * of_int (Z.of_nat (List.length l))).
  { apply Qcmult_le_compat_r; [exact L | now apply Qclt_le_weak]. }
  replace (sum l / of_int (Z.of_nat (List.length l))
           * of_int (Z.of_nat (List.length l))) with (sum l) in M
    by (field; now apply of_int_pos).
  replace (of_int 0 * of_int (Z.of_nat (List.length l))) with (of_int 0) in M
    by float_ring.
  exact (Qclt_not_le _ _ S M).
Qed.

(** X21.  The equal split of [auto_split_hours]: for a request with at least
    one assignment, each with positive hours and quantity (as the request
    schema validates them), [_auto_split_hours] returns one assignment per
    given one, for the same employees in the same order, each with the
    mean of the given hours and the mean of the given quantities, that
    is the total divided by the number of assignments.  The supervisor's
    module and the employee table are not consulted. *)
Theorem auto_split_hands_out_the_totals_in_equal_parts
  (efficiency_module : option EfficiencyTypeEnum)
  (assignments : list AssignmentItem.t) (employees : list Employee.t) :
  assignments <> [] ->
  (forall a, In a assignments ->
             of_int 0 < AssignmentItem.hours a /\ of_int 0 < AssignmentItem.qty a) ->
  let n := of_int (Z.of_nat (List.length assignments)) in
  let total_hours := sum (map AssignmentItem.hours assignments) in
  let total_qty := sum (map AssignmentItem.qty assignments) in
  exists shares,
    _auto_split_hours efficiency_module assignments employees = Return shares
    /\ map AssignmentItem.employee_id shares
       = map AssignmentItem.employee_id assignments
    /\ Forall (fun s => AssignmentItem.hours s = total_hours / n
                        /\ AssignmentItem.qty s = total_qty / n) shares.
Proof.
  intros Ne Pos n total_hours total_qty.
  assert (N : n <> of_int 0).
  { apply of_int_pos.
    destruct assignments; [congruence | cbn [List.length]; lia]. }
  assert (Hh : of_int 0 < total_hours / n).
  { unfold total_hours, n; rewrite <- (length_map AssignmentItem.hours).
    apply mean_positive; [now destruct assignments|].
    intros x Hx; apply in_map_iff in Hx; destruct Hx as (a & <- & Ha).
    apply Pos, Ha. }
  assert (Hq : of_int 0 < total_qty / n).
  { unfold total_qty, n; rewrite <- (length_map AssignmentItem.qty).
    apply mean_positive; [now destruct assignments|].
    intros x Hx; apply in_map_iff in Hx; destruct Hx as (a & <- & Ha).
    apply Pos, Ha. }
  exists (map (fun a => AssignmentItem.Build (AssignmentItem.employee_id a)
                          (total_hours / n) (total_qty / n)) assignments).
  split; [|split].
  - unfold _auto_split_hours.
    destruct assignments as [|a0 rest]; [congruence|].
    fold n total_hours total_qty; cbv zeta.
    rewrite !truediv_Ok by exact N; cbn [of_result and_then].
    now apply comprehension_new_assignments.
  - rewrite map_map; reflexivity.
  - apply Forall_map, Forall_forall; intros a _; split; reflexivity.
Qed.

(** The theorem at 6 and 2 hours for 30 and 10 units: 4 hours and 20
    units each. *)
Lemma auto_split_hands_out_the_totals_in_equal_parts_witness :
  let given := [AssignmentItem.Build 1 (of_int 6) (of_int 30);
                AssignmentItem.Build 2 (of_int 2) (of_int 10)] in
  exists shares,
    _auto_split_hours None given [] = Return shares
    /\ map AssignmentItem.employee_id shares = [1%Z; 2%Z]
    /\ Forall (fun s => AssignmentItem.hours s = of_int 4
                        /\ AssignmentItem.qty s = of_int 20) shares.
Proof.
  intro given.
  destruct (auto_split_hands_out_the_totals_in_equal_parts None given []
              ltac:(discriminate)) as (shares & R & Ids & Each).
  - intros a [<-|[<-|[]]]; split; reflexivity.
  - exists shares; split; [exact R|]; split; [exact Ids|].
    assert (Th : sum (map AssignmentItem.hours given)
                 / of_int (Z.of_nat (List.length given)) = of_int 4)
      by (apply Qc_is_canon; reflexivity).
    assert (Tq : sum (map AssignmentItem.qty given)
                 / of_int (Z.of_nat (List.length given)) = of_int 20)
      by (apply Qc_is_canon; reflexivity).
    rewrite Th, Tq in Each; exact Each.
Defined.

(** X22.  Without assignments the mode creates nothing: [_auto_split_hours]
    then raises 400 (no module for the supervisor, or no active operator)
    or returns the empty list, never an assignment. *)
Theorem auto_split_without_assignments_assigns_nothing
  (efficiency_module : option EfficiencyTypeEnum) (employees : list Employee.t) :
  let active_operators :=
    filter (fun e => Employee.is_active e && RoleEnum_eqb (Employee.role e) OPERATOR)
           employees in
  (exists detail,
      _auto_split_hours efficiency_module [] employees
      = Fail (HTTPException 400 detail)
      /\ (efficiency_module = None \/ active_operators = []))
  \/ (_auto_split_hours efficiency_module [] employees = Return []
      /\ efficiency_module <> None /\ active_operators <> []).
Proof.
  intro active_operators; unfold _auto_split_hours.
  destruct efficiency_module as [m|]; [|left; eexists; split; [reflexivity | now left]].
  fold active_operators.
  destruct active_operators as [|e rest] eqn:A.
  - left; eexists; split; [reflexivity | now right].
  - right; repeat split; discriminate.
Qed.

End AutoSplit.
(** ** The rows an efficiency is computed from *)

Section FetchedRows.

Open Scope Qc_scope.

Lemma at_most_one_activity (a : Z) (acts : list ActivityCode.t) :
  NoDup (map ActivityCode.id acts) ->
  (List.length (filter (fun act => (a =? ActivityCode.id act)%Z) acts) <= 1)%nat.
Proof.
  induction acts as [|x acts IH]; cbn [map filter]; intro N; [cbn; lia|].
  inversion N as [|? ? Hx N']; subst.
  destruct (Z.eqb_spec a (ActivityCode.id x)) as [E|E]; [|now apply IH].
  rewrite filter_none; [cbn; lia|].
  intros y Hy; apply Z.eqb_neq; intro Ey.
  apply Hx; rewrite <- E, Ey; now apply in_map.
Qed.

(** With the primary key of the activity codes in place a card names at
    most one of them, so the model's fetch is the cards of the employee
    and period, each with the stored activity code it names. *)
Lemma fetch_pairs_each_card (employee_id : Z) (period_start period_end : date)
  (session : Session.t) :
  activities_keyed session ->
  EfficiencyEngine._fetch_employee_jobcards employee_id period_start period_end session
  = map (fun jc => (jc, stored_activity session jc))
        (period_cards employee_id period_start period_end session).
Proof.
  intro K; rewrite fetch_card_by_card.
  rewrite (flat_map_ext _ (fun jc => [(jc, stored_activity session jc)])).
  - induction (period_cards employee_id period_start period_end session)
      as [|jc cards IH]; [reflexivity|].
    cbn [flat_map map app]; now rewrite IH.
  - intro jc; unfold stored_activity, activities_of.
    destruct (JobCard.activity_code_id jc) as [a|].
    + pose proof (at_most_one_activity a _ K) as L.
      destruct (filter _ (Session.activity_codes session)) as [|act [|act' acts]];
        [reflexivity | reflexivity | cbn [List.length] in L; lia].
    + now rewrite filter_none.
Qed.

Lemma stored_activity_joined (session : Session.t) (jc : JobCard.t) :
  joined session (jc, stored_activity session jc).
Proof.
  unfold joined, stored_activity, activities_of; cbn [fst snd].
  destruct (filter _ (Session.activity_codes session)) as [|act acts] eqn:F;
    cbn [hd_error].
  - intros act Hact E.
    assert (Hin : In act (filter (fun act0 => match JobCard.activity_code_id jc with
                                              | Some a => (a =? ActivityCode.id act0)%Z
                                              | None => false
                                              end) (Session.activity_codes session)))
      by (apply filter_In; split; [exact Hact | rewrite E; apply Z.eqb_refl]).
    rewrite F in Hin; exact Hin.
  - assert (Hin : In act (act :: acts)) by now left.
    rewrite <- F in Hin; apply filter_In in Hin; destruct Hin as [Hin E].
    destruct (JobCard.activity_code_id jc) as [a|]; [|discriminate].
    apply Z.eqb_eq in E; now subst.
Qed.

(** X23.  The outer join does not multiply cards: with the primary key of the
    activity codes in place, the fetch returns every card of the employee
    entered within the period exactly once (as a multiset: no order is
    claimed), each paired with the activity code it names, or with none
    when it names none that is stored.  Bounds of the period are
    included. *)
Theorem fetch_returns_each_card_of_the_period_once
  (employee_id : Z) (period_start period_end : date) (session : Session.t) :
  activities_keyed session ->
  Permutation
    (map fst (EfficiencyEngine._fetch_employee_jobcards employee_id period_start
                period_end session))
    (period_cards employee_id period_start period_end session)
  /\ Forall (joined session)
            (EfficiencyEngine._fetch_employee_jobcards employee_id period_start
               period_end session).
Proof.
  intro K; rewrite (fetch_pairs_each_card _ _ _ _ K), map_map; cbn [fst].
  rewrite map_id; split; [apply Permutation_refl|].
  apply Forall_map, Forall_forall; intros jc _; apply stored_activity_joined.
Qed.

(** The theorem at the two cards of employee 1, entered on the first and
    on the last day of the period. *)
Lemma fetch_returns_each_card_of_the_period_once_witness :
  period_cards 1 (Date 2024 11 5) (Date 2024 11 6) mostly_awc_session
  = Session.job_cards mostly_awc_session
  /\ Permutation
       (map fst (EfficiencyEngine._fetch_employee_jobcards 1 (Date 2024 11 5)
                   (Date 2024 11 6) mostly_awc_session))
       (Session.job_cards mostly_awc_session)
  /\ Forall (joined mostly_awc_session)
            (EfficiencyEngine._fetch_employee_jobcards 1 (Date 2024 11 5)
               (Date 2024 11 6) mostly_awc_session).
Proof.
  split; [reflexivity|].
  apply (fetch_returns_each_card_of_the_period_once 1 (Date 2024 11 5) (Date 2024 11 6)
           mostly_awc_session).
  repeat constructor; intros [].
Defined.

(** The sums over the fetched rows are sums over the cards. *)
Lemma sum_over_fetched (session : Session.t) (cards : list JobCard.t)
  (on_row : JobCard.t * option ActivityCode.t -> float)
  (on_card : JobCard.t -> float) (keep : bool) :
  (forall jc, on_row (jc, stored_activity session jc) = on_card jc) ->
  sum (map on_row
           (filter (fun r => Bool.eqb (coded r) keep)
                   (map (fun jc => (jc, stored_activity session jc)) cards)))
  = sum (map on_card (filter (fun jc => Bool.eqb (card_coded session jc) keep) cards)).
Proof.
  intro H; induction cards as [|jc cards IH]; [reflexivity|].
  cbn [map filter].
  assert (C : coded (jc, stored_activity session jc) = card_coded session jc).
  { unfold coded, card_coded, stored_activity, activities_of; cbn [fst snd].
    destruct (JobCard.activity_code_id jc);
      [now destruct (hd_error _) | now rewrite filter_none]. }
  rewrite C; destruct (Bool.eqb (card_coded session jc) keep); [|exact IH].
  cbn [map]; now rewrite !sum_cons, IH, H.
Qed.

(** X24.  The hours a snapshot reports, with the primary key of the activity
    codes in place: [actual_hours] is the sum of the hours of the coded
    cards of the employee and period only (those that name a stored
    activity code), and [standard_hours_allowed] the sum of quantity times
    standard hours per unit over the same cards, both rounded to two
    places.  The hours of the other cards enter the AWC share and nothing
    else: [awc_pct] is their sum divided by the hours of all cards
    (floored at EPS), rounded to four places, and 0 when the hours of all
    cards do not sum to more than 0. *)
Theorem snapshot_hours_are_those_of_the_coded_cards
  (employee_id : Z) (period_start period_end : date) (session : Session.t) :
  activities_keyed session ->
  let cards := period_cards employee_id period_start period_end session in
  let productive :=
    sum (map JobCard.actual_hours (filter (card_coded session) cards)) in
  let awc :=
    sum (map JobCard.actual_hours
             (filter (fun jc => negb (card_coded session jc)) cards)) in
  let standard := sum (map (card_std_hours session) (filter (card_coded session) cards)) in
  exists session' payload,
    EfficiencyEngine.compute_employee_efficiency employee_id period_start period_end
      session = Ok (session', payload)
    /\ EfficiencyEngine.Payload.actual_hours payload = round productive 2
    /\ EfficiencyEngine.Payload.standard_hours_allowed payload = round standard 2
    /\ EfficiencyEngine.Payload.awc_pct payload
       = round (if float_ltb (of_int 0) (productive + awc)
                then awc / max (productive + awc) EfficiencyEngine.EPS
                else of_int 0) 4
    /\ (filter (card_coded session) cards = [] ->
        EfficiencyEngine.Payload.actual_hours payload = of_int 0
        /\ EfficiencyEngine.Payload.time_efficiency payload = of_int 0).
Proof.
  intros K cards productive awc standard.
  destruct (compute_employee_efficiency_Ok employee_id period_start period_end session)
    as (t & Run & P & A & S & _).
  rewrite (fetch_pairs_each_card _ _ _ _ K) in P, A, S; fold cards in P, A, S.
  assert (Yes : forall (l : list (JobCard.t * option ActivityCode.t)),
             filter coded l = filter (fun r => Bool.eqb (coded r) true) l)
    by (intro l; apply filter_ext; intro r; now destruct (coded r)).
  assert (No : forall (l : list (JobCard.t * option ActivityCode.t)),
             filter (fun r => negb (coded r)) l
             = filter (fun r => Bool.eqb (coded r) false) l)
    by (intro l; apply filter_ext; intro r; now destruct (coded r)).
  assert (Yes' : filter (card_coded session) cards
                 = filter (fun jc => Bool.eqb (card_coded session jc) true) cards)
    by (apply filter_ext; intro jc; now destruct (card_coded session jc)).
  assert (No' : filter (fun jc => negb (card_coded session jc)) cards
                = filter (fun jc => Bool.eqb (card_coded session jc) false) cards)
    by (apply filter_ext; intro jc; now destruct (card_coded session jc)).
  rewrite Yes, (sum_over_fetched session cards row_hours JobCard.actual_hours true),
    <- Yes' in P by reflexivity.
  rewrite No, (sum_over_fetched session cards row_hours JobCard.actual_hours false),
    <- No' in A by reflexivity.
  rewrite Yes, (sum_over_fetched session cards row_std_hours (card_std_hours session)
                  true), <- Yes' in S
    by (intro jc; unfold row_std_hours, card_std_hours; reflexivity).
  fold productive in P; fold awc in A; fold standard in S.
  do 2 eexists; split; [exact Run|].
  cbn [EfficiencyEngine.individual_payload EfficiencyEngine.Payload.actual_hours
       EfficiencyEngine.Payload.standard_hours_allowed
       EfficiencyEngine.Payload.awc_pct EfficiencyEngine.Payload.time_efficiency].
  unfold ratios_of; cbn [EfficiencyEngine.awc_pct EfficiencyEngine.time_efficiency].
  rewrite P, A, S; split; [reflexivity|]; split; [reflexivity|]; split; [reflexivity|].
  intro E; unfold productive, standard; rewrite E; cbn [map]; rewrite sum_nil.
  split; apply Qc_is_canon; reflexivity.
Qed.

(** The theorem at a card of 8 hours without activity code and a card of
    2 hours and 4 units at half an hour a unit: 2 productive hours, 2
    standard hours, an AWC share of 8 / 10. *)
Lemma snapshot_hours_are_those_of_the_coded_cards_witness :
  exists session' payload,
    EfficiencyEngine.compute_employee_efficiency 1 (Date 2024 11 1) (Date 2024 11 30)
      mostly_awc_session = Ok (session', payload)
    /\ EfficiencyEngine.Payload.actual_hours payload = of_int 2
    /\ EfficiencyEngine.Payload.standard_hours_allowed payload = of_int 2
    /\ EfficiencyEngine.Payload.awc_pct payload = Q2Qc 0.8.
Proof.
  assert (K : activities_keyed mostly_awc_session)
    by (repeat constructor; intros []).
  destruct (snapshot_hours_are_those_of_the_coded_cards 1 (Date 2024 11 1)
              (Date 2024 11 30) mostly_awc_session K)
    as (s & p & Run & H & S & A & _).
  exists s, p; split; [exact Run|].
  rewrite H, S, A; repeat split; apply Qc_is_canon; reflexivity.
Defined.

End FetchedRows.
